(** * Extractor: the normalisation engine of src/extract/extractor.py

    A shallow embedding of the [Extractor] class: the dynamic value tree
    ([generate_data_object]), the path resolver ([safe_extract]), the quality
    selectors, the two platform adapters, the [batch] and [detail] pipelines,
    the date filters and the identity preprocessor.

    Python values are a tagged union.  Numbers are integers ([Z]); text is a
    [string] of bytes (UTF-8 for text outside ASCII, so indexing and [int()]
    are exact on ASCII text).  Exceptions are values of [exn]; a fallible
    computation returns an [outcome].  Code that logs, counts or persists
    threads a [world] through a small state-and-exception monad. *)

From Stdlib Require Import ZArith List Ascii String Bool Lia Sorted Permutation.
From stdpp Require Import base option list strings gmap pretty.

Local Open Scope string_scope.
Local Open Scope Z_scope.

#[local] Set Warnings "-register-all".

(** ** Python values *)

Inductive value : Type :=
| VNone
| VBool (b : bool)
| VInt (z : Z)
| VStr (s : string)
| VList (l : list value)
| VDict (d : list (string * value))
| VNs (fields : list (string * value)).

(** [VDict] is a [dict] with [str] keys, [VNs] a [types.SimpleNamespace];
    both keep their entries in insertion order and a key occurs once. *)

Inductive exn : Type :=
| AttributeError | IndexError | KeyError | TypeError | ValueError
| OverflowError | OSError | DownloaderError.

Inductive outcome (A : Type) : Type :=
| Ok (a : A)
| Raise (e : exn).
Arguments Ok {A} a.
Arguments Raise {A} e.

Definition obind {A B} (m : outcome A) (k : A -> outcome B) : outcome B :=
  match m with
  | Ok a => k a
  | Raise e => Raise e
  end.

Declare Scope py_scope.
Delimit Scope py_scope with py.
Notation "'try!' x <- m ; k" := (obind m (fun x => k))
  (at level 10, x name, m at level 100, k at level 200) : py_scope.
Notation "'try!' ' p <- m ; k" := (obind m (fun x => let 'p := x in k))
  (at level 10, p pattern, m at level 100, k at level 200) : py_scope.
Local Open Scope py_scope.

Fixpoint omap {A B} (f : A -> outcome B) (l : list A) : outcome (list B) :=
  match l with
  | [] => Ok []
  | x :: rest =>
      try! y <- f x;
      try! ys <- omap f rest;
      Ok (y :: ys)
  end.

(** A nested induction principle for [value]. *)
Section value_induction.
Variable P : value -> Prop.
Hypothesis HNone : P VNone.
Hypothesis HBool : forall b, P (VBool b).
Hypothesis HInt : forall z, P (VInt z).
Hypothesis HStr : forall s, P (VStr s).
Hypothesis HList : forall l, Forall P l -> P (VList l).
Hypothesis HDict : forall d, Forall (fun kv => P (snd kv)) d -> P (VDict d).
Hypothesis HNs : forall d, Forall (fun kv => P (snd kv)) d -> P (VNs d).

Fixpoint value_nested_ind (v : value) : P v :=
  match v with
  | VNone => HNone
  | VBool b => HBool b
  | VInt z => HInt z
  | VStr s => HStr s
  | VList l =>
      HList l ((fix go (l : list value) : Forall P l :=
                  match l with
                  | [] => @List.Forall_nil _ P
                  | x :: r => @List.Forall_cons _ P x r (value_nested_ind x) (go r)
                  end) l)
  | VDict d =>
      HDict d ((fix go (d : list (string * value)) : Forall (fun kv => P (snd kv)) d :=
                  match d with
                  | [] => @List.Forall_nil _ (fun kv => P (snd kv))
                  | kv :: r => @List.Forall_cons _ (fun kv => P (snd kv)) kv r (value_nested_ind (snd kv)) (go r)
                  end) d)
  | VNs d =>
      HNs d ((fix go (d : list (string * value)) : Forall (fun kv => P (snd kv)) d :=
                match d with
                | [] => @List.Forall_nil _ (fun kv => P (snd kv))
                | kv :: r => @List.Forall_cons _ (fun kv => P (snd kv)) kv r (value_nested_ind (snd kv)) (go r)
                end) d)
  end.
End value_induction.

(** ** Built-in operations the extractor relies on *)

(** [bool(v)] *)
Definition truthy (v : value) : bool :=
  match v with
  | VNone => false
  | VBool b => b
  | VInt z => negb (z =? 0)
  | VStr s => negb (String.eqb s "")
  | VList l => match l with [] => false | _ => true end
  | VDict d => match d with [] => false | _ => true end
  | VNs _ => true
  end.

(** [a or b] *)
Definition py_or (a b : value) : value := if truthy a then a else b.

(** Entry of a [dict] or attribute of a namespace, by name. *)
Fixpoint assoc (k : string) (d : list (string * value)) : option value :=
  match d with
  | [] => None
  | (k', v) :: rest => if String.eqb k k' then Some v else assoc k rest
  end.

(** The attributes an [int] has of its own that are numbers again; a [bool]
    has them as the integer it is. *)
Definition number_attribute (z : Z) (name : string) : value :=
  if String.eqb name "real" then VInt z
  else if String.eqb name "numerator" then VInt z
  else if String.eqb name "denominator" then VInt 1
  else if String.eqb name "imag" then VInt 0
  else VNone.

(** [getattr(data, name, None)].  A namespace has the fields that
    [generate_data_object] set from the mapping's keys, and [__dict__], the
    mapping of these fields, which Python finds before any field.  An [int]
    or [bool] has its [real], [numerator], [denominator] and [imag].  The
    other attributes Python objects have of their own (the methods of [str],
    [list] and [int], [__class__], [__doc__] and the like) are objects no
    payload holds: they are not represented, [builtin_name] below covers
    every name that can be one, and what is stated for arbitrary names is
    stated for the names it leaves.  No path the extractor itself uses reads
    [__dict__] or a numeric attribute; of the names its paths read, [title]
    alone is a built-in one, the method of [str], met only where [music] is
    text, and nothing below depends on the value read there. *)
Definition getattr (data : value) (name : string) : value :=
  match data with
  | VNs fields =>
      if String.eqb name "__dict__" then VDict fields
      else default VNone (assoc name fields)
  | VInt z => number_attribute z name
  | VBool b => number_attribute (if b then 1 else 0) name
  | _ => VNone
  end.

(** The names without a leading underscore that [str], [int], [bool],
    [float], [list] or [dict] define. *)
Definition public_builtin_names : list string :=
  ["append"; "as_integer_ratio"; "bit_count"; "bit_length"; "capitalize"; "casefold";
   "center"; "clear"; "conjugate"; "copy"; "count"; "denominator"; "encode"; "endswith";
   "expandtabs"; "extend"; "find"; "format"; "format_map"; "from_bytes";
   "from_number"; "fromhex";
   "fromkeys"; "get"; "hex"; "imag"; "index"; "insert"; "is_integer"; "isalnum";
   "isalpha"; "isascii"; "isdecimal"; "isdigit"; "isidentifier"; "islower"; "isnumeric";
   "isprintable"; "isspace"; "istitle"; "isupper"; "items"; "join"; "keys"; "ljust";
   "lower"; "lstrip"; "maketrans"; "numerator"; "partition"; "pop"; "popitem"; "real";
   "remove"; "removeprefix"; "removesuffix"; "replace"; "reverse"; "rfind"; "rindex";
   "rjust"; "rpartition"; "rsplit"; "rstrip"; "setdefault"; "sort"; "split";
   "splitlines"; "startswith"; "strip"; "swapcase"; "title"; "to_bytes"; "translate";
   "update"; "upper"; "values"; "zfill"].

(** A name Python may resolve to an attribute the object has of its own:
    every name with a leading underscore, and the public names above. *)
Definition builtin_name (name : string) : bool :=
  match name with
  | String "_" _ => true
  | _ => existsb (String.eqb name) public_builtin_names
  end.

(** [data.name], for the payload names the selectors read *)
Definition attr (data : value) (name : string) : outcome value :=
  match data with
  | VNs fields =>
      match assoc name fields with
      | Some v => Ok v
      | None => Raise AttributeError
      end
  | _ => Raise AttributeError
  end.

(** Position of [seq[i]] in a sequence of length [n]; a negative index counts
    from the end. *)
Definition norm_index (n : nat) (i : Z) : option nat :=
  let j := if i <? 0 then i + Z.of_nat n else i in
  if (j <? 0) || (Z.of_nat n <=? j) then None else Some (Z.to_nat j).

Definition chars (s : string) : list value :=
  map (fun c => VStr (String c EmptyString)) (list_ascii_of_string s).

(** [v[i]] for an integer [i] *)
Definition getitem (v : value) (i : Z) : outcome value :=
  match v with
  | VList l =>
      match norm_index (length l) i with
      | Some j => match l !! j with Some x => Ok x | None => Raise IndexError end
      | None => Raise IndexError
      end
  | VStr s =>
      match norm_index (length (chars s)) i with
      | Some j => match chars s !! j with Some x => Ok x | None => Raise IndexError end
      | None => Raise IndexError
      end
  | VDict _ => Raise KeyError
  | VNone | VBool _ | VInt _ | VNs _ => Raise TypeError
  end.

(** [v[k]] for a [str] key [k] *)
Definition getitem_key (v : value) (k : string) : outcome value :=
  match v with
  | VDict d => match assoc k d with Some x => Ok x | None => Raise KeyError end
  | _ => Raise TypeError
  end.

(** [for x in v] *)
Definition py_iter (v : value) : outcome (list value) :=
  match v with
  | VList l => Ok l
  | VStr s => Ok (chars s)
  | VDict d => Ok (map (fun kv => VStr (fst kv)) d)
  | VNone | VBool _ | VInt _ | VNs _ => Raise TypeError
  end.

(** An [int], or a [bool] used as one. *)
Definition as_int (v : value) : option Z :=
  match v with
  | VInt z => Some z
  | VBool b => Some (if b then 1 else 0)
  | _ => None
  end.

(** *** Text *)

(** [s.split(c)] for a one-character separator *)
Fixpoint split_on (c : ascii) (s : string) : list string :=
  match s with
  | EmptyString => [EmptyString]
  | String a rest =>
      if Ascii.eqb a c then EmptyString :: split_on c rest
      else match split_on c rest with
           | hd :: tl => String a hd :: tl
           | [] => [String a EmptyString]
           end
  end.

(** [s.split(c, 1)]: the text before the first [c], and the text after it
    when [c] occurs. *)
Fixpoint split_once (c : ascii) (s : string) : string * option string :=
  match s with
  | EmptyString => (EmptyString, None)
  | String a rest =>
      if Ascii.eqb a c then (EmptyString, Some rest)
      else let '(h, t) := split_once c rest in (String a h, t)
  end.

(** The characters [int()] skips around the digits of ASCII text: tab, line
    feed, vertical tab, form feed, carriage return and space. *)
Definition is_space (c : ascii) : bool :=
  let n := nat_of_ascii c in
  ((9 <=? n) && (n <=? 13) || (n =? 32))%nat.

Definition digit_of (c : ascii) : option Z :=
  let n := nat_of_ascii c in
  if ((48 <=? n) && (n <=? 57))%nat then Some (Z.of_nat n - 48) else None.

Fixpoint lstrip (s : list ascii) : list ascii :=
  match s with
  | c :: rest => if is_space c then lstrip rest else s
  | [] => []
  end.

Definition strip (s : list ascii) : list ascii := rev (lstrip (rev (lstrip s))).

(** Digits with single underscores between them. *)
Fixpoint digits (acc : Z) (after_digit : bool) (s : list ascii) : option Z :=
  match s with
  | [] => if after_digit then Some acc else None
  | c :: rest =>
      match digit_of c with
      | Some d => digits (10 * acc + d) true rest
      | None =>
          if Ascii.eqb c "_" && after_digit
          then match rest with [] => None | _ => digits acc false rest end
          else None
      end
  end.

(** [int(s)] for a [str] *)
Definition py_int (s : string) : outcome Z :=
  let body := strip (list_ascii_of_string s) in
  let r :=
    match body with
    | c :: rest =>
        if Ascii.eqb c "-" then Z.opp <$> digits 0 false rest
        else if Ascii.eqb c "+" then digits 0 false rest
        else digits 0 false body
    | [] => None
    end in
  match r with
  | Some z => Ok z
  | None => Raise ValueError
  end.

(** ** The dynamic value tree and the path resolver *)

(** [Extractor.generate_data_object] *)
Fixpoint depth_conversion (element : value) : value :=
  match element with
  | VDict d => VNs (map (fun kv => (fst kv, depth_conversion (snd kv))) d)
  | VList l => VList (map depth_conversion l)
  | _ => element
  end.

Definition generate_data_object (data : value) : value := depth_conversion data.

(** The exceptions named by the [except] clause of [safe_extract]. *)
Definition caught (e : exn) : bool :=
  match e with
  | IndexError | TypeError | ValueError => true
  | _ => false
  end.

Fixpoint safe_extract_loop (attributes : list string) (data default : value)
  : outcome value :=
  match attributes with
  | [] => Ok (py_or data default)
  | attribute :: rest =>
      match split_once "[" attribute with
      | (name, Some after) =>
          let index := fst (split_once "]" after) in
          match (try! i <- py_int index; getitem (getattr data name) i) with
          | Ok data' => safe_extract_loop rest data' default
          | Raise e => if caught e then Ok default else Raise e
          end
      | (_, None) =>
          let data' := getattr data attribute in
          if truthy data' then safe_extract_loop rest data' default
          else Ok default
      end
  end.

(** [Extractor.safe_extract] *)
Definition safe_extract (data : value) (attribute_chain : string) (default : value)
  : outcome value :=
  safe_extract_loop (split_on "." attribute_chain) data default.

(** ** Comparisons and sorting *)

(** [a == b] *)
Fixpoint py_eq (a b : value) {struct a} : bool :=
  match a, b with
  | VNone, VNone => true
  | VStr s, VStr t => String.eqb s t
  | VList l, VList m =>
      (fix go (l m : list value) : bool :=
         match l, m with
         | [], [] => true
         | x :: l', y :: m' => py_eq x y && go l' m'
         | _, _ => false
         end) l m
  | VDict d, VDict e | VNs d, VNs e =>
      Nat.eqb (length d) (length e) &&
      (fix go (d : list (string * value)) : bool :=
         match d with
         | [] => true
         | kv :: r =>
             match assoc (fst kv) e with
             | Some v' => py_eq (snd kv) v'
             | None => false
             end && go r
         end) d
  | _, _ =>
      match as_int a, as_int b with
      | Some x, Some y => x =? y
      | _, _ => false
      end
  end.

(** [a < b]; sequences compare at their first differing position. *)
Fixpoint py_lt (a b : value) {struct a} : outcome bool :=
  match a, b with
  | VStr s, VStr t => Ok (String.ltb s t)
  | VList l, VList m =>
      (fix go (l m : list value) : outcome bool :=
         match l, m with
         | [], [] => Ok false
         | [], _ :: _ => Ok true
         | _ :: _, [] => Ok false
         | x :: l', y :: m' => if py_eq x y then go l' m' else py_lt x y
         end) l m
  | _, _ =>
      match as_int a, as_int b with
      | Some x, Some y => Ok (x <? y)
      | _, _ => Raise TypeError
      end
  end.

(** [max(a, b)]: [b] when [b > a], else [a]. *)
Definition py_max (a b : value) : outcome value :=
  try! c <- py_lt a b;
  Ok (if c then b else a).

(** Sort keys are tuples; they compare like sequences. *)
Definition key_lt (k1 k2 : list value) : outcome bool := py_lt (VList k1) (VList k2).

(** Stable insertion from the left, comparing with [<] only. *)
Fixpoint insert_by {A} (lt : A -> A -> outcome bool) (x : A) (l : list A)
  : outcome (list A) :=
  match l with
  | [] => Ok [x]
  | y :: r =>
      try! c <- lt x y;
      if c then Ok (x :: y :: r)
      else try! r' <- insert_by lt x r; Ok (y :: r')
  end.

Fixpoint sort_from {A} (lt : A -> A -> outcome bool) (done todo : list A)
  : outcome (list A) :=
  match todo with
  | [] => Ok done
  | x :: rest =>
      try! done' <- insert_by lt x done;
      sort_from lt done' rest
  end.

(** While sorting, [list.sort] holds each element with its key and compares
    the keys. *)
Definition keyed_lt (a b : list value * value) : outcome bool := key_lt (fst a) (fst b).

(** [l.sort(key=key)]: the keys are computed first, one per element; the sort
    is stable.  On keys that [<] cannot compare the sort raises [TypeError];
    which comparison fails first is the algorithm's business, here that of
    insertion from the left. *)
Definition sort_by_key (key : value -> outcome (list value)) (l : list value)
  : outcome (list value) :=
  try! keyed <- omap (fun x => try! k <- key x; Ok (k, x)) l;
  try! sorted <- sort_from keyed_lt [] keyed;
  Ok (map snd sorted).

(** ** The world: logger, recorder, filter counters *)

Inductive log_level : Type := Info | Error.

(** A log text is either literal or [template.format] applied to keyword
    arguments, for a translated template. *)
Inductive log_text : Type :=
| Text (s : string)
| Format (template : string) (args : list (string * value)).

Record log_entry : Type := {
  level : log_level;
  text : log_text;
  echo : option bool;
}.

(** [filter_stats] of src/custom/function.py *)
Record stats : Type := {
  total : Z;
  filtered : Z;
  image : Z;
  live : Z;
}.

Record world : Type := {
  logs : list log_entry;
  saved : list (list value);
  filter_stats : stats;
}.

Definition M (A : Type) : Type := world -> outcome A * world.

Definition mret {A} (a : A) : M A := fun w => (Ok a, w).

Definition mbind {A B} (m : M A) (k : A -> M B) : M B :=
  fun w =>
    match m w with
    | (Ok a, w') => k a w'
    | (Raise e, w') => (Raise e, w')
    end.

Definition lift {A} (o : outcome A) : M A := fun w => (o, w).

Notation "'do!' x <- m ; k" := (mbind m (fun x => k))
  (at level 10, x name, m at level 100, k at level 200) : py_scope.
Notation "'do!' ' p <- m ; k" := (mbind m (fun x => let 'p := x in k))
  (at level 10, p pattern, m at level 100, k at level 200) : py_scope.

Fixpoint mmap {A B} (f : A -> M B) (l : list A) : M (list B) :=
  match l with
  | [] => mret []
  | x :: rest =>
      do! y <- f x;
      do! ys <- mmap f rest;
      mret (y :: ys)
  end.

Fixpoint ofilter {A} (f : A -> outcome bool) (l : list A) : outcome (list A) :=
  match l with
  | [] => Ok []
  | x :: rest =>
      try! b <- f x;
      try! ys <- ofilter f rest;
      Ok (if b then x :: ys else ys)
  end.

Fixpoint mfilter {A} (f : A -> M bool) (l : list A) : M (list A) :=
  match l with
  | [] => mret []
  | x :: rest =>
      do! b <- f x;
      do! ys <- mfilter f rest;
      mret (if b then x :: ys else ys)
  end.

Definition log_call (lv : log_level) (t : log_text) (e : option bool) : M unit :=
  fun w =>
    (Ok tt, {| logs := logs w ++ [{| level := lv; text := t; echo := e |}];
               saved := saved w;
               filter_stats := filter_stats w |}).

(** [await record.save(row)]: the recorder appends the row. *)
Definition save (row : list value) : M unit :=
  fun w =>
    (Ok tt, {| logs := logs w;
               saved := saved w ++ [row];
               filter_stats := filter_stats w |}).

(** A canonical record is a flat [dict]. *)
Abbreviation item := (gmap string value).

(** [item[key]] *)
Definition item_at (it : item) (key : string) : outcome value :=
  match it !! key with
  | Some v => Ok v
  | None => Raise KeyError
  end.

(** [item.get(key)] *)
Definition item_get (it : item) (key : string) : value := default VNone (it !! key).

(** ** Collaborators

    What the extractor calls but does not define: the translation [_], the
    text cleaner, the clock and time zone, [json.dumps], [repr], the custom
    filter rule and the index constants of src/custom. *)

Record collaborators : Type := {
  tr : string -> string;
  cleaner_filter : value -> outcome value;
  cleaner_clear_spaces : value -> outcome value;
  cleaner_filter_name : value -> option value -> outcome value;
  str_strip : string -> string;
  strftime_localtime : Z -> outcome string;
  strftime_now : string;
  collection_time : string;
  fromtimestamp_date : Z -> outcome Z;
  json_dumps : value -> outcome string;
  py_repr : value -> string;
  condition_rule : item -> bool;
  VIDEO_TIKTOK_INDEX : Z;
  IMAGE_TIKTOK_INDEX : Z;
  BITRATE_INFO_TIKTOK_INDEX : Z;
}.

(** [strftime_localtime z] is [strftime(date_format, localtime(z))] and
    [strftime_now] the same at the current time; [fromtimestamp_date z] is
    [datetime.fromtimestamp(z).date()] as a day number ([date.toordinal()]),
    in the local time zone; [condition_rule] is the body of
    [condition_filter], which the source ships keeping everything. *)

(** src/custom/function.py: the custom filter hook and its counters. *)
Module custom.
(** [condition_filter]: counts the call, then applies the rule. *)
Definition condition_filter (rule : item -> bool) (data : item) : M bool :=
  fun w =>
    (Ok (rule data),
     {| logs := logs w;
        saved := saved w;
        filter_stats := {| total := total (filter_stats w) + 1;
                           filtered := filtered (filter_stats w);
                           image := image (filter_stats w);
                           live := live (filter_stats w) |} |}).

(** The rule as the source ships it. *)
Definition keep_everything (data : item) : bool := true.

Definition get_filter_stats : M stats := fun w => (Ok (filter_stats w), w).

Definition reset_filter_stats : M unit :=
  fun w =>
    (Ok tt,
     {| logs := logs w;
        saved := saved w;
        filter_stats := {| total := 0; filtered := 0; image := 0; live := 0 |} |}).
End custom.

(** What [__batch] keeps in its container besides the items: the shared
    account name and mark, the date range, and whether all items have one
    author.  [__detail] builds a container with [same=False] and no such
    attributes. *)
Record batch_context : Type := {
  c_name : value;
  c_mark : value;
  c_earliest : Z;
  c_latest : Z;
}.

Record container : Type := {
  c_same : bool;
  c_context : option batch_context;
}.

(** The recorder handed to [run]: its ordered field keys. *)
Record recorder : Type := { field_keys : list string }.

(** [f"{n:0>2d}"] and ["{:02d}".format(n)] *)
Definition two_digits (n : Z) : string :=
  let s := pretty n in
  if (String.length s <? 2)%nat then "0" +:+ s else s.

(** ** The extractor *)

Section extractor.
Context (E : collaborators).

(** [str(v)], as f-strings use it *)
Definition py_str (v : value) : string :=
  match v with
  | VStr s => s
  | VInt z => pretty z
  | VBool b => if b then "True" else "False"
  | VNone => "None"
  | _ => py_repr E v
  end.

(** *** Quality selection *)

(** The tuple built from one Source-A variant. *)
Definition variant_tuple (i : value) : outcome value :=
  try! fps <- attr i "FPS";
  try! rate <- attr i "bit_rate";
  try! size <- (try! a <- attr i "play_addr"; attr a "data_size");
  try! height <- (try! a <- attr i "play_addr"; attr a "height");
  try! width <- (try! a <- attr i "play_addr"; attr a "width");
  try! urls <- (try! a <- attr i "play_addr"; attr a "url_list");
  Ok (VList [fps; rate; size; height; width; urls]).

(** [(max(x[3], x[4]), x[0], x[1], x[2])] *)
Definition variant_key (x : value) : outcome (list value) :=
  try! x3 <- getitem x 3;
  try! x4 <- getitem x 4;
  try! m <- py_max x3 x4;
  try! x0 <- getitem x 0;
  try! x1 <- getitem x 1;
  try! x2 <- getitem x 2;
  Ok [m; x0; x1; x2].

(** The [try] block of [__extract_video_download]. *)
Definition select_variant (bit_rate : value) : outcome (value * value * value) :=
  try! raw <- py_iter bit_rate;
  try! tuples <- omap variant_tuple raw;
  try! sorted <- sort_by_key variant_key tuples;
  if truthy (VList sorted) then
    try! best <- getitem (VList sorted) (-1);
    try! height <- getitem best (-3);
    try! width <- getitem best (-2);
    try! url <- (try! urls <- getitem best (-1); getitem urls (-1));
    Ok (height, width, url)
  else Ok (VInt (-1), VInt (-1), VStr "").

(** [Extractor.__extract_video_download] *)
Definition extract_video_download (data : value) : M (value * value * value) :=
  do! bit_rate <- lift (safe_extract data "video.bit_rate" (VList []));
  match select_variant bit_rate with
  | Raise AttributeError =>
      do! _ <- log_call Error (Text ("视频下载地址解析失败: " +:+ py_str data)) (Some false);
      do! height <- lift (try! first <- getitem bit_rate 0;
                          safe_extract first "play_addr.height" (VInt (-1)));
      do! width <- lift (try! first <- getitem bit_rate 0;
                         safe_extract first "play_addr.width" (VInt (-1)));
      do! url <- lift (try! first <- getitem bit_rate 0;
                       safe_extract first "play_addr.url_list[-1]" (VStr ""));
      mret (height, width, url)
  | r => lift r
  end.

(** The tuple built from one Source-B variant: no frame rate. *)
Definition variant_tuple_tiktok (i : value) : outcome value :=
  try! rate <- attr i "Bitrate";
  try! size <- (try! a <- attr i "PlayAddr"; attr a "DataSize");
  try! height <- (try! a <- attr i "PlayAddr"; attr a "Height");
  try! width <- (try! a <- attr i "PlayAddr"; attr a "Width");
  try! urls <- (try! a <- attr i "PlayAddr"; attr a "UrlList");
  Ok (VList [rate; size; height; width; urls]).

(** [(max(x[2], x[3]), x[0], x[1])] *)
Definition variant_key_tiktok (x : value) : outcome (list value) :=
  try! x2 <- getitem x 2;
  try! x3 <- getitem x 3;
  try! m <- py_max x2 x3;
  try! x0 <- getitem x 0;
  try! x1 <- getitem x 1;
  Ok [m; x0; x1].

Definition select_variant_tiktok (bitrate_info : value)
  : outcome (value * value * value) :=
  try! raw <- py_iter bitrate_info;
  try! tuples <- omap variant_tuple_tiktok raw;
  try! sorted <- sort_by_key variant_key_tiktok tuples;
  if truthy (VList sorted) then
    try! best <- getitem (VList sorted) (-1);
    try! height <- getitem best (-3);
    try! width <- getitem best (-2);
    try! url <- (try! urls <- getitem best (-1); getitem urls (VIDEO_TIKTOK_INDEX E));
    Ok (height, width, url)
  else Ok (VInt (-1), VInt (-1), VStr "").

(** [Extractor.__extract_video_download_tiktok] *)
Definition extract_video_download_tiktok (data : value) : M (value * value * value) :=
  do! bitrate_info <- lift (safe_extract data "video.bitrateInfo" (VList []));
  match select_variant_tiktok bitrate_info with
  | Raise AttributeError =>
      do! _ <- log_call Error (Text ("视频下载地址解析失败: " +:+ py_str data)) (Some false);
      do! height <- lift (try! first <- getitem bitrate_info 0;
                          safe_extract first "PlayAddr.Height" (VInt (-1)));
      do! width <- lift (try! first <- getitem bitrate_info 0;
                         safe_extract first "PlayAddr.Width" (VInt (-1)));
      do! url <- lift (try! first <- getitem bitrate_info 0;
                       safe_extract first
                         ("PlayAddr.UrlList[" +:+ pretty (VIDEO_TIKTOK_INDEX E) +:+ "]")
                         (VStr ""));
      mret (height, width, url)
  | r => lift r
  end.

(** [Extractor.time_conversion] *)
Definition time_conversion (time_ : value) : outcome value :=
  match as_int time_ with
  | Some t =>
      let second := t / 1000 in
      Ok (VStr (two_digits (second / 3600) +:+ ":" +:+
                two_digits (second mod 3600 / 60) +:+ ":" +:+
                two_digits (second mod 3600 mod 60)))
  | None => Raise TypeError
  end.

(** [Extractor.time_conversion_tiktok] *)
Definition time_conversion_tiktok (seconds : value) : outcome value :=
  match as_int seconds with
  | Some s =>
      let '(minutes, seconds) := (s / 60, s mod 60) in
      let '(hours, minutes) := (minutes / 60, minutes mod 60) in
      Ok (VStr (two_digits hours +:+ ":" +:+ two_digits minutes +:+ ":" +:+
                two_digits seconds))
  | None => Raise TypeError
  end.

(** [Extractor.__format_date]: [localtime(data or None)] *)
Definition format_date (data : value) : outcome value :=
  if truthy data then
    match as_int data with
    | Some z => try! s <- strftime_localtime E z; Ok (VStr s)
    | None => Raise TypeError
    end
  else Ok (VStr (strftime_now E)).

(** [Extractor.__extract_description] *)
Definition extract_description (data : value) : outcome value :=
  safe_extract data "desc" (VStr "").

(** [Extractor.__clean_description] *)
Definition clean_description (desc : value) : outcome value :=
  try! d <- cleaner_filter E desc;
  cleaner_clear_spaces E d.

(** [Extractor.__extract_cover] *)
Definition extract_cover (it : item) (data : value) (has : bool) : outcome item :=
  if has then
    try! dynamic <- safe_extract data "video.dynamic_cover.url_list[-1]" (VStr "");
    try! static <- safe_extract data "video.cover.url_list[0]" (VStr "");
    Ok (<["static_cover" := static]> (<["dynamic_cover" := dynamic]> it))
  else Ok (<["static_cover" := VStr ""]> (<["dynamic_cover" := VStr ""]> it)).

(** [Extractor.__extract_cover_tiktok] *)
Definition extract_cover_tiktok (it : item) (data : value) (has : bool) : outcome item :=
  if has then
    try! dynamic <- safe_extract data "video.dynamicCover" (VStr "");
    try! static <- safe_extract data "video.cover" (VStr "");
    Ok (<["static_cover" := static]> (<["dynamic_cover" := dynamic]> it))
  else Ok (<["static_cover" := VStr ""]> (<["dynamic_cover" := VStr ""]> it)).

(** [Extractor.__set_blank_data] *)
Definition set_blank_data (it : item) (data : value) (type_ : string) : outcome item :=
  let it := <["type" := VStr type_]> it in
  let it := <["duration" := VStr "00:00:00"]> it in
  let it := <["uri" := VStr ""]> it in
  let it := <["height" := VInt (-1)]> it in
  let it := <["width" := VInt (-1)]> it in
  extract_cover it data false.

(** [Extractor.__extract_video_info] *)
Definition extract_video_info (it : item) (data : value) (type_ : string) : M item :=
  let it := <["type" := VStr type_]> it in
  do! '(height, width, downloads) <- extract_video_download data;
  let it := <["height" := height]> it in
  let it := <["width" := width]> it in
  let it := <["downloads" := downloads]> it in
  do! duration <- lift (try! d <- safe_extract data "video.duration" (VInt 0);
                        time_conversion d);
  let it := <["duration" := duration]> it in
  do! uri <- lift (safe_extract data "video.play_addr.uri" (VStr ""));
  let it := <["uri" := uri]> it in
  lift (extract_cover it data true).

(** [Extractor.__extract_video_info_tiktok] *)
Definition extract_video_info_tiktok (it : item) (data : value) (type_ : string)
  : M item :=
  let it := <["type" := VStr type_]> it in
  do! '(height, width, downloads) <- extract_video_download_tiktok data;
  let it := <["height" := height]> it in
  let it := <["width" := width]> it in
  let it := <["downloads" := downloads]> it in
  do! duration <- lift (try! d <- safe_extract data "video.duration" (VInt 0);
                        time_conversion_tiktok d);
  let it := <["duration" := duration]> it in
  do! uri <- lift (safe_extract data
                     ("video.bitrateInfo[" +:+ pretty (BITRATE_INFO_TIKTOK_INDEX E)
                      +:+ "].PlayAddr.Uri") (VStr ""));
  let it := <["uri" := uri]> it in
  lift (extract_cover_tiktok it data true).

(** [Extractor.__classify_slides_item] *)
Definition classify_slides_item (slide : value) : M value :=
  do! video <- lift (safe_extract slide "video" (VStr ""));
  if truthy video then
    do! '(_, _, url) <- extract_video_download slide;
    mret url
  else lift (safe_extract slide "url_list[-1]" (VStr "")).

(** [any(self.safe_extract(i, "video") for i in images)] *)
Fixpoint any_video (images : list value) : outcome bool :=
  match images with
  | [] => Ok false
  | i :: rest =>
      try! v <- safe_extract i "video" (VStr "");
      if truthy v then Ok true else any_video rest
  end.

(** [Extractor.__extract_image_info] *)
Definition extract_image_info (it : item) (data images : value) : M item :=
  do! slides <- lift (py_iter images);
  do! has_video <- lift (any_video slides);
  if has_video then
    do! it <- lift (set_blank_data it data (tr E "实况"));
    do! downloads <- mmap classify_slides_item slides;
    mret (<["downloads" := VList downloads]> it)
  else
    do! it <- lift (set_blank_data it data (tr E "图集"));
    do! downloads <- lift (omap (fun i => safe_extract i "url_list[-1]" (VStr "")) slides);
    mret (<["downloads" := VList downloads]> it).

(** [Extractor.__extract_image_info_tiktok] *)
Definition extract_image_info_tiktok (it : item) (data images : value) : M item :=
  do! it <- lift (set_blank_data it data (tr E "图集"));
  do! slides <- lift (py_iter images);
  do! downloads <- lift (omap (fun i =>
                           safe_extract i
                             ("imageURL.urlList[" +:+ pretty (IMAGE_TIKTOK_INDEX E) +:+ "]")
                             (VStr "")) slides);
  mret (<["downloads" := VList downloads]> it).

(** *** The platform adapters *)

(** [Extractor.__extract_text_extra] and [__extract_text_extra_tiktok] *)
Definition extract_text_extra_by (list_key name_key : string) (it : item) (data : value)
  : outcome item :=
  try! extra <- safe_extract data list_key (VList []);
  try! entries <- py_iter extra;
  try! text <- omap (fun i => safe_extract i name_key (VStr "")) entries;
  Ok (<["text_extra" := VList (List.filter truthy text)]> it).

Definition extract_text_extra := extract_text_extra_by "text_extra" "hashtag_name".
Definition extract_text_extra_tiktok := extract_text_extra_by "textExtra" "hashtagName".

(** [Extractor.__classifying_detail] *)
Definition classifying_detail (it : item) (data : value) : M item :=
  do! images <- lift (safe_extract data "images" (VStr ""));
  if truthy images then extract_image_info it data images
  else extract_video_info it data (tr E "视频").

(** [Extractor.__classifying_detail_tiktok] *)
Definition classifying_detail_tiktok (it : item) (data : value) : M item :=
  do! images <- lift (safe_extract data "imagePost.images" (VStr ""));
  if truthy images then extract_image_info_tiktok it data images
  else extract_video_info_tiktok it data (tr E "视频").

(** [Extractor.__extract_detail_info] *)
Definition extract_detail_info (it : item) (data : value) : M item :=
  do! id <- lift (safe_extract data "aweme_id" (VStr ""));
  let it := <["id" := id]> it in
  do! desc <- lift (try! d <- extract_description data; clean_description d);
  let it := <["desc" := py_or desc id]> it in
  do! timestamp <- lift (safe_extract data "create_time" (VStr ""));
  let it := <["create_timestamp" := timestamp]> it in
  do! time <- lift (format_date timestamp);
  let it := <["create_time" := time]> it in
  do! it <- lift (extract_text_extra it data);
  classifying_detail it data.

(** [Extractor.__extract_detail_info_tiktok] *)
Definition extract_detail_info_tiktok (it : item) (data : value) : M item :=
  do! id <- lift (safe_extract data "id" (VStr ""));
  let it := <["id" := id]> it in
  do! desc <- lift (try! d <- extract_description data; clean_description d);
  let it := <["desc" := py_or desc id]> it in
  do! timestamp <- lift (safe_extract data "createTime" (VStr ""));
  let it := <["create_timestamp" := timestamp]> it in
  do! time <- lift (format_date timestamp);
  let it := <["create_time" := time]> it in
  do! it <- lift (extract_text_extra_tiktok it data);
  classifying_detail_tiktok it data.

(** [Extractor.__extract_nickname_info] *)
Definition extract_nickname_info (c : container) (it : item) (data : value)
  : outcome item :=
  if c_same c then
    match c_context c with
    | Some ctx =>
        Ok (<["mark" := py_or (c_mark ctx) (c_name ctx)]> (<["nickname" := c_name ctx]> it))
    | None => Raise AttributeError
    end
  else
    try! raw <- safe_extract data "nickname" (VStr (tr E "已注销账号"));
    try! name <- cleaner_filter_name E raw (Some (VStr (tr E "无效账号昵称")));
    Ok (<["mark" := name]> (<["nickname" := name]> it)).

(** [Extractor.__extract_account_info] *)
Definition extract_account_info (c : container) (it : item) (data : value)
  : outcome item :=
  try! data <- safe_extract data "author" (VStr "");
  try! uid <- safe_extract data "uid" (VStr "");
  let it := <["uid" := uid]> it in
  try! sec_uid <- safe_extract data "sec_uid" (VStr "");
  let it := <["sec_uid" := sec_uid]> it in
  try! unique_id <- safe_extract data "unique_id" (VStr "");
  let it := <["unique_id" := unique_id]> it in
  try! signature <- safe_extract data "signature" (VStr "");
  let it := <["signature" := signature]> it in
  try! user_age <- safe_extract data "user_age" (VInt (-1));
  let it := <["user_age" := user_age]> it in
  extract_nickname_info c it data.

(** [Extractor.__extract_account_info_tiktok] *)
Definition extract_account_info_tiktok (c : container) (it : item) (data : value)
  : outcome item :=
  try! data <- safe_extract data "author" (VStr "");
  try! uid <- safe_extract data "id" (VStr "");
  let it := <["uid" := uid]> it in
  try! sec_uid <- safe_extract data "secUid" (VStr "");
  let it := <["sec_uid" := sec_uid]> it in
  try! unique_id <- safe_extract data "uniqueId" (VStr "");
  let it := <["unique_id" := unique_id]> it in
  try! signature <- safe_extract data "signature" (VStr "");
  let it := <["signature" := signature]> it in
  let it := <["user_age" := VInt (-1)]> it in
  extract_nickname_info c it data.

(** [Extractor.__extract_music] *)
Definition extract_music (it : item) (data : value) (tiktok : bool) : outcome item :=
  try! music_data <- safe_extract data "music" (VStr "");
  try! '(author, title, url) <-
    (if truthy music_data then
       if tiktok then
         try! author <- safe_extract music_data "authorName" (VStr "");
         try! title <- safe_extract music_data "title" (VStr "");
         try! url <- safe_extract music_data "playUrl" (VStr "");
         Ok (author, title, url)
       else
         try! author <- safe_extract music_data "author" (VStr "");
         try! title <- safe_extract music_data "title" (VStr "");
         try! url <- safe_extract music_data "play_url.url_list[-1]" (VStr "");
         Ok (author, title, url)
     else Ok (VStr "", VStr "", VStr ""));
  Ok (<["music_url" := url]> (<["music_title" := title]> (<["music_author" := author]> it))).

Definition statistics_keys : list string :=
  ["digg_count"; "comment_count"; "collect_count"; "share_count"; "play_count"].

Definition statistics_keys_tiktok : list string :=
  ["diggCount"; "commentCount"; "collectCount"; "shareCount"; "playCount"].

(** The loop of [__extract_statistics]: [item[slot] = safe_extract(data, key, -1)]
    for each pair of a canonical slot and a source key. *)
Fixpoint fill_statistics (it : item) (data : value) (slots : list (string * string))
  : outcome item :=
  match slots with
  | [] => Ok it
  | (slot, key) :: rest =>
      try! v <- safe_extract data key (VInt (-1));
      fill_statistics (<[slot := v]> it) data rest
  end.

(** [Extractor.__extract_statistics] *)
Definition extract_statistics (it : item) (data : value) : outcome item :=
  try! data <- safe_extract data "statistics" (VStr "");
  fill_statistics it data (zip statistics_keys statistics_keys).

(** [Extractor.__extract_statistics_tiktok] *)
Definition extract_statistics_tiktok (it : item) (data : value) : outcome item :=
  try! data <- safe_extract data "stats" (VStr "");
  fill_statistics it data (zip statistics_keys statistics_keys_tiktok).

(** [Extractor.__extract_tags] and [__extract_tags_tiktok] *)
Definition extract_tags_by (list_key name_key : string) (it : item) (data : value)
  : outcome item :=
  try! t <- safe_extract data list_key (VStr "");
  if negb (truthy t) then Ok (<["tag" := VList []]> it)
  else
    try! entries <- py_iter t;
    try! tags <- omap (fun i => safe_extract i name_key (VStr "")) entries;
    Ok (<["tag" := VList tags]> it).

Definition extract_tags := extract_tags_by "video_tag" "tag_name".
Definition extract_tags_tiktok := extract_tags_by "textExtra" "hashtagName".

(** [Extractor.__extract_extra_info] *)
Definition extract_extra_info (it : item) (data : value) : outcome item :=
  try! e <- safe_extract data "anchor_info" (VStr "");
  if truthy e then
    try! extra <- json_dumps E e;
    Ok (<["extra" := VStr extra]> it)
  else Ok (<["extra" := VStr ""]> it).

(** [Extractor.__extract_extra_info_tiktok] *)
Definition extract_extra_info_tiktok (it : item) (data : value) : outcome item :=
  Ok (<["extra" := VStr ""]> it).

(** [Extractor.__generate_link] *)
Definition generate_link (type_ id_ unique_id : value) : string :=
  if truthy unique_id && py_eq type_ (VStr "视频") then
    "https://www.tiktok.com/@" +:+ py_str unique_id +:+ "/video/" +:+ py_str id_
  else if truthy unique_id && py_eq type_ (VStr "图集") then
    "https://www.tiktok.com/@" +:+ py_str unique_id +:+ "/photo/" +:+ py_str id_
  else if negb (truthy unique_id) && py_eq type_ (VStr "视频") then
    "https://www.douyin.com/video/" +:+ py_str id_
  else if negb (truthy unique_id)
          && (py_eq type_ (VStr "图集") || py_eq type_ (VStr "实况")) then
    "https://www.douyin.com/note/" +:+ py_str id_
  else "".

(** [Extractor.__extract_additional_info] *)
Definition extract_additional_info (it : item) (data : value) (tiktok : bool)
  : outcome item :=
  try! ratio <- safe_extract data "video.ratio" (VStr "");
  let it := <["ratio" := ratio]> it in
  try! type_ <- item_at it "type";
  try! id_ <- item_at it "id";
  try! unique_id <- (if tiktok then item_at it "unique_id" else Ok VNone);
  Ok (<["share_url" := VStr (generate_link type_ id_ unique_id)]> it).

(** The [template] of a container, copied for each item. *)
Definition template : item := {["collection_time" := VStr (collection_time E)]}.

(** [Extractor.__extract_batch] *)
Definition extract_batch (c : container) (data : value) : M item :=
  let cache := template in
  do! cache <- extract_detail_info cache data;
  do! cache <- lift (extract_account_info c cache data);
  do! cache <- lift (extract_music cache data false);
  do! cache <- lift (extract_statistics cache data);
  do! cache <- lift (extract_tags cache data);
  do! cache <- lift (extract_extra_info cache data);
  do! cache <- lift (extract_additional_info cache data false);
  mret cache.

(** [Extractor.__extract_batch_tiktok] *)
Definition extract_batch_tiktok (c : container) (data : value) : M item :=
  let cache := template in
  do! cache <- extract_detail_info_tiktok cache data;
  do! cache <- lift (extract_account_info_tiktok c cache data);
  do! cache <- lift (extract_music cache data true);
  do! cache <- lift (extract_statistics_tiktok cache data);
  do! cache <- lift (extract_tags_tiktok cache data);
  do! cache <- lift (extract_extra_info_tiktok cache data);
  do! cache <- lift (extract_additional_info cache data true);
  mret cache.

(** *** The pipeline *)

Definition detail_necessary_keys : string := "id".

(** [Extractor.__platform_classify_detail]: the items land in [all_data] in
    input order. *)
Definition platform_classify_detail (data : list value) (c : container) (tiktok : bool)
  : M (list item) :=
  if tiktok then mmap (fun raw => extract_batch_tiktok c (generate_data_object raw)) data
  else mmap (fun raw => extract_batch c (generate_data_object raw)) data.

(** [Extractor.__clean_extract_data] *)
Definition clean_extract_data (data : list item) (key : string) : list item :=
  List.filter (fun i => truthy (item_get i key)) data.

(** [Extractor.__extract_item_records] *)
Definition extract_item_records (data : list item) : M unit :=
  do! _ <- mmap (fun i =>
             do! type_ <- lift (item_at i "type");
             do! id_ <- lift (item_at i "id");
             log_call Info (Text (py_str type_ +:+ " " +:+ py_str id_ +:+ " 数据提取成功"))
               (Some false)) data;
  mret tt.

(** [datetime.fromtimestamp(t).date()] *)
Definition to_date (t : value) : outcome Z :=
  match as_int t with
  | Some z => fromtimestamp_date E z
  | None => Raise TypeError
  end.

(** [Extractor.__date_filter] *)
Definition date_filter (c : container) (all_data : list item) : outcome (list item) :=
  match c_context c with
  | Some ctx =>
      ofilter (fun it =>
                 try! t <- item_at it "create_timestamp";
                 try! create_time <- to_date t;
                 Ok ((c_earliest ctx <=? create_time) && (create_time <=? c_latest ctx)))
        all_data
  | None => match all_data with [] => Ok [] | _ => Raise AttributeError end
  end.

(** [Extractor.__condition_filter] *)
Definition condition_filter (all_data : list item) : M (list item) :=
  mfilter (custom.condition_filter (condition_rule E)) all_data.

(** [Extractor.__summary_detail] *)
Definition summary_detail {A} (data : list A) : M unit :=
  log_call Info
    (Format (tr E "筛选处理后作品数量: {count}") [("count", VInt (Z.of_nat (length data)))])
    None.

(** [Extractor.__extract_values] *)
Definition extract_values (record : recorder) (data : item) : outcome (list value) :=
  omap (item_at data) (field_keys record).

(** [Extractor.__record_data] *)
Definition record_data (record : recorder) (data : list item) : M unit :=
  do! _ <- mmap (fun i => do! row <- lift (extract_values record i); save row) data;
  mret tt.

(** [Extractor.__batch] *)
Definition batch (data : list value) (record : recorder) (tiktok : bool)
    (name mark : value) (earliest latest : Z) (same : bool) : M (list item) :=
  let c := {| c_same := same;
              c_context := Some {| c_name := name; c_mark := mark;
                                   c_earliest := earliest; c_latest := latest |} |} in
  do! all_data <- platform_classify_detail data c tiktok;
  let all_data := clean_extract_data all_data detail_necessary_keys in
  do! _ <- extract_item_records all_data;
  do! all_data <- lift (date_filter c all_data);
  do! all_data <- condition_filter all_data;
  do! _ <- record_data record all_data;
  do! _ <- summary_detail all_data;
  mret all_data.

(** [Extractor.__detail] *)
Definition detail (data : list value) (record : recorder) (tiktok : bool)
  : M (list item) :=
  let c := {| c_same := false; c_context := None |} in
  do! all_data <- platform_classify_detail data c tiktok;
  let all_data := clean_extract_data all_data detail_necessary_keys in
  do! _ <- extract_item_records all_data;
  do! _ <- record_data record all_data;
  do! all_data <- condition_filter all_data;
  mret all_data.

(** The keyword arguments [run] forwards to [__batch]. *)
Record batch_kwargs : Type := {
  kw_name : value;
  kw_mark : value;
  kw_earliest : Z;
  kw_latest : Z;
  kw_same : bool;
}.

(** [Extractor.run]: [__batch] needs its keyword arguments and [__detail]
    takes none. *)
Definition run (data : list value) (record : recorder) (type_ : string) (tiktok : bool)
    (kwargs : option batch_kwargs) : M (list item) :=
  if String.eqb type_ "batch" then
    match kwargs with
    | Some kw =>
        batch data record tiktok (kw_name kw) (kw_mark kw) (kw_earliest kw)
          (kw_latest kw) (kw_same kw)
    | None => lift (Raise TypeError)
    end
  else if String.eqb type_ "detail" then
    match kwargs with
    | None => detail data record tiktok
    | Some _ => lift (Raise TypeError)
    end
  else lift (Raise DownloaderError).

(** *** The raw-source date filter *)

(** [item.get(key, default)] on a raw payload *)
Definition dict_get (d : value) (key : string) (default : value) : outcome value :=
  match d with
  | VDict e => Ok (option.default default (assoc key e))
  | _ => Raise AttributeError
  end.

(** The body of the loop of [__source_date_filter]: whether one payload is
    kept. *)
Definition source_test (key : string) (earliest latest : Z) (raw : value)
  : outcome bool :=
  try! create_time <- dict_get raw key (VInt 0);
  if negb (truthy create_time) then Ok true
  else
    try! create_time <- to_date create_time;
    Ok ((earliest <=? create_time) && (create_time <=? latest)).

(** [Extractor.__source_date_filter] *)
Definition source_date_filter_by (data : list value) (key : string) (earliest latest : Z)
  : M (list value) :=
  do! result <- lift (ofilter (source_test key earliest latest) data);
  do! _ <- summary_detail result;
  mret result.

(** [Extractor.source_date_filter] *)
Definition source_date_filter (data : list value) (earliest latest : Z) (tiktok : bool)
  : M (list value) :=
  if tiktok then source_date_filter_by data "createTime" earliest latest
  else source_date_filter_by data "create_time" earliest latest.

(** *** Identity preprocessing *)

(** The handler shared by [get_user_info] and [get_user_info_tiktok]:
    [except (KeyError, TypeError)] logs and returns an empty [dict]. *)
Definition user_info_or_empty (data : value) (r : outcome item) : M item :=
  match r with
  | Raise KeyError | Raise TypeError =>
      do! _ <- log_call Error (Format (tr E "提取账号信息失败: {data}") [("data", data)]) None;
      mret ∅
  | _ => lift r
  end.

(** [Extractor.get_user_info] *)
Definition get_user_info (data : value) : M item :=
  user_info_or_empty data
    (try! nickname <- getitem_key data "nickname";
     try! sec_uid <- getitem_key data "sec_uid";
     try! uid <- getitem_key data "uid";
     Ok (<["uid" := uid]> (<["sec_uid" := sec_uid]> (<["nickname" := nickname]> ∅)))).

(** [Extractor.get_user_info_tiktok] *)
Definition get_user_info_tiktok (data : value) : M item :=
  user_info_or_empty data
    (try! nickname <- (try! u <- getitem_key data "user"; getitem_key u "nickname");
     try! sec_uid <- (try! u <- getitem_key data "user"; getitem_key u "secUid");
     try! uid <- (try! u <- getitem_key data "user"; getitem_key u "id");
     Ok (<["uid" := uid]> (<["sec_uid" := sec_uid]> (<["nickname" := nickname]> ∅)))).

Definition extract_params_tiktok : list (string * string) :=
  [("sec_uid", "author.secUid"); ("mix_id", "playlistId"); ("uid", "author.id");
   ("nickname", "author.nickname"); ("mix_title", "playlistId")].

Definition extract_params : list (string * string) :=
  [("sec_uid", "author.sec_uid"); ("mix_id", "mix_info.mix_id"); ("uid", "author.uid");
   ("nickname", "author.nickname"); ("mix_title", "mix_info.mix_name")].

(** [(self.extract_params_tiktok if tiktok else self.extract_params)[key]] *)
Definition param (tiktok : bool) (key : string) : outcome string :=
  match List.find (fun kv => String.eqb key (fst kv))
          (if tiktok then extract_params_tiktok else extract_params) with
  | Some kv => Ok (snd kv)
  | None => Raise KeyError
  end.

(** [Extractor.__select_item] *)
Fixpoint select_item (data : list value) (id_ : value) (key : string) : outcome value :=
  match data with
  | [] => Raise DownloaderError
  | raw :: rest =>
      let candidate := generate_data_object raw in
      try! found <- safe_extract candidate key (VStr "");
      if py_eq id_ found then Ok candidate else select_item rest id_ key
  end.

(** [s.strip()] *)
Definition strip_value (v : value) : outcome value :=
  match v with
  | VStr s => Ok (VStr (str_strip E s))
  | _ => Raise AttributeError
  end.

(** [Extractor.__extract_pretreatment_data] *)
Definition extract_pretreatment_data (candidate : value) (id_ name : string)
    (mark title : value) : outcome (value * value * value) :=
  try! id_ <- safe_extract candidate id_ (VStr "");
  try! raw_name <- (if truthy title then Ok title else safe_extract candidate name id_);
  try! name <- cleaner_filter_name E raw_name None;
  try! mark <- cleaner_filter_name E mark (Some name);
  try! name <- strip_value name;
  try! mark <- strip_value mark;
  Ok (id_, name, mark).

(** [Extractor.preprocessing_data]; [mode] left at its default matches no
    case. *)
Definition preprocessing_data (data : value) (tiktok : bool) (mode : option string)
    (mark user_id : value) : M (value * value * value) :=
  match data with
  | VDict _ =>
      do! info <- (if tiktok then get_user_info_tiktok data else get_user_info data);
      let s := item_get info "sec_uid" in
      if negb (py_eq user_id s) then
        do! _ <- log_call Error
                   (Format (tr E "sec_user_id {user_id} 与 {s} 不一致")
                      [("user_id", user_id); ("s", s)]) None;
        mret (VStr "", VStr "", VStr "")
      else
        do! name <- lift (try! nickname <- item_at info "nickname";
                          try! uid <- item_at info "uid";
                          cleaner_filter_name E nickname (Some uid));
        do! mark <- lift (cleaner_filter_name E mark (Some name));
        do! uid <- lift (item_at info "uid");
        mret (uid, name, mark)
  | VList candidates =>
      match mode with
      | Some "post" =>
          lift (try! key <- param tiktok "sec_uid";
                try! found <- select_item candidates user_id key;
                try! id_key <- param tiktok "uid";
                try! name_key <- param tiktok "nickname";
                extract_pretreatment_data found id_key name_key mark VNone)
      | _ => lift (Raise DownloaderError)
      end
  | _ => lift (Raise DownloaderError)
  end.
End extractor.

(** ** Shapes of data *)

(** A raw payload as the API returns it: mappings, sequences and scalars,
    no namespace yet. *)
Fixpoint is_payload (v : value) : bool :=
  match v with
  | VList l => forallb is_payload l
  | VDict d => forallb (fun kv => is_payload (snd kv)) d
  | VNs _ => false
  | _ => true
  end.

(** A tree with no [dict] left in it, as [generate_data_object] builds from a
    payload. *)
Fixpoint dict_free (v : value) : bool :=
  match v with
  | VList l => forallb dict_free l
  | VNs d => forallb (fun kv => dict_free (snd kv)) d
  | VDict _ => false
  | _ => true
  end.

(** The name a path segment reads, before any index. *)
Definition segment_name (attribute : string) : string := fst (split_once "[" attribute).

(** A segment, or a whole path, that names no attribute Python objects have
    of their own. *)
Definition plain_segment (attribute : string) : bool :=
  negb (builtin_name (segment_name attribute)).

Definition plain_path (attribute_chain : string) : bool :=
  forallb plain_segment (split_on "." attribute_chain).

Definition has_attr (v : value) (name : string) : bool :=
  match v with
  | VNs fields => bool_decide (is_Some (assoc name fields))
  | _ => false
  end.

(** The ways one path segment can fail on a node, as the specification lists
    them: the named child is missing (also because the node is no mapping),
    the index is no integer, the child is no sequence, or the index is out of
    range. *)
Definition segment_fails (data : value) (attribute : string) : bool :=
  match split_once "[" attribute with
  | (name, Some after) =>
      match py_int (fst (split_once "]" after)) with
      | Raise _ => true
      | Ok i =>
          negb (has_attr data name) ||
          match getattr data name with
          | VList l => bool_decide (norm_index (length l) i = None)
          | VStr s => bool_decide (norm_index (length (chars s)) i = None)
          | _ => true
          end
      end
  | (_, None) => negb (has_attr data attribute)
  end.

(** The resolver as the specification words it: at a segment in the middle
    only a missing child gives the default; whether the value is falsy is
    asked once, of the value the last segment yields. *)
Fixpoint resolve_final_only (attributes : list string) (data default : value)
  : outcome value :=
  match attributes with
  | [] => Ok (py_or data default)
  | attribute :: rest =>
      match split_once "[" attribute with
      | (name, Some after) =>
          let index := fst (split_once "]" after) in
          match (try! i <- py_int index; getitem (getattr data name) i) with
          | Ok data' => resolve_final_only rest data' default
          | Raise e => if caught e then Ok default else Raise e
          end
      | (_, None) =>
          match getattr data attribute with
          | VNone => Ok default
          | data' => resolve_final_only rest data' default
          end
      end
  end.

(** ** A concrete setting for examples *)

(** Day number ([date(y, m, d).toordinal()]) of a calendar date. *)
Definition ordinal (y m d : Z) : Z :=
  let y' := if m <=? 2 then y - 1 else y in
  let era := y' / 400 in
  let yoe := y' - era * 400 in
  let doy := (153 * (if 2 <? m then m - 3 else m + 9) + 2) / 5 + d - 1 in
  era * 146097 + (yoe * 365 + yoe / 4 - yoe / 100 + doy) - 305.

Module Sample.
(** Collaborators that change nothing: no translation, a cleaner that
    returns its input, UTC as the local time zone, times printed as epoch
    seconds.  The filter rule and the Source-B index are left open. *)
Definition plain (rule : item -> bool) (index : Z) : collaborators :=
  {| tr := fun s => s;
     cleaner_filter := fun v => Ok v;
     cleaner_clear_spaces := fun v => Ok v;
     cleaner_filter_name := fun v d => Ok (if truthy v then v else default (VStr "") d);
     str_strip := fun s => s;
     strftime_localtime := fun z => Ok (pretty z);
     strftime_now := "now";
     collection_time := "now";
     fromtimestamp_date := fun z => Ok (z / 86400 + ordinal 1970 1 1);
     json_dumps := fun _ => Ok "{}";
     py_repr := fun _ => "<object>";
     condition_rule := rule;
     VIDEO_TIKTOK_INDEX := index;
     IMAGE_TIKTOK_INDEX := index;
     BITRATE_INFO_TIKTOK_INDEX := index |}.

Definition standard : collaborators := plain custom.keep_everything (-1).

(** A custom rule that excludes the work with id "2". *)
Definition without_2 (data : item) : bool :=
  negb (py_eq (item_get data "id") (VStr "2")).

Definition fresh : world :=
  {| logs := [];
     saved := [];
     filter_stats := {| total := 0; filtered := 0; image := 0; live := 0 |} |}.

Definition by_id : recorder := {| field_keys := ["id"] |}.

(** 12:00 UTC on 2024-06-15 *)
Definition noon_2024_06_15 : Z := 1718452800.

Definition june_2024 : batch_kwargs :=
  {| kw_name := VStr "author"; kw_mark := VStr "";
     kw_earliest := ordinal 2024 6 1; kw_latest := ordinal 2024 6 30;
     kw_same := true |}.

Definition work (id : string) : value :=
  VDict [("aweme_id", VStr id); ("create_time", VInt noon_2024_06_15)].

(** A work whose payload carries no [create_time]. *)
Definition undated (id : string) : value := VDict [("aweme_id", VStr id)].
End Sample.

(** The list a run returned, empty when it raised. *)
Definition returned (r : outcome (list item) * world) : list item :=
  match fst r with
  | Ok out => out
  | Raise _ => []
  end.

Definition ids (l : list item) : list value := map (fun i => item_get i "id") l.

(** The raw-source date rule as the specification words it: a payload is
    kept when its timestamp field is missing or falsy, or when the timestamp
    converts to a day within the inclusive range. *)
Definition kept_by_date (E : collaborators) (key : string) (earliest latest : Z)
    (raw : value) : bool :=
  match raw with
  | VDict d =>
      let t := default (VInt 0) (assoc key d) in
      negb (truthy t) ||
      match to_date E t with
      | Ok day => (earliest <=? day) && (day <=? latest)
      | Raise _ => false
      end
  | _ => false
  end.

(** A payload the date filter can judge: a mapping whose timestamp, when
    present and truthy, is a number the clock converts. *)
Definition timestamp_usable (E : collaborators) (key : string) (raw : value) : bool :=
  match raw with
  | VDict d =>
      let t := default (VInt 0) (assoc key d) in
      negb (truthy t) ||
      match to_date E t with
      | Ok _ => true
      | Raise _ => false
      end
  | _ => false
  end.

(** The native timestamp field of each platform. *)
Definition timestamp_key (tiktok : bool) : string :=
  if tiktok then "createTime" else "create_time".

(** A computation that leaves the recorder alone. *)
Definition keeps_saved {A} (m : M A) : Prop :=
  forall w, saved (snd (m w)) = saved w.

(** ** Quality selection as the specification words it *)

(** One encoded variant of a video. *)
Record variant : Type := {
  frame_rate : Z;
  bit_rate : Z;
  byte_size : Z;
  height : Z;
  width : Z;
  url_candidates : list string;
}.

(** Tuples of integers in dictionary order. *)
Fixpoint lex_ltb (k1 k2 : list Z) : bool :=
  match k1, k2 with
  | [], [] => false
  | [], _ :: _ => true
  | _ :: _, [] => false
  | x :: r, y :: s => if x =? y then lex_ltb r s else x <? y
  end.

(** [k1 <= k2] *)
Definition lex_le (k1 k2 : list Z) : Prop := lex_ltb k2 k1 = false.

(** The sort key of the specification:
    [(max(height, width), frame_rate, bit_rate, byte_size)]. *)
Definition claimed_key (v : variant) : list Z :=
  [Z.max (height v) (width v); frame_rate v; bit_rate v; byte_size v].

(** The same without the frame rate. *)
Definition key_without_frame_rate (v : variant) : list Z :=
  [Z.max (height v) (width v); bit_rate v; byte_size v].

Section ascending.
Context (key : variant -> list Z).

Fixpoint insert_variant (x : variant) (l : list variant) : list variant :=
  match l with
  | [] => [x]
  | y :: r => if lex_ltb (key x) (key y) then x :: y :: r else y :: insert_variant x r
  end.

Fixpoint sort_into (done todo : list variant) : list variant :=
  match todo with
  | [] => done
  | x :: rest => sort_into (insert_variant x done) rest
  end.

(** Sort ascending by [key], keeping the input order among equal keys. *)
Definition sort_ascending (l : list variant) : list variant := sort_into [] l.

(** [a] comes no later than [b]. *)
Definition key_le (a b : variant) : Prop := lex_le (key a) (key b).

(** Select the last element of the sorted list. *)
Definition best (l : list variant) : option variant := last (sort_ascending l).

(** The selector's result: height and width of the best variant with its URL
    candidate at [index], or the sentinel on an empty list. *)
Definition chosen (index : Z) (l : list variant) : outcome (value * value * value) :=
  match best l with
  | Some b =>
      try! url <- getitem (VList (map VStr (url_candidates b))) index;
      Ok (VInt (height b), VInt (width b), url)
  | None => Ok (VInt (-1), VInt (-1), VStr "")
  end.
End ascending.

(** The tuple of a variant paired with its key of integers. *)
Definition keyed (key : variant -> list Z) (tuple : variant -> value) (v : variant)
  : list value * value :=
  (map VInt (key v), tuple v).

(** The tuples the two adapters build from a well-formed variant. *)
Definition tuple_of (v : variant) : value :=
  VList [VInt (frame_rate v); VInt (bit_rate v); VInt (byte_size v);
         VInt (height v); VInt (width v); VList (map VStr (url_candidates v))].

Definition tuple_of_tiktok (v : variant) : value :=
  VList [VInt (bit_rate v); VInt (byte_size v);
         VInt (height v); VInt (width v); VList (map VStr (url_candidates v))].

(** A variant as each platform's payload carries it, and a work holding a
    list of them. *)
Definition node_of (v : variant) : value :=
  VNs [("FPS", VInt (frame_rate v)); ("bit_rate", VInt (bit_rate v));
       ("play_addr", VNs [("data_size", VInt (byte_size v));
                          ("height", VInt (height v)); ("width", VInt (width v));
                          ("url_list", VList (map VStr (url_candidates v)))])].

Definition node_of_tiktok (v : variant) : value :=
  VNs [("FPS", VInt (frame_rate v)); ("Bitrate", VInt (bit_rate v));
       ("PlayAddr", VNs [("DataSize", VInt (byte_size v));
                         ("Height", VInt (height v)); ("Width", VInt (width v));
                         ("UrlList", VList (map VStr (url_candidates v)))])].

Definition video_of (l : list variant) : value :=
  VNs [("video", VNs [("bit_rate", VList (map node_of l))])].

Definition video_of_tiktok (l : list variant) : value :=
  VNs [("video", VNs [("bitrateInfo", VList (map node_of_tiktok l))])].

(** The two candidates of the specification's example, and two candidates
    with the same larger side that differ in frame rate and bit rate. *)
Module Candidates.
Definition low : variant :=
  {| frame_rate := 30; bit_rate := 1000; byte_size := 500; height := 480; width := 720;
     url_candidates := ["u1"] |}.

Definition high : variant :=
  {| frame_rate := 60; bit_rate := 2000; byte_size := 900; height := 1080; width := 1920;
     url_candidates := ["u2"; "u3"] |}.

Definition smooth : variant :=
  {| frame_rate := 60; bit_rate := 1000; byte_size := 1; height := 100; width := 100;
     url_candidates := ["u1"] |}.

Definition dense : variant :=
  {| frame_rate := 30; bit_rate := 2000; byte_size := 1; height := 50; width := 100;
     url_candidates := ["u2"] |}.
End Candidates.

(** ** The degrade path as the specification words it *)

(** Some sub-field the Source-A selector reads is missing from a variant. *)
Definition lacks_subfield (i : value) : bool :=
  negb (has_attr i "FPS" && has_attr i "bit_rate" && has_attr i "play_addr"
        && has_attr (getattr i "play_addr") "data_size"
        && has_attr (getattr i "play_addr") "height"
        && has_attr (getattr i "play_addr") "width"
        && has_attr (getattr i "play_addr") "url_list").

(** The same for the sub-fields the Source-B selector reads. *)
Definition lacks_subfield_tiktok (i : value) : bool :=
  negb (has_attr i "Bitrate" && has_attr i "PlayAddr"
        && has_attr (getattr i "PlayAddr") "DataSize"
        && has_attr (getattr i "PlayAddr") "Height"
        && has_attr (getattr i "PlayAddr") "Width"
        && has_attr (getattr i "PlayAddr") "UrlList").

(** The URL candidate at [index], or the default when there is none. *)
Definition candidate_at (urls : value) (index : Z) (default : value) : value :=
  match getitem urls index with
  | Ok url => py_or url default
  | Raise _ => default
  end.

(** The world after the selector logged the payload it could not parse. *)
Definition degraded (E : collaborators) (data : value) (w : world) : world :=
  snd (log_call Error (Text ("视频下载地址解析失败: " +:+ py_str E data)) (Some false) w).

(** Text that holds no [c]. *)
Definition free_of (c : ascii) (s : string) : Prop :=
  Forall (fun a => Ascii.eqb a c = false) (list_ascii_of_string s).

(** The characters of a printed integer. *)
Definition index_char (a : ascii) : bool :=
  match digit_of a with
  | Some _ => true
  | None => Ascii.eqb a "-"
  end.

(** The mismatch entry [preprocessing_data] logs. *)
Definition mismatch_entry (E : collaborators) (user_id s : value) : log_entry :=
  {| level := Error;
     text := Format (tr E "sec_user_id {user_id} 与 {s} 不一致")
               [("user_id", user_id); ("s", s)];
     echo := None |}.

(** ** The canonical record *)

(** The fields [__extract_detail_info] fills on its own, and those the
    classification fills. *)
Definition head_keys : gset string :=
  {["id"; "desc"; "create_timestamp"; "create_time"; "text_extra"]}.

Definition media_keys : gset string :=
  {["type"; "duration"; "uri"; "height"; "width"; "dynamic_cover"; "static_cover";
    "downloads"]}.

Definition account_keys : gset string :=
  {["uid"; "sec_uid"; "unique_id"; "signature"; "user_age"; "nickname"; "mark"]}.

Definition music_keys : gset string := {["music_author"; "music_title"; "music_url"]}.

Definition statistics_slots : gset string :=
  {["digg_count"; "comment_count"; "collect_count"; "share_count"; "play_count"]}.

Definition closing_keys : gset string := {["tag"; "extra"; "ratio"; "share_url"]}.

(** Every field of a canonical record. *)
Definition canonical_keys : gset string :=
  {["collection_time"]} ∪ head_keys ∪ media_keys ∪ account_keys ∪ music_keys
  ∪ statistics_slots ∪ closing_keys.

(** [it'] is [it] with the fields [ks] written and nothing else touched. *)
Definition writes (ks : gset string) (it it' : item) : Prop :=
  dom it' = dom it ∪ ks /\ forall k, k ∉ ks -> it' !! k = it !! k.

(** The container each mode of [run] builds. *)
Definition container_of (kwargs : option batch_kwargs) : container :=
  match kwargs with
  | Some kw =>
      {| c_same := kw_same kw;
         c_context := Some {| c_name := kw_name kw; c_mark := kw_mark kw;
                              c_earliest := kw_earliest kw;
                              c_latest := kw_latest kw |} |}
  | None => {| c_same := false; c_context := None |}
  end.

(** What [__platform_classify_detail] does to one payload. *)
Definition extract_one (E : collaborators) (c : container) (tiktok : bool) (raw : value)
  : M item :=
  if tiktok then extract_batch_tiktok E c (generate_data_object raw)
  else extract_batch E c (generate_data_object raw).

(** The fields of an item that is no video, as [__set_blank_data] leaves
    them. *)
Definition blank_media (it : item) : Prop :=
  it !! "duration" = Some (VStr "00:00:00") /\ it !! "uri" = Some (VStr "")
  /\ it !! "height" = Some (VInt (-1)) /\ it !! "width" = Some (VInt (-1))
  /\ it !! "dynamic_cover" = Some (VStr "") /\ it !! "static_cover" = Some (VStr "")
  /\ exists urls, it !! "downloads" = Some (VList urls).

(** What the first lines of [__extract_detail_info] establish: the
    description falls back to the identifier, and the readable date is the
    timestamp formatted. *)
Definition dated_head (E : collaborators) (it : item) : Prop :=
  exists id desc timestamp time,
    it !! "id" = Some id /\ it !! "desc" = Some (py_or desc id)
    /\ it !! "create_timestamp" = Some timestamp
    /\ format_date E timestamp = Ok time /\ it !! "create_time" = Some time.

(** The kinds [__classifying_detail] and [__classifying_detail_tiktok]
    tell apart. *)
Definition classified (E : collaborators) (tiktok : bool) (it : item) : Prop :=
  it !! "type" = Some (VStr (tr E "视频"))
  \/ ((it !! "type" = Some (VStr (tr E "图集"))
       \/ (tiktok = false /\ it !! "type" = Some (VStr (tr E "实况"))))
      /\ blank_media it).

(** The author's name and mark as [__extract_nickname_info] sets them. *)
Definition named_by (c : container) (it : item) : Prop :=
  if c_same c then
    exists ctx, c_context c = Some ctx
                /\ it !! "nickname" = Some (c_name ctx)
                /\ it !! "mark" = Some (py_or (c_mark ctx) (c_name ctx))
  else exists name, it !! "nickname" = Some name /\ it !! "mark" = Some name.

(** The creation date of an item lies in the range, bounds included. *)
Definition created_within (E : collaborators) (earliest latest : Z) (it : item) : Prop :=
  exists timestamp day,
    it !! "create_timestamp" = Some timestamp /\ to_date E timestamp = Ok day
    /\ earliest <= day <= latest.

(** An item is what one of the payloads was extracted to. *)
Definition extracted_from (E : collaborators) (c : container) (tiktok : bool)
    (data : list value) (it : item) : Prop :=
  exists raw w1 w2, In raw data /\ extract_one E c tiktok raw w1 = (Ok it, w2).

(** A computation that leaves the filter counters alone. *)
Definition keeps_stats {A} (m : M A) : Prop :=
  forall w, filter_stats (snd (m w)) = filter_stats w.

(** The counters after [n] calls of [condition_filter] as shipped: only
    [total] moves. *)
Definition counted (n : nat) (s : stats) : stats :=
  {| total := total s + Z.of_nat n;
     filtered := filtered s;
     image := image s;
     live := live s |}.

(** No entry of the list is the one [__select_item] looks for. *)
Definition none_selected (data : list value) (id_ : value) (key : string) : Prop :=
  Forall (fun raw => exists found,
            safe_extract (generate_data_object raw) key (VStr "") = Ok found
            /\ py_eq id_ found = false) data.

(** A work with three photos. *)
Definition photo_work (id : string) : value :=
  VDict [("aweme_id", VStr id); ("create_time", VInt Sample.noon_2024_06_15);
         ("images", VList [VDict [("url_list", VList [VStr "a"; VStr "b"])];
                           VDict [("url_list", VList [VStr "c"])];
                           VDict []])].

(** The line [__extract_item_records] logs for one item. *)
Definition success_record (E : collaborators) (it : item) : log_entry :=
  {| level := Info;
     text := Text (py_str E (item_get it "type") +:+ " " +:+ py_str E (item_get it "id")
                   +:+ " 数据提取成功");
     echo := Some false |}.

(** The line [__summary_detail] logs for [n] items. *)
Definition summary_record (E : collaborators) (n : nat) : log_entry :=
  {| level := Info;
     text := Format (tr E "筛选处理后作品数量: {count}") [("count", VInt (Z.of_nat n))];
     echo := None |}.

(** A computation that logs nothing but errors, and only appends. *)
Definition logs_errors {A} (m : M A) : Prop :=
  forall w, exists errors,
    logs (snd (m w)) = (logs w ++ errors)%list
    /\ Forall (fun e => level e = Error) errors.

(** [Extractor.extract_mix_id] *)
Definition extract_mix_id (data : value) : outcome value :=
  safe_extract (generate_data_object data) "mix_info.mix_id" (VStr "").

(** ** The settings file

    src/config/settings.py.  The settings file, when there is one, holds a
    JSON object, which [load] gives as a [dict] in the order of the file, or
    text that is not JSON, on which [load] raises [JSONDecodeError].  A file
    holding another JSON value, a list or a number, is not represented:
    [__check] is written for a [dict].  The console keeps the lines
    printed. *)
Module Settings.

Abbreviation dict := (list (string * value)).

(** [k in d] *)
Definition has_key (k : string) (d : dict) : bool :=
  match assoc k d with
  | Some _ => true
  | None => false
  end.

(** [d[k] = v]: a present key keeps its place, a new one goes last. *)
Fixpoint setitem (k : string) (v : value) (d : dict) : dict :=
  match d with
  | [] => [(k, v)]
  | (k', x) :: rest =>
      if String.eqb k k' then (k, v) :: rest else (k', x) :: setitem k v rest
  end.

Inductive content : Type :=
| Object (d : dict)
| Malformed.

(** The console, [root/settings.json] and [root.parent/settings.json]. *)
Record env : Type := {
  console : list (log_level * log_text);
  here : option content;
  above : option content;
}.

Definition say (lv : log_level) (t : log_text) (e : env) : env :=
  {| console := console e ++ [(lv, t)]; here := here e; above := above e |}.

(** [dump(settings, f)] on the settings file opened for writing. *)
Definition dump (settings : dict) (e : env) : env :=
  {| console := console e; here := Some (Object settings); above := above e |}.

Definition account_entry : value :=
  VDict [("mark", VStr ""); ("url", VStr ""); ("tab", VStr ""); ("earliest", VStr "");
         ("latest", VStr ""); ("enable", VBool true)].

Definition mix_entry : value :=
  VDict [("mark", VStr ""); ("url", VStr ""); ("enable", VBool true)].

Definition user_agent : string :=
  "Mozilla/5.0 (Windows NT 10.0; Win64; x64) AppleWebKit/537.36 (KHTML, like Gecko) Chrome/136.0.0.0 Safari/537.36".

(** [Settings.default] *)
Definition default : dict :=
  [("accounts_urls", VList [account_entry]);
   ("accounts_urls_tiktok", VList [account_entry]);
   ("mix_urls", VList [mix_entry]);
   ("mix_urls_tiktok", VList [mix_entry]);
   ("owner_url", VDict [("mark", VStr ""); ("url", VStr ""); ("uid", VStr "");
                        ("sec_uid", VStr ""); ("nickname", VStr "")]);
   ("owner_url_tiktok", VNone);
   ("root", VStr "");
   ("folder_name", VStr "Download");
   ("name_format", VStr "create_time type nickname desc");
   ("date_format", VStr "%Y-%m-%d %H:%M:%S");
   ("split", VStr "-");
   ("folder_mode", VBool false);
   ("music", VBool false);
   ("truncate", VInt 50);
   ("storage_format", VStr "");
   ("cookie", VStr "");
   ("cookie_tiktok", VStr "");
   ("dynamic_cover", VBool false);
   ("static_cover", VBool false);
   ("proxy", VStr "");
   ("proxy_tiktok", VStr "");
   ("twc_tiktok", VStr "");
   ("download", VBool true);
   ("max_size", VInt 0);
   ("chunk", VInt (1024 * 1024 * 2));
   ("timeout", VInt 10);
   ("max_retry", VInt 5);
   ("max_pages", VInt 0);
   ("run_command", VStr "");
   ("ffmpeg", VStr "");
   ("live_qualities", VStr "");
   ("douyin_platform", VBool true);
   ("tiktok_platform", VBool true);
   ("browser_info",
    VDict [("User-Agent", VStr user_agent); ("pc_libra_divert", VStr "Windows");
           ("browser_platform", VStr "Win32"); ("browser_name", VStr "Chrome");
           ("browser_version", VStr "136.0.0.0"); ("engine_name", VStr "Blink");
           ("engine_version", VStr "136.0.0.0"); ("os_name", VStr "Windows");
           ("os_version", VStr "10"); ("webid", VStr "")]);
   ("browser_info_tiktok",
    VDict [("User-Agent", VStr user_agent); ("app_language", VStr "zh-Hans");
           ("browser_language", VStr "zh-SG"); ("browser_name", VStr "Mozilla");
           ("browser_platform", VStr "Win32");
           ("browser_version",
            VStr "5.0 (Windows NT 10.0; Win64; x64) AppleWebKit/537.36 (KHTML, like Gecko) Chrome/136.0.0.0 Safari/537.36");
           ("language", VStr "zh-Hans"); ("os", VStr "windows");
           ("priority_region", VStr "CN"); ("region", VStr "US");
           ("tz_name", VStr "Asia/Shanghai"); ("webcast_language", VStr "zh-Hans");
           ("device_id", VStr "")])].

(** [Settings.rename_params]: old name, new name, default. *)
Definition rename_params : list (string * string * value) :=
  [("default_mode", "run_command", VStr "");
   ("update_cookie", "douyin_platform", VBool true);
   ("update_cookie_tiktok", "tiktok_platform", VBool true);
   ("original_cover", "static_cover", VBool false)].

Section methods.
Context (tr : string -> string).

Definition renamed_notice (old new_ : string) : log_level * log_text :=
  (Info, Format (tr "配置文件 {old} 参数已变更为 {new} 参数，请注意修改配置文件！")
           [("old", VStr old); ("new", VStr new_)]).

Definition missing_notice (i : string) : log_level * log_text :=
  (Info, Format (tr "配置文件 settings.json 缺少参数 {i}，已自动添加该参数！")
           [("i", VStr i)]).

Definition saved_notice : log_level * log_text := (Info, Text (tr "保存配置成功！")).

Definition malformed_notice : log_level * log_text :=
  (Error, Text (tr "配置文件 settings.json 格式错误，请检查 JSON 格式！")).

Definition line_feed : string := String "010"%char "".

Definition created_notice : log_level * log_text :=
  (Info, Text (tr ("创建默认配置文件 settings.json 成功！" +:+ line_feed
                   +:+ "请参考项目文档的快速入门部分，设置 Cookie 后重新运行程序！"
                   +:+ line_feed
                   +:+ "建议根据实际使用需求修改配置文件 settings.json！" +:+ line_feed))).

(** [data.get(key, fallback)] *)
Definition get (data : dict) (key : string) (fallback : value) : value :=
  match assoc key data with
  | Some v => v
  | None => fallback
  end.

(** One round of the loop of [__compatible_with_old_settings]. *)
Definition rename_one (st : dict * env) (p : string * string * value) : dict * env :=
  let '(old, new_, fallback) := p in
  let '(data, e) := st in
  if has_key old data then
    (setitem new_ (get data new_ (get data old fallback)) data,
     say (fst (renamed_notice old new_)) (snd (renamed_notice old new_)) e)
  else (data, e).

(** [Settings.__compatible_with_old_settings] *)
Definition compatible_with_old_settings (data : dict) (e : env) : dict * env :=
  fold_left rename_one rename_params (data, e).

(** [Settings.update] on a [dict] *)
Definition update (settings : dict) (e : env) : env :=
  say (fst saved_notice) (snd saved_notice) (dump settings e).

(** One round of the loop of [__check]. *)
Definition add_missing (st : dict * bool * env) (kv : string * value)
  : dict * bool * env :=
  let '(data, changed, e) := st in
  if has_key (fst kv) data then st
  else (setitem (fst kv) (snd kv) data, true,
        say (fst (missing_notice (fst kv))) (snd (missing_notice (fst kv))) e).

(** [Settings.__check] *)
Definition check (data : dict) (e : env) : dict * env :=
  let '(data, e) := compatible_with_old_settings data e in
  let '(data, changed, e) := fold_left add_missing default (data, false, e) in
  if changed then (data, update data e) else (data, e).

(** [Settings.__create] *)
Definition create (e : env) : dict * env :=
  (default, say (fst created_notice) (snd created_notice) (dump default e)).

(** [Settings.compatible]: a file left in the parent directory moves in. *)
Definition compatible (e : env) : env :=
  match above e, here e with
  | Some c, None => {| console := console e; here := Some c; above := None |}
  | _, _ => e
  end.

(** [Settings.read] *)
Definition read (e : env) : dict * env :=
  let e := compatible e in
  match here e with
  | Some (Object data) => check data e
  | Some Malformed => (default, say (fst malformed_notice) (snd malformed_notice) e)
  | None => create e
  end.
End methods.

(** The old name a key is the new name of. *)
Definition old_name_of (k : string) : option string :=
  match List.find (fun p => String.eqb k (snd (fst p))) rename_params with
  | Some p => Some (fst (fst p))
  | None => None
  end.

(** The old names present in the data, with their new names, in the order of
    [rename_params]. *)
Definition renamed_in (data : dict) : list (string * string) :=
  map (fun p => (fst (fst p), snd (fst p)))
    (List.filter (fun p => has_key (fst (fst p)) data) rename_params).

(** The default entries whose key the data lacks, in the order of [default]. *)
Definition missing_in (data : dict) : list (string * value) :=
  List.filter (fun kv => negb (has_key (fst kv) data)) default.

(** Every parameter of [default] is in the data. *)
Definition complete (data : dict) : bool :=
  forallb (fun kv => has_key (fst kv) data) default.
End Settings.

(** ** Theorems *)

(** *** Path resolution *)

Lemma depth_conversion_dict_free (p : value) :
  is_payload p = true -> dict_free (depth_conversion p) = true.
Proof.
  induction p as [ | | | | l IH | d IH | d IH ] using value_nested_ind;
    simpl; intros Hp; try reflexivity; try discriminate.
  - rewrite forallb_forall in Hp. apply forallb_forall.
    intros y Hy. apply in_map_iff in Hy as (x & <- & Hx).
    rewrite List.Forall_forall in IH. auto.
  - rewrite forallb_forall in Hp. apply forallb_forall.
    intros y Hy. apply in_map_iff in Hy as (x & <- & Hx). simpl.
    rewrite List.Forall_forall in IH. apply IH; auto.
Qed.

Lemma assoc_dict_free (name : string) (d : list (string * value)) (v : value) :
  forallb (fun kv => dict_free (snd kv)) d = true ->
  assoc name d = Some v -> dict_free v = true.
Proof.
  induction d as [ | [k x] d IH ]; simpl; [discriminate | ].
  intros H%andb_prop. destruct H as [Hx Hd].
  destruct (String.eqb name k); [ intros [= <-]; exact Hx | auto ].
Qed.

Lemma plain_name_not_dict (name : string) :
  builtin_name name = false -> String.eqb name "__dict__" = false.
Proof.
  intros H. destruct (String.eqb_spec name "__dict__") as [-> | _];
    [ vm_compute in H; discriminate H | reflexivity ].
Qed.

Lemma plain_name_no_number (z : Z) (name : string) :
  builtin_name name = false -> number_attribute z name = VNone.
Proof.
  intros H. unfold number_attribute.
  destruct (String.eqb_spec name "real") as [-> | _];
    [ vm_compute in H; discriminate H | ].
  destruct (String.eqb_spec name "numerator") as [-> | _];
    [ vm_compute in H; discriminate H | ].
  destruct (String.eqb_spec name "denominator") as [-> | _];
    [ vm_compute in H; discriminate H | ].
  destruct (String.eqb_spec name "imag") as [-> | _];
    [ vm_compute in H; discriminate H | reflexivity ].
Qed.

(** On a name that is no built-in one, a node has the fields of its mapping
    and nothing else. *)
Lemma getattr_plain (data : value) (name : string) :
  builtin_name name = false ->
  getattr data name = match data with
                      | VNs fields => default VNone (assoc name fields)
                      | _ => VNone
                      end.
Proof.
  intros H. destruct data; simpl; try reflexivity.
  - apply plain_name_no_number, H.
  - apply plain_name_no_number, H.
  - rewrite (plain_name_not_dict name H). reflexivity.
Qed.

Lemma split_once_whole (c : ascii) (s h : string) :
  split_once c s = (h, None) -> h = s.
Proof.
  revert h. induction s as [ | a s IH ]; simpl; intros h.
  - intros [= <-]. reflexivity.
  - destruct (Ascii.eqb a c); [ discriminate | ].
    destruct (split_once c s) as [h' t]. intros [= <- ->]. f_equal. auto.
Qed.

Lemma getattr_dict_free (data : value) (name : string) :
  builtin_name name = false ->
  dict_free data = true -> dict_free (getattr data name) = true.
Proof.
  intros Hn. rewrite (getattr_plain data name Hn).
  destruct data; simpl; try reflexivity. intros H.
  destruct (assoc name fields) eqn:Ha; simpl; [ | reflexivity ].
  eapply assoc_dict_free; eauto.
Qed.

Lemma lookup_dict_free (l : list value) (j : nat) (x : value) :
  forallb dict_free l = true -> l !! j = Some x -> dict_free x = true.
Proof.
  rewrite forallb_forall. intros H Hj. apply H.
  apply list_elem_of_In. eapply list_elem_of_lookup_2; eauto.
Qed.

(** Indexing a node of a dict-free tree yields a dict-free node or one of the
    exceptions [safe_extract] catches. *)
Lemma getitem_dict_free (v : value) (i : Z) :
  dict_free v = true ->
  match getitem v i with
  | Ok x => dict_free x = true
  | Raise e => caught e = true
  end.
Proof.
  destruct v; simpl; try reflexivity; try discriminate; intros H.
  - destruct (norm_index _ i); [ | reflexivity ].
    destruct (chars s !! n) eqn:Hn; [ | reflexivity ].
    unfold chars in Hn. rewrite list_lookup_fmap in Hn.
    destruct (list_ascii_of_string s !! n); simpl in Hn; [ | discriminate ].
    injection Hn as <-. reflexivity.
  - destruct (norm_index _ i); [ | reflexivity ].
    destruct (l !! n) eqn:Hn; [ | reflexivity ].
    eapply lookup_dict_free; eauto.
Qed.

Lemma py_int_raises (s : string) (e : exn) : py_int s = Raise e -> e = ValueError.
Proof.
  unfold py_int.
  destruct (match strip (list_ascii_of_string s) with
            | c :: rest =>
                if Ascii.eqb c "-" then Z.opp <$> digits 0 false rest
                else if Ascii.eqb c "+" then digits 0 false rest
                else digits 0 false (strip (list_ascii_of_string s))
            | [] => None
            end); congruence.
Qed.

Lemma safe_extract_loop_total (attributes : list string) (data default : value) :
  forallb plain_segment attributes = true ->
  dict_free data = true ->
  exists v, safe_extract_loop attributes data default = Ok v.
Proof.
  revert data. induction attributes as [ | attribute rest IH ]; intros data Hp Hd; simpl.
  - eauto.
  - simpl in Hp. apply andb_prop in Hp as [Ha Hp].
    unfold plain_segment, segment_name in Ha. apply negb_true_iff in Ha.
    destruct (split_once "[" attribute) as [name [after | ]] eqn:Hs; simpl in Ha.
    + destruct (py_int _) as [i | e] eqn:Hi; simpl.
      * pose proof (getitem_dict_free (getattr data name) i
                      (getattr_dict_free _ _ Ha Hd)) as Hg.
        destruct (getitem _ i) as [x | e]; [ auto | rewrite Hg; eauto ].
      * apply py_int_raises in Hi as ->. simpl. eauto.
    + apply split_once_whole in Hs as ->.
      destruct (truthy _); [ | eauto ].
      apply IH; [ exact Hp | ]. apply getattr_dict_free; assumption.
Qed.

Lemma segment_fails_default (data : value) (attribute : string) (rest : list string)
    (default : value) :
  plain_segment attribute = true ->
  dict_free data = true ->
  segment_fails data attribute = true ->
  safe_extract_loop (attribute :: rest) data default = Ok default.
Proof.
  intros Ha Hd. unfold segment_fails. simpl.
  unfold plain_segment, segment_name in Ha. apply negb_true_iff in Ha.
  destruct (split_once "[" attribute) as [name [after | ]] eqn:Hs; simpl in Ha.
  - destruct (py_int _) as [i | e] eqn:Hi; simpl.
    + pose proof (getattr_dict_free data name Ha Hd) as Hc.
      pose proof (getitem_dict_free (getattr data name) i Hc) as Hg.
      rewrite (getattr_plain data name Ha) in *.
      intros [Hm | Hf]%orb_prop.
      * assert (match data with
                | VNs fields => option.default VNone (assoc name fields)
                | _ => VNone
                end = VNone) as ->; [ | reflexivity ].
        destruct data; simpl in *; try reflexivity.
        destruct (assoc name fields); [ | reflexivity ].
        rewrite bool_decide_eq_true_2 in Hm by eauto. discriminate.
      * destruct (match data with
                  | VNs fields => option.default VNone (assoc name fields)
                  | _ => VNone
                  end) eqn:Hc'; simpl in *; try reflexivity; try discriminate.
        -- apply bool_decide_eq_true_1 in Hf. rewrite Hf. reflexivity.
        -- apply bool_decide_eq_true_1 in Hf. rewrite Hf. reflexivity.
    + intros _. apply py_int_raises in Hi as ->. reflexivity.
  - apply split_once_whole in Hs as ->. rewrite (getattr_plain data attribute Ha).
    intros Hm.
    assert (match data with
            | VNs fields => option.default VNone (assoc attribute fields)
            | _ => VNone
            end = VNone) as ->; [ | reflexivity ].
    destruct data; simpl in *; try reflexivity.
    destruct (assoc attribute fields); [ | reflexivity ].
    rewrite bool_decide_eq_true_2 in Hm by eauto. discriminate.
Qed.

(** C2, as the code has it.  On every tree that [generate_data_object] builds
    from a payload, for every path that names no attribute Python objects
    have of their own and for every default, [safe_extract] returns a value
    and raises nothing.  At each such segment a missing named child (also
    when the node is no mapping), an index that is no integer, an indexed
    child that is no sequence, and an index out of range on either side all
    end the resolution with the caller's default.  In particular "a.b[0].c"
    resolves to the default when [a.b] is an empty sequence. *)
Theorem safe_extract_returns_on_payload_names (payload : value)
    (attribute_chain : string) (default : value) :
  is_payload payload = true ->
  plain_path attribute_chain = true ->
  (exists v, safe_extract (generate_data_object payload) attribute_chain default = Ok v)
  /\ (forall data attribute rest,
        plain_segment attribute = true ->
        dict_free data = true ->
        segment_fails data attribute = true ->
        safe_extract_loop (attribute :: rest) data default = Ok default)
  /\ (getattr (getattr (generate_data_object payload) "a") "b" = VList [] ->
      safe_extract (generate_data_object payload) "a.b[0].c" default = Ok default).
Proof.
  intros Hp Hplain. split; [ | split ].
  - apply safe_extract_loop_total; [ exact Hplain | ].
    apply depth_conversion_dict_free, Hp.
  - intros data attribute rest Ha Hd Hf. apply segment_fails_default; assumption.
  - intros Hb. unfold safe_extract.
    change (split_on "." "a.b[0].c") with ["a"; "b[0]"; "c"].
    cbn [safe_extract_loop]. change (split_once "[" "a") with ("a", @None string).
    change (split_once "[" "b[0]") with ("b", Some "0]").
    change (fst (split_once "]" "0]")) with "0".
    destruct (truthy (getattr (generate_data_object payload) "a")) eqn:Ha;
      [ | reflexivity ].
    rewrite Hb. reflexivity.
Qed.

Lemma safe_extract_returns_on_payload_names_witness :
  let payload := VDict [("a", VDict [("b", VList [])])] in
  is_payload payload = true
  /\ plain_path "a.b[0].c" = true
  /\ safe_extract (generate_data_object payload) "a.b[0].c" (VStr "none") = Ok (VStr "none").
Proof.
  split; [ reflexivity | split; [ reflexivity | ] ].
  apply (safe_extract_returns_on_payload_names (VDict [("a", VDict [("b", VList [])])])
           "a.b[0].c" (VStr "none")); reflexivity.
Defined.

(** C2 as the specification states it fails on a path through an attribute
    the namespace has of its own: [__dict__] is the mapping of the fields,
    indexing a mapping by a number raises [KeyError], and the [except] clause
    of [safe_extract] does not name [KeyError]. *)
Lemma safe_extract_raises_through_dict :
  is_payload (VDict [("a", VInt 1)]) = true
  /\ safe_extract (generate_data_object (VDict [("a", VInt 1)])) "__dict__[0]" (VStr "")
     = Raise KeyError.
Proof. split; reflexivity. Qed.

(** A tree that still holds a [dict] is outside that guarantee as well. *)
Example safe_extract_unconverted_dict :
  safe_extract (VNs [("a", VDict [("b", VInt 1)])]) "a[0]" (VStr "") = Raise KeyError.
Proof. reflexivity. Qed.

(** A [str] is a sequence to Python: indexing it in range yields a character. *)
Example safe_extract_indexes_text :
  safe_extract (VNs [("a", VStr "xyz")]) "a[0]" (VStr "") = Ok (VStr "x").
Proof. reflexivity. Qed.

(** A falsy node has no fields. *)
Lemma getattr_falsy (d : value) (name : string) :
  builtin_name name = false -> truthy d = false -> getattr d name = VNone.
Proof.
  intros Hn. rewrite (getattr_plain d name Hn). destruct d; simpl; congruence.
Qed.

Lemma resolve_final_only_falsy (attributes : list string) (d default : value) :
  forallb plain_segment attributes = true ->
  truthy d = false -> resolve_final_only attributes d default = Ok default.
Proof.
  intros Hp Hd. destruct attributes as [ | attribute rest ]; simpl.
  - unfold py_or. rewrite Hd. reflexivity.
  - simpl in Hp. apply andb_prop in Hp as [Ha _].
    unfold plain_segment, segment_name in Ha. apply negb_true_iff in Ha.
    destruct (split_once "[" attribute) as [name [after | ]] eqn:Hs; simpl in Ha.
    + rewrite getattr_falsy by assumption.
      destruct (py_int _) as [i | e] eqn:Hi; simpl; [ reflexivity | ].
      apply py_int_raises in Hi as ->. reflexivity.
    + apply split_once_whole in Hs as ->.
      rewrite getattr_falsy by assumption. reflexivity.
Qed.

Lemma safe_extract_loop_final_only (attributes : list string) (data default : value) :
  forallb plain_segment attributes = true ->
  safe_extract_loop attributes data default = resolve_final_only attributes data default.
Proof.
  revert data. induction attributes as [ | attribute rest IH ]; intros data Hp; simpl.
  - reflexivity.
  - simpl in Hp. apply andb_prop in Hp as [Ha Hp].
    destruct (split_once "[" attribute) as [name [after | ]].
    + destruct (try! i <- py_int _; getitem (getattr data name) i);
        [ apply IH, Hp | reflexivity ].
    + destruct (truthy (getattr data attribute)) eqn:Ht.
      * rewrite IH by exact Hp.
        destruct (getattr data attribute); try reflexivity. discriminate.
      * pose proof (resolve_final_only_falsy rest _ default Hp Ht) as Hr.
        destruct (getattr data attribute); congruence.
Qed.

(** C6, as the code has it.  [safe_extract] gives the default as soon as a
    named segment yields a falsy value, wherever the segment stands in the
    path; the value an indexed segment yields is not tested, and the value
    the last segment yields is replaced by the default when it is falsy.  On
    a path that names no attribute Python objects have of their own this is
    the resolver that gives the default in the middle only for a missing
    child and asks whether the value is falsy once, at the end: a falsy node
    has no fields.  "a.b" with [b] the empty string gives the default, and so
    does "a.c[2]" when [a.c] has one element. *)
Theorem falsy_default_at_named_segments (data : value) (attribute_chain : string)
    (default : value) :
  (forall attribute rest,
      split_once "[" attribute = (attribute, None) ->
      truthy (getattr data attribute) = false ->
      safe_extract_loop (attribute :: rest) data default = Ok default)
  /\ (forall attribute name after i x rest,
        split_once "[" attribute = (name, Some after) ->
        py_int (fst (split_once "]" after)) = Ok i ->
        getitem (getattr data name) i = Ok x ->
        safe_extract_loop (attribute :: rest) data default
        = safe_extract_loop rest x default)
  /\ (plain_path attribute_chain = true ->
      safe_extract data attribute_chain default
      = resolve_final_only (split_on "." attribute_chain) data default)
  /\ (getattr (getattr data "a") "b" = VStr "" ->
      safe_extract data "a.b" default = Ok default)
  /\ (forall x, getattr (getattr data "a") "c" = VList [x] ->
      safe_extract data "a.c[2]" default = Ok default).
Proof.
  split; [ | split; [ | split; [ | split ] ] ].
  - intros attribute rest Hs Ht. simpl. rewrite Hs, Ht. reflexivity.
  - intros attribute name after i x rest Hs Hi Hx. simpl. rewrite Hs, Hi. simpl.
    rewrite Hx. reflexivity.
  - intros Hp. apply safe_extract_loop_final_only, Hp.
  - intros Hb. unfold safe_extract.
    change (split_on "." "a.b") with ["a"; "b"]. cbn [safe_extract_loop].
    change (split_once "[" "a") with ("a", @None string).
    change (split_once "[" "b") with ("b", @None string).
    destruct (truthy (getattr data "a")); [ | reflexivity ].
    rewrite Hb. reflexivity.
  - intros x Hc. unfold safe_extract.
    change (split_on "." "a.c[2]") with ["a"; "c[2]"]. cbn [safe_extract_loop].
    change (split_once "[" "a") with ("a", @None string).
    change (split_once "[" "c[2]") with ("c", Some "2]").
    change (fst (split_once "]" "2]")) with "2".
    destruct (truthy (getattr data "a")); [ | reflexivity ].
    rewrite Hc. reflexivity.
Qed.

Lemma falsy_default_at_named_segments_witness :
  let data := VNs [("a", VNs [("b", VStr ""); ("c", VList [VInt 7])])] in
  plain_path "a.b" = true
  /\ safe_extract data "a.b" (VStr "none")
     = resolve_final_only ["a"; "b"] data (VStr "none")
  /\ safe_extract data "a.b" (VStr "none") = Ok (VStr "none")
  /\ safe_extract data "a.c[2]" (VStr "none") = Ok (VStr "none").
Proof.
  pose proof (falsy_default_at_named_segments
                (VNs [("a", VNs [("b", VStr ""); ("c", VList [VInt 7])])])
                "a.b" (VStr "none")) as (_ & _ & Hp & Hb & Hc).
  split; [ reflexivity | ].
  split; [ apply Hp; reflexivity | ].
  split; [ apply Hb; reflexivity | apply (Hc (VInt 7)); reflexivity ].
Defined.

(** C6 as the specification states it fails where a falsy node in the middle
    has an attribute of its own: zero has the denominator one, so the
    resolver that stops in the middle only for a missing child reaches it,
    while [safe_extract] has already given the default at the zero.  With
    five in the place of zero both give the denominator. *)
Lemma falsy_middle_node_gives_default :
  let zero := generate_data_object (VDict [("a", VInt 0)]) in
  let five := generate_data_object (VDict [("a", VInt 5)]) in
  safe_extract zero "a.denominator" (VStr "none") = Ok (VStr "none")
  /\ resolve_final_only (split_on "." "a.denominator") zero (VStr "none") = Ok (VInt 1)
  /\ safe_extract five "a.denominator" (VStr "none") = Ok (VInt 1)
  /\ safe_extract zero "a.denominator" (VStr "none")
     <> resolve_final_only (split_on "." "a.denominator") zero (VStr "none").
Proof. repeat split; try reflexivity. discriminate. Qed.

(** *** Reasoning about the state-and-exception monad *)

Lemma mbind_ok {A B} (m : M A) (k : A -> M B) (w w' : world) (b : B) :
  mbind m k w = (Ok b, w') ->
  exists a w1, m w = (Ok a, w1) /\ k a w1 = (Ok b, w').
Proof.
  unfold mbind. destruct (m w) as [[a | e] w1]; [ eauto | discriminate ].
Qed.

Lemma lift_ok {A} (o : outcome A) (w w' : world) (a : A) :
  lift o w = (Ok a, w') -> o = Ok a /\ w' = w.
Proof. unfold lift. intros [= -> ->]. auto. Qed.

Lemma keeps_saved_ret {A} (a : A) : keeps_saved (mret a).
Proof. intros w. reflexivity. Qed.

Lemma keeps_saved_lift {A} (o : outcome A) : keeps_saved (lift o).
Proof. intros w. reflexivity. Qed.

Lemma keeps_saved_log (lv : log_level) (t : log_text) (e : option bool) :
  keeps_saved (log_call lv t e).
Proof. intros w. reflexivity. Qed.

Lemma keeps_saved_bind {A B} (m : M A) (k : A -> M B) :
  keeps_saved m -> (forall a, keeps_saved (k a)) -> keeps_saved (mbind m k).
Proof.
  intros Hm Hk w. unfold mbind. specialize (Hm w).
  destruct (m w) as [[a | e] w1]; simpl in *; [ | assumption ].
  rewrite Hk. assumption.
Qed.

Lemma keeps_saved_mmap {A B} (f : A -> M B) (l : list A) :
  (forall a, keeps_saved (f a)) -> keeps_saved (mmap f l).
Proof.
  intros Hf. induction l as [ | x l IH ]; simpl.
  - apply keeps_saved_ret.
  - apply keeps_saved_bind; [ apply Hf | intros y ].
    apply keeps_saved_bind; [ apply IH | intros ys; apply keeps_saved_ret ].
Qed.

Lemma keeps_saved_mfilter {A} (f : A -> M bool) (l : list A) :
  (forall a, keeps_saved (f a)) -> keeps_saved (mfilter f l).
Proof.
  intros Hf. induction l as [ | x l IH ]; simpl.
  - apply keeps_saved_ret.
  - apply keeps_saved_bind; [ apply Hf | intros y ].
    apply keeps_saved_bind; [ apply IH | intros ys; apply keeps_saved_ret ].
Qed.

Lemma keeps_saved_run {A} (m : M A) (w w' : world) (r : outcome A) :
  keeps_saved m -> m w = (r, w') -> saved w' = saved w.
Proof. intros Hm Hr. specialize (Hm w). rewrite Hr in Hm. exact Hm. Qed.

Ltac keeps_saved_step :=
  first
    [ apply keeps_saved_ret
    | apply keeps_saved_lift
    | apply keeps_saved_log
    | apply keeps_saved_bind; [ | intros ? ]
    | apply keeps_saved_mmap; intros ?
    | apply keeps_saved_mfilter; intros ?
    | match goal with
      | |- keeps_saved (match ?x with _ => _ end) => destruct x
      end ].

Ltac keeps_saved_auto := repeat keeps_saved_step.

Example ordinal_epoch : ordinal 1970 1 1 = 719163.
Proof. reflexivity. Qed.

(** *** The pipeline stages *)

Section stages.
Context (E : collaborators).

Lemma extract_video_download_keeps (data : value) :
  keeps_saved (extract_video_download E data).
Proof. unfold extract_video_download. keeps_saved_auto. Qed.

Lemma extract_video_download_tiktok_keeps (data : value) :
  keeps_saved (extract_video_download_tiktok E data).
Proof. unfold extract_video_download_tiktok. keeps_saved_auto. Qed.

Lemma extract_batch_keeps (c : container) (data : value) :
  keeps_saved (extract_batch E c data).
Proof.
  unfold extract_batch, extract_detail_info, classifying_detail,
    extract_image_info, extract_video_info, classify_slides_item.
  repeat first [ apply extract_video_download_keeps | keeps_saved_step ].
Qed.

Lemma extract_batch_tiktok_keeps (c : container) (data : value) :
  keeps_saved (extract_batch_tiktok E c data).
Proof.
  unfold extract_batch_tiktok, extract_detail_info_tiktok, classifying_detail_tiktok,
    extract_image_info_tiktok, extract_video_info_tiktok.
  repeat first [ apply extract_video_download_tiktok_keeps | keeps_saved_step ].
Qed.

Lemma platform_classify_detail_keeps (data : list value) (c : container) (tiktok : bool) :
  keeps_saved (platform_classify_detail E data c tiktok).
Proof.
  unfold platform_classify_detail. destruct tiktok; apply keeps_saved_mmap; intros raw;
    [ apply extract_batch_tiktok_keeps | apply extract_batch_keeps ].
Qed.

Lemma extract_item_records_keeps (data : list item) :
  keeps_saved (extract_item_records E data).
Proof. unfold extract_item_records. keeps_saved_auto. Qed.

Lemma summary_detail_keeps {A} (data : list A) : keeps_saved (summary_detail E data).
Proof. apply keeps_saved_log. Qed.

(** The custom filter keeps the items the rule accepts, in order, and
    touches only the counters. *)
Lemma condition_filter_spec (all_data : list item) (w : world) :
  exists w', condition_filter E all_data w
             = (Ok (List.filter (condition_rule E) all_data), w')
             /\ saved w' = saved w /\ logs w' = logs w.
Proof.
  unfold condition_filter. revert w.
  induction all_data as [ | x l IH ]; intros w; simpl.
  - exists w. auto.
  - unfold mbind, custom.condition_filter at 1.
    match goal with
    | |- context [mfilter _ l ?w1] => destruct (IH w1) as (w' & Hl & Hs & Hg); rewrite Hl
    end.
    exists w'. simpl in *. destruct (condition_rule E x); auto.
Qed.

(** Persisting writes one row per item, in order. *)
Lemma record_data_spec (record : recorder) (data : list item) (w w' : world) (u : unit) :
  record_data record data w = (Ok u, w') ->
  exists rows, omap (extract_values record) data = Ok rows
               /\ saved w' = (saved w ++ rows)%list.
Proof.
  unfold record_data. intros H. apply mbind_ok in H as (us & w1 & H & Hret).
  injection Hret as _ ->. clear u. revert w us w' H.
  induction data as [ | x l IH ]; intros w us w' H; simpl in *.
  - injection H as <- <-. exists []. rewrite app_nil_r. auto.
  - apply mbind_ok in H as (y & w2 & Hx & H).
    apply mbind_ok in H as (ys & w3 & Hl & H). injection H as <- <-.
    apply mbind_ok in Hx as (row & w4 & Hrow & Hsave).
    apply lift_ok in Hrow as [Hrow ->]. injection Hsave as <- <-.
    apply IH in Hl as (rows & Hrows & Hsaved). simpl in Hsaved.
    exists (row :: rows). rewrite Hrow. simpl. rewrite Hrows. simpl.
    rewrite Hsaved, <- app_assoc. auto.
Qed.
End stages.

Lemma ofilter_sublist {A} (f : A -> outcome bool) (l r : list A) :
  ofilter f l = Ok r -> sublist r l.
Proof.
  revert r. induction l as [ | x l IH ]; intros r; simpl.
  - intros [= <-]. constructor.
  - destruct (f x) as [b | ]; simpl; [ | discriminate ].
    destruct (ofilter f l) as [ys | ]; simpl; [ | discriminate ].
    intros [= <-]. destruct b; [ apply sublist_skip | apply sublist_cons ]; auto.
Qed.

Lemma filter_sublist {A} (f : A -> bool) (l : list A) : sublist (List.filter f l) l.
Proof.
  induction l as [ | x l IH ]; simpl; [ constructor | ].
  destruct (f x); [ apply sublist_skip | apply sublist_cons ]; auto.
Qed.

Lemma clean_extract_data_has_key (data : list item) (key : string) :
  Forall (fun i => truthy (item_get i key) = true) (clean_extract_data data key).
Proof.
  unfold clean_extract_data. apply List.Forall_forall.
  intros i Hi. apply filter_In in Hi as [_ Hi]. exact Hi.
Qed.

Section pipeline.
Context (E : collaborators).

(** What a returning [__batch] has done. *)
Lemma batch_spec (data : list value) (record : recorder) (tiktok : bool)
    (name mark : value) (earliest latest : Z) (same : bool) (w w' : world)
    (out : list item) :
  batch E data record tiktok name mark earliest latest same w = (Ok out, w') ->
  exists c extracted w1 w2 dated rows,
    platform_classify_detail E data c tiktok w = (Ok extracted, w1)
    /\ extract_item_records E (clean_extract_data extracted "id") w1 = (Ok tt, w2)
    /\ date_filter E c (clean_extract_data extracted "id") = Ok dated
    /\ out = List.filter (condition_rule E) dated
    /\ omap (extract_values record) out = Ok rows
    /\ saved w' = (saved w ++ rows)%list.
Proof.
  unfold batch, detail_necessary_keys. intros H.
  apply mbind_ok in H as (extracted & w1 & Hx & H).
  apply mbind_ok in H as ([] & w2 & Hlog & H).
  apply mbind_ok in H as (dated & w3 & Hdate & H).
  apply lift_ok in Hdate as [Hdate ->].
  apply mbind_ok in H as (kept & w4 & Hkeep & H).
  apply mbind_ok in H as (u & w5 & Hrec & H).
  apply mbind_ok in H as (u' & w6 & Hsum & H).
  injection H as <- <-.
  destruct (condition_filter_spec E dated w2) as (w4' & Hc & Hs4 & _).
  rewrite Hc in Hkeep. injection Hkeep as <- <-.
  apply record_data_spec in Hrec as (rows & Hrows & Hs5).
  eexists _, extracted, w1, w2, dated, rows.
  repeat split; eauto.
  rewrite (keeps_saved_run _ _ _ _ (summary_detail_keeps E _) Hsum), Hs5, Hs4.
  rewrite (keeps_saved_run _ _ _ _ (extract_item_records_keeps E _) Hlog).
  rewrite (keeps_saved_run _ _ _ _ (platform_classify_detail_keeps E _ _ _) Hx).
  reflexivity.
Qed.

(** What a returning [__detail] has done. *)
Lemma detail_spec (data : list value) (record : recorder) (tiktok : bool)
    (w w' : world) (out : list item) :
  detail E data record tiktok w = (Ok out, w') ->
  exists c extracted w1 w2 rows,
    platform_classify_detail E data c tiktok w = (Ok extracted, w1)
    /\ extract_item_records E (clean_extract_data extracted "id") w1 = (Ok tt, w2)
    /\ omap (extract_values record) (clean_extract_data extracted "id") = Ok rows
    /\ saved w' = (saved w ++ rows)%list
    /\ out = List.filter (condition_rule E) (clean_extract_data extracted "id").
Proof.
  unfold detail, detail_necessary_keys. intros H.
  apply mbind_ok in H as (extracted & w1 & Hx & H).
  apply mbind_ok in H as ([] & w2 & Hlog & H).
  apply mbind_ok in H as (u & w3 & Hrec & H).
  apply mbind_ok in H as (kept & w4 & Hkeep & H).
  injection H as <- <-.
  destruct (condition_filter_spec E (clean_extract_data extracted "id") w3)
    as (w4' & Hc & Hs4 & _).
  rewrite Hc in Hkeep. injection Hkeep as <- <-.
  apply record_data_spec in Hrec as (rows & Hrows & Hs3).
  eexists _, extracted, w1, w2, rows.
  repeat split; eauto.
  rewrite Hs4, Hs3.
  rewrite (keeps_saved_run _ _ _ _ (extract_item_records_keeps E _) Hlog).
  rewrite (keeps_saved_run _ _ _ _ (platform_classify_detail_keeps E _ _ _) Hx).
  reflexivity.
Qed.

(** [run] returns only through one of its two modes. *)
Lemma run_ok (data : list value) (record : recorder) (type_ : string) (tiktok : bool)
    (kwargs : option batch_kwargs) (w w' : world) (out : list item) :
  run E data record type_ tiktok kwargs w = (Ok out, w') ->
  (type_ = "batch" /\ exists kw, kwargs = Some kw
     /\ batch E data record tiktok (kw_name kw) (kw_mark kw) (kw_earliest kw)
          (kw_latest kw) (kw_same kw) w = (Ok out, w'))
  \/ (type_ = "detail" /\ kwargs = None /\ detail E data record tiktok w = (Ok out, w')).
Proof.
  unfold run. destruct (String.eqb type_ "batch") eqn:Hb.
  - apply String.eqb_eq in Hb. destruct kwargs as [kw | ]; [ | discriminate ].
    intros H. left. eauto.
  - destruct (String.eqb type_ "detail") eqn:Hd; [ | discriminate ].
    apply String.eqb_eq in Hd. destruct kwargs; [ discriminate | ].
    intros H. right. auto.
Qed.

(** C1. In both modes every item of the list [run] returns has a truthy
    [id].  The items without one are dropped right after extraction: the
    success records are logged for the cleaned list, and both the returned
    list and the persisted rows are drawn, in order, from the cleaned list,
    so no later stage brings such an item back. *)
Theorem returned_items_have_id (data : list value) (record : recorder)
    (type_ : string) (tiktok : bool) (kwargs : option batch_kwargs)
    (w w' : world) (out : list item) :
  run E data record type_ tiktok kwargs w = (Ok out, w') ->
  Forall (fun i => truthy (item_get i "id") = true) out
  /\ exists c extracted w1 w2 persisted rows,
       platform_classify_detail E data c tiktok w = (Ok extracted, w1)
       /\ extract_item_records E (clean_extract_data extracted "id") w1 = (Ok tt, w2)
       /\ sublist out (clean_extract_data extracted "id")
       /\ sublist persisted (clean_extract_data extracted "id")
       /\ omap (extract_values record) persisted = Ok rows
       /\ saved w' = (saved w ++ rows)%list.
Proof.
  intros H.
  assert (exists c extracted w1 w2 persisted rows,
       platform_classify_detail E data c tiktok w = (Ok extracted, w1)
       /\ extract_item_records E (clean_extract_data extracted "id") w1 = (Ok tt, w2)
       /\ sublist out (clean_extract_data extracted "id")
       /\ sublist persisted (clean_extract_data extracted "id")
       /\ omap (extract_values record) persisted = Ok rows
       /\ saved w' = (saved w ++ rows)%list) as Hall.
  { apply run_ok in H as [(_ & kw & _ & H) | (_ & _ & H)].
    - apply batch_spec in H as (c & extracted & w1 & w2 & dated & rows & Hx & Hlog
                                & Hdate & -> & Hrows & Hsaved).
      assert (sublist (List.filter (condition_rule E) dated)
                (clean_extract_data extracted "id")) as Hsub.
      { etransitivity; [ apply filter_sublist | ].
        unfold date_filter in Hdate. destruct (c_context c).
        - eapply ofilter_sublist; eauto.
        - destruct (clean_extract_data extracted "id"); [ | discriminate ].
          injection Hdate as <-. constructor. }
      exists c, extracted, w1, w2, (List.filter (condition_rule E) dated), rows. auto 10.
    - apply detail_spec in H as (c & extracted & w1 & w2 & rows & Hx & Hlog & Hrows
                                 & Hsaved & ->).
      exists c, extracted, w1, w2, (clean_extract_data extracted "id"), rows.
      repeat split; auto using filter_sublist. }
  split; [ | exact Hall ].
  destruct Hall as (c & extracted & w1 & w2 & persisted & rows & _ & _ & Hsub & _).
  pose proof (clean_extract_data_has_key extracted "id") as Hid.
  rewrite Forall_forall in Hid |- *.
  intros i Hi. apply Hid. eapply elem_of_sublist; eauto.
Qed.
End pipeline.

Lemma returned_items_have_id_witness :
  let r := run Sample.standard [Sample.work "1"; VDict [("desc", VStr "no id")]]
             Sample.by_id "batch" false (Some Sample.june_2024) Sample.fresh in
  ids (returned r) = [VStr "1"]
  /\ Forall (fun i => truthy (item_get i "id") = true) (returned r).
Proof.
  intros r. split; [ reflexivity | ].
  apply (returned_items_have_id Sample.standard
           [Sample.work "1"; VDict [("desc", VStr "no id")]]
           Sample.by_id "batch" false (Some Sample.june_2024) Sample.fresh (snd r)
           (returned r)).
  vm_compute. reflexivity.
Defined.

(** C5, as the code has it.  Whatever [run] persists is written one row per
    item, once, in extraction order, and the returned list is drawn in order
    from the persisted items, so the persisted set contains the returned set.
    In batch mode the custom filter runs before persistence: the persisted
    items are exactly the returned ones, those of the cleaned list that pass
    the date filter and the custom rule.  In detail mode persistence runs
    first: every item of the cleaned list is persisted and the custom rule
    then only narrows the returned list. *)
Theorem persisted_contains_returned (E : collaborators) (data : list value)
    (record : recorder) (type_ : string) (tiktok : bool) (kwargs : option batch_kwargs)
    (w w' : world) (out : list item) :
  run E data record type_ tiktok kwargs w = (Ok out, w') ->
  exists c extracted w1 persisted rows,
    platform_classify_detail E data c tiktok w = (Ok extracted, w1)
    /\ omap (extract_values record) persisted = Ok rows
    /\ saved w' = (saved w ++ rows)%list
    /\ sublist out persisted
    /\ (type_ = "batch" ->
        persisted = out
        /\ exists dated, date_filter E c (clean_extract_data extracted "id") = Ok dated
                         /\ out = List.filter (condition_rule E) dated)
    /\ (type_ = "detail" ->
        persisted = clean_extract_data extracted "id"
        /\ out = List.filter (condition_rule E) persisted).
Proof.
  intros H. apply run_ok in H as [(-> & kw & _ & H) | (-> & _ & H)].
  - apply batch_spec in H as (c & extracted & w1 & w2 & dated & rows & Hx & _
                              & Hdate & Hout & Hrows & Hsaved).
    exists c, extracted, w1, out, rows.
    repeat split; eauto; discriminate.
  - apply detail_spec in H as (c & extracted & w1 & w2 & rows & Hx & _ & Hrows
                               & Hsaved & ->).
    exists c, extracted, w1, (clean_extract_data extracted "id"), rows.
    repeat split; auto using filter_sublist; discriminate.
Qed.

Lemma persisted_contains_returned_witness :
  let r := run (Sample.plain Sample.without_2 (-1)) [Sample.work "1"; Sample.work "2"]
             Sample.by_id "detail" false None Sample.fresh in
  ids (returned r) = [VStr "1"]
  /\ saved (snd r) = [[VStr "1"]; [VStr "2"]]
  /\ exists persisted, sublist (returned r) persisted.
Proof.
  intros r. split; [ reflexivity | split; [ reflexivity | ] ].
  destruct (persisted_contains_returned (Sample.plain Sample.without_2 (-1))
              [Sample.work "1"; Sample.work "2"] Sample.by_id "detail" false None
              Sample.fresh (snd r) (returned r))
    as (c & extracted & w1 & persisted & rows & _ & _ & _ & Hsub & _).
  - vm_compute. reflexivity.
  - exists persisted. exact Hsub.
Defined.

(** C5 as stated fails in batch mode: with a custom rule that excludes work
    "2", that work passes the id check and the date filter (it is persisted
    when the rule keeps everything) and yet no row is written for it, so the
    exclusion does not stay with the returned list. *)
Lemma batch_filters_before_persisting :
  let data := [Sample.work "1"; Sample.work "2"] in
  let keeping := run Sample.standard data Sample.by_id "batch" false
                   (Some Sample.june_2024) Sample.fresh in
  let excluding := run (Sample.plain Sample.without_2 (-1)) data Sample.by_id "batch"
                     false (Some Sample.june_2024) Sample.fresh in
  saved (snd keeping) = [[VStr "1"]; [VStr "2"]]
  /\ ids (returned excluding) = [VStr "1"]
  /\ saved (snd excluding) = [[VStr "1"]]
  /\ ~ In [VStr "2"] (saved (snd excluding)).
Proof.
  repeat split; try reflexivity.
  vm_compute. intros [H | []]. discriminate.
Qed.

(** A missing or zero [create_time] is extracted as the empty string, and the
    date filter cannot convert text: it raises [TypeError] at the first such
    item, whatever the clock and the range. *)
Lemma undated_timestamp_is_text (data : value) :
  truthy (getattr data "create_time") = false ->
  safe_extract data "create_time" (VStr "") = Ok (VStr "").
Proof. intros H. unfold safe_extract. simpl. rewrite H. reflexivity. Qed.

Lemma date_filter_rejects_text (E : collaborators) (same : bool) (ctx : batch_context)
    (it : item) (rest : list item) (s : string) :
  it !! "create_timestamp" = Some (VStr s) ->
  date_filter E {| c_same := same; c_context := Some ctx |} (it :: rest) = Raise TypeError.
Proof. intros H. unfold date_filter, item_at. simpl. rewrite H. reflexivity. Qed.

(** C4, at the failing input.  A work without [create_time] (or with a zero
    one) passes the id check with the empty string as its timestamp;
    [__date_filter] hands that to [datetime.fromtimestamp], which raises
    [TypeError], and the whole batch is lost: nothing is persisted and the
    well-formed work next to it is not returned.  Without the undated work the
    same batch returns. *)
Theorem batch_aborts_on_undated_item :
  let run_batch data := run Sample.standard data Sample.by_id "batch" false
                          (Some Sample.june_2024) Sample.fresh in
  fst (run_batch [Sample.undated "1"; Sample.work "2"]) = Raise TypeError
  /\ saved (snd (run_batch [Sample.undated "1"; Sample.work "2"])) = []
  /\ fst (run_batch [VDict [("aweme_id", VStr "1"); ("create_time", VInt 0)];
                      Sample.work "2"]) = Raise TypeError
  /\ ids (returned (run_batch [Sample.work "2"])) = [VStr "2"]
  /\ saved (snd (run_batch [Sample.work "2"])) = [[VStr "2"]].
Proof. repeat split; vm_compute; reflexivity. Qed.

(** *** The raw-source date filter *)

Lemma ofilter_sound {A} (f : A -> outcome bool) (g : A -> bool) (l r : list A) :
  (forall x b, f x = Ok b -> g x = b) ->
  ofilter f l = Ok r -> r = List.filter g l.
Proof.
  intros Hfg. revert r. induction l as [ | x l IH ]; intros r; simpl.
  - intros [= <-]. reflexivity.
  - destruct (f x) as [b | ] eqn:Hx; simpl; [ | discriminate ].
    destruct (ofilter f l) as [ys | ]; simpl; [ | discriminate ].
    intros [= <-]. rewrite (Hfg x b Hx), (IH ys eq_refl). reflexivity.
Qed.

Lemma ofilter_complete {A} (f : A -> outcome bool) (g : A -> bool) (l : list A) :
  Forall (fun x => f x = Ok (g x)) l ->
  ofilter f l = Ok (List.filter g l).
Proof.
  induction 1 as [ | x l Hx _ IH ]; simpl; [ reflexivity | ].
  rewrite Hx. simpl. rewrite IH. simpl. destruct (g x); reflexivity.
Qed.

Section raw_filter.
Context (E : collaborators) (earliest latest : Z).

Lemma source_test_sound (key : string) (raw : value) (b : bool) :
  source_test E key earliest latest raw = Ok b -> kept_by_date E key earliest latest raw = b.
Proof.
  unfold source_test, kept_by_date, dict_get.
  destruct raw; simpl; try discriminate.
  destruct (truthy (default (VInt 0) (assoc key d))); simpl; [ | congruence ].
  destruct (to_date E _); simpl; congruence.
Qed.

Lemma source_test_complete (key : string) (raw : value) :
  timestamp_usable E key raw = true ->
  source_test E key earliest latest raw = Ok (kept_by_date E key earliest latest raw).
Proof.
  unfold source_test, kept_by_date, timestamp_usable, dict_get.
  destruct raw; simpl; try discriminate.
  destruct (truthy (default (VInt 0) (assoc key d))); simpl; [ | reflexivity ].
  destruct (to_date E _); simpl; [ reflexivity | discriminate ].
Qed.

(** C8. The raw-source date filter keeps exactly the payloads whose native
    timestamp field is missing or falsy, or converts to a local calendar day
    [d] with [earliest <= d <= latest], both ends included: whenever it
    returns, the result is that selection of the input, in order; and it
    does return, persisting nothing, on every list of mappings whose
    timestamps are absent, falsy or numbers the clock converts. *)
Theorem source_date_filter_inclusive (data : list value) (tiktok : bool) (w : world) :
  let key := timestamp_key tiktok in
  (forall r w', source_date_filter E data earliest latest tiktok w = (Ok r, w') ->
                r = List.filter (kept_by_date E key earliest latest) data)
  /\ (Forall (fun raw => timestamp_usable E key raw = true) data ->
      exists w', source_date_filter E data earliest latest tiktok w
                 = (Ok (List.filter (kept_by_date E key earliest latest) data), w')
                 /\ saved w' = saved w)
  /\ (forall d, truthy (default (VInt 0) (assoc key d)) = false ->
                kept_by_date E key earliest latest (VDict d) = true)
  /\ (forall d t day, assoc key d = Some t -> truthy t = true -> to_date E t = Ok day ->
                      (kept_by_date E key earliest latest (VDict d) = true
                       <-> earliest <= day <= latest)).
Proof.
  intros key.
  assert (source_date_filter E data earliest latest tiktok
          = source_date_filter_by E data key earliest latest) as ->.
  { unfold source_date_filter, key, timestamp_key. destruct tiktok; reflexivity. }
  unfold source_date_filter_by.
  split; [ | split; [ | split ] ].
  - intros r w' H. apply mbind_ok in H as (r' & w1 & Hf & H).
    apply lift_ok in Hf as [Hf ->].
    apply mbind_ok in H as (u & w2 & _ & H). injection H as <- _.
    eapply ofilter_sound; [ apply source_test_sound | exact Hf ].
  - intros Hu. unfold mbind, lift.
    rewrite (ofilter_complete (source_test E key earliest latest)
               (kept_by_date E key earliest latest)).
    + simpl. eexists. split; reflexivity.
    + eapply Forall_impl; [ exact Hu | ]. intros raw. apply source_test_complete.
  - intros d Hd. unfold kept_by_date. rewrite Hd. reflexivity.
  - intros d t day Ht Htrue Hday. unfold kept_by_date. rewrite Ht. simpl.
    rewrite Htrue, Hday. simpl. rewrite andb_true_iff, !Z.leb_le. reflexivity.
Qed.
End raw_filter.

Lemma source_date_filter_inclusive_witness :
  let data := [Sample.work "1"; Sample.undated "2"] in
  let filtered e l := fst (source_date_filter Sample.standard data e l false Sample.fresh) in
  Forall (fun raw => timestamp_usable Sample.standard "create_time" raw = true) data
  /\ filtered (ordinal 2024 6 1) (ordinal 2024 6 30) = Ok data
  /\ filtered (ordinal 2024 6 15) (ordinal 2024 6 15) = Ok data
  /\ filtered (ordinal 2024 7 1) (ordinal 2024 7 31) = Ok [Sample.undated "2"].
Proof.
  intros data filtered.
  assert (Forall (fun raw => timestamp_usable Sample.standard "create_time" raw = true) data)
    as Hu by (repeat constructor).
  split; [ exact Hu | ].
  assert (forall e l, filtered e l
            = Ok (List.filter (kept_by_date Sample.standard "create_time" e l) data)) as Hf.
  { intros e l.
    destruct (source_date_filter_inclusive Sample.standard e l data false Sample.fresh)
      as (_ & Hret & _).
    destruct (Hret Hu) as (w' & Hrun & _).
    unfold filtered. rewrite Hrun. reflexivity. }
  rewrite !Hf. repeat split; reflexivity.
Defined.

(** *** Identity preprocessing *)

Lemma getitem_key_raises (v : value) (k : string) (e : exn) :
  getitem_key v k = Raise e -> e = KeyError \/ e = TypeError.
Proof.
  destruct v; simpl; try (intros [= <-]; auto).
  destruct (assoc k d); [ discriminate | intros [= <-]; auto ].
Qed.

Section identity.
Context (E : collaborators).

Lemma user_info_or_empty_total (data : value) (r : outcome item) (w : world) :
  (forall e, r = Raise e -> e = KeyError \/ e = TypeError) ->
  exists info w1, user_info_or_empty E data r w = (Ok info, w1) /\ saved w1 = saved w.
Proof.
  intros Hr. destruct r as [info | e]; simpl.
  - exists info, w. auto.
  - destruct (Hr e eq_refl) as [-> | ->]; simpl; eexists _, _; split; reflexivity.
Qed.

Lemma get_user_info_total (data : value) (w : world) :
  exists info w1, get_user_info E data w = (Ok info, w1) /\ saved w1 = saved w.
Proof.
  apply user_info_or_empty_total. intros e.
  destruct (getitem_key data "nickname") as [n | e1] eqn:H1; simpl;
    [ | intros [= <-]; eapply getitem_key_raises; eauto ].
  destruct (getitem_key data "sec_uid") as [s | e2] eqn:H2; simpl;
    [ | intros [= <-]; eapply getitem_key_raises; eauto ].
  destruct (getitem_key data "uid") as [u | e3] eqn:H3; simpl;
    [ discriminate | intros [= <-]; eapply getitem_key_raises; eauto ].
Qed.

Lemma nested_key_raises (data : value) (k1 k2 : string) (e : exn) :
  (try! u <- getitem_key data k1; getitem_key u k2) = Raise e ->
  e = KeyError \/ e = TypeError.
Proof.
  destruct (getitem_key data k1) as [u | e1] eqn:H1; simpl.
  - apply getitem_key_raises.
  - intros [= <-]. eapply getitem_key_raises; eauto.
Qed.

Lemma get_user_info_tiktok_total (data : value) (w : world) :
  exists info w1, get_user_info_tiktok E data w = (Ok info, w1) /\ saved w1 = saved w.
Proof.
  apply user_info_or_empty_total. intros e.
  destruct (try! u <- getitem_key data "user"; getitem_key u "nickname")
    as [n | e1] eqn:H1; simpl;
    [ | intros [= <-]; eapply nested_key_raises; eauto ].
  destruct (try! u <- getitem_key data "user"; getitem_key u "secUid")
    as [s | e2] eqn:H2; simpl;
    [ | intros [= <-]; eapply nested_key_raises; eauto ].
  destruct (try! u <- getitem_key data "user"; getitem_key u "id")
    as [u | e3] eqn:H3; simpl;
    [ discriminate | intros [= <-]; eapply nested_key_raises; eauto ].
Qed.

(** C9. On a single profile the account reader never raises and persists
    nothing; when the [sec_uid] it extracted differs from the identifier the
    caller expects, [preprocessing_data] logs the mismatch and returns the
    empty triple, again with nothing persisted and nothing raised.  In
    particular a Source-A profile with [sec_uid] "X" checked against "Y",
    with X different from Y, gives the empty triple. *)
Theorem identity_mismatch_returns_empty (d : list (string * value)) (tiktok : bool)
    (mode : option string) (mark user_id : value) (w : world) :
  exists info w1,
    (if tiktok then get_user_info_tiktok E (VDict d) else get_user_info E (VDict d)) w
      = (Ok info, w1)
    /\ saved w1 = saved w
    /\ (py_eq user_id (item_get info "sec_uid") = false ->
        exists w',
          preprocessing_data E (VDict d) tiktok mode mark user_id w
            = (Ok (VStr "", VStr "", VStr ""), w')
          /\ saved w' = saved w
          /\ logs w' = (logs w1 ++ [mismatch_entry E user_id (item_get info "sec_uid")])%list)
    /\ (forall n x u y,
          tiktok = false -> user_id = VStr y ->
          assoc "nickname" d = Some n -> assoc "sec_uid" d = Some (VStr x) ->
          assoc "uid" d = Some u -> x <> y ->
          fst (preprocessing_data E (VDict d) tiktok mode mark user_id w)
            = Ok (VStr "", VStr "", VStr "")).
Proof.
  assert (exists info w1,
            (if tiktok then get_user_info_tiktok E (VDict d)
             else get_user_info E (VDict d)) w = (Ok info, w1)
            /\ saved w1 = saved w) as (info & w1 & Hinfo & Hsaved).
  { destruct tiktok; [ apply get_user_info_tiktok_total | apply get_user_info_total ]. }
  assert (py_eq user_id (item_get info "sec_uid") = false ->
          preprocessing_data E (VDict d) tiktok mode mark user_id w
          = (Ok (VStr "", VStr "", VStr ""),
             {| logs := logs w1 ++ [mismatch_entry E user_id (item_get info "sec_uid")];
                saved := saved w1;
                filter_stats := filter_stats w1 |})) as Hmis.
  { intros Hne. unfold preprocessing_data, mbind at 1. rewrite Hinfo, Hne. reflexivity. }
  exists info, w1. split; [ exact Hinfo | split; [ exact Hsaved | split ] ].
  - intros Hne. eexists. split; [ apply Hmis, Hne | ]. simpl. auto.
  - intros n x u y -> -> Hn Hs Hu Hxy.
    assert (item_get info "sec_uid" = VStr x) as Hx.
    { unfold get_user_info in Hinfo. simpl in Hinfo. rewrite Hn, Hs, Hu in Hinfo.
      simpl in Hinfo. injection Hinfo as <- _.
      unfold item_get. rewrite lookup_insert_ne by discriminate.
      rewrite lookup_insert_eq. reflexivity. }
    rewrite Hmis; [ reflexivity | ].
    rewrite Hx. simpl. apply String.eqb_neq. congruence.
Qed.
End identity.

Lemma identity_mismatch_returns_empty_witness :
  let profile := [("nickname", VStr "someone"); ("sec_uid", VStr "X"); ("uid", VStr "7")] in
  let r := preprocessing_data Sample.standard (VDict profile) false None (VStr "")
             (VStr "Y") Sample.fresh in
  fst r = Ok (VStr "", VStr "", VStr "") /\ saved (snd r) = [].
Proof.
  intros profile r. split; [ | reflexivity ].
  destruct (identity_mismatch_returns_empty Sample.standard profile false None (VStr "")
              (VStr "Y") Sample.fresh) as (info & w1 & _ & _ & _ & Hxy).
  apply (Hxy (VStr "someone") "X" (VStr "7") "Y"); try reflexivity. discriminate.
Defined.

(** *** Share links *)

Section share_link.
Context (E : collaborators).



End share_link.


(** *** Quality selection *)

Lemma lex_ltb_asym (a b : list Z) : lex_ltb a b = true -> lex_ltb b a = false.
Proof.
  revert b. induction a as [ | x a IH ]; intros [ | y b ]; simpl; try congruence.
  destruct (Z.eqb_spec x y) as [-> | Hxy].
  - rewrite Z.eqb_refl. apply IH.
  - destruct (Z.eqb_spec y x); [ congruence | ]. lia.
Qed.

Lemma lex_le_trans (a b c : list Z) : lex_le a b -> lex_le b c -> lex_le a c.
Proof.
  unfold lex_le. revert a b. induction c as [ | z c IH ]; intros [ | x a ] [ | y b ];
    simpl; try congruence.
  destruct (Z.eqb_spec y x) as [Hyx | Hyx]; destruct (Z.eqb_spec z y) as [Hzy | Hzy];
    destruct (Z.eqb_spec z x) as [Hzx | Hzx]; try lia; try congruence.
  apply IH.
Qed.

Section ascending_facts.
Context (key : variant -> list Z).

Lemma insert_variant_perm (x : variant) (l : list variant) :
  Permutation (insert_variant key x l) (x :: l).
Proof.
  induction l as [ | y l IH ]; simpl; [ reflexivity | ].
  destruct (lex_ltb (key x) (key y)); [ reflexivity | ].
  rewrite IH. apply perm_swap.
Qed.

Lemma insert_variant_sorted (x : variant) (l : list variant) :
  Sorted (key_le key) l -> Sorted (key_le key) (insert_variant key x l).
Proof.
  induction 1 as [ | y l Hl IH Hy ]; simpl.
  - repeat constructor.
  - destruct (lex_ltb (key x) (key y)) eqn:Hxy.
    + constructor; [ constructor; assumption | ].
      constructor. apply lex_ltb_asym, Hxy.
    + constructor; [ exact IH | ].
      destruct l as [ | z l ]; simpl.
      * constructor. exact Hxy.
      * destruct (lex_ltb (key x) (key z)); constructor; [ exact Hxy | ].
        inversion Hy; assumption.
Qed.

Lemma sort_into_perm (done todo : list variant) :
  Permutation (sort_into key done todo) (done ++ todo).
Proof.
  revert done. induction todo as [ | x todo IH ]; intros done; simpl.
  - rewrite app_nil_r. reflexivity.
  - rewrite IH, insert_variant_perm. apply Permutation_middle.
Qed.

Lemma sort_into_sorted (done todo : list variant) :
  Sorted (key_le key) done -> Sorted (key_le key) (sort_into key done todo).
Proof.
  revert done. induction todo as [ | x todo IH ]; intros done Hd; simpl;
    [ exact Hd | apply IH, insert_variant_sorted, Hd ].
Qed.

Lemma sort_ascending_sorted (l : list variant) : Sorted (key_le key) (sort_ascending key l).
Proof. apply sort_into_sorted. constructor. Qed.

Lemma sort_ascending_perm (l : list variant) : Permutation (sort_ascending key l) l.
Proof. apply (sort_into_perm [] l). Qed.

Lemma key_le_trans (a b c : variant) : key_le key a b -> key_le key b c -> key_le key a c.
Proof. apply lex_le_trans. Qed.

Lemma key_le_refl (a : variant) : key_le key a a.
Proof.
  unfold key_le, lex_le. induction (key a) as [ | x k IH ]; simpl; [ reflexivity | ].
  rewrite Z.eqb_refl. exact IH.
Qed.

Lemma last_of_sorted (l : list variant) (b : variant) :
  StronglySorted (key_le key) l -> last l = Some b -> forall v, In v l -> key_le key v b.
Proof.
  induction 1 as [ | x l Hl IH Hx ]; [ discriminate | ].
  destruct l as [ | y l ].
  - intros [= <-] v [<- | []]. apply key_le_refl.
  - rewrite last_cons_cons. intros Hb v [<- | Hv].
    + rewrite List.Forall_forall in Hx.
      apply Hx, list_elem_of_In, last_Some_elem_of, Hb.
    + apply IH; assumption.
Qed.

(** The selected variant is a variant of the list with the greatest key. *)
Lemma best_is_greatest (l : list variant) (b : variant) :
  best key l = Some b -> In b l /\ forall v, In v l -> key_le key v b.
Proof.
  unfold best. intros Hb. split.
  - apply (Permutation_in _ (sort_ascending_perm l)).
    apply list_elem_of_In, last_Some_elem_of, Hb.
  - intros v Hv. apply (last_of_sorted (sort_ascending key l)); [ | exact Hb | ].
    + apply Sorted_StronglySorted; [ | apply sort_ascending_sorted ].
      intros a b' c. apply key_le_trans.
    + apply (Permutation_in _ (Permutation_sym (sort_ascending_perm l))), Hv.
Qed.
End ascending_facts.

(** Keys made of integers compare as their tuples do. *)
Lemma key_lt_ints (k1 k2 : list Z) :
  key_lt (map VInt k1) (map VInt k2) = Ok (lex_ltb k1 k2).
Proof.
  unfold key_lt. revert k2.
  induction k1 as [ | x k1 IH ]; intros [ | y k2 ]; try reflexivity.
  simpl. destruct (x =? y); [ | reflexivity ]. exact (IH k2).
Qed.

Lemma getitem_last (l : list value) :
  getitem (VList l) (-1) = match last l with Some x => Ok x | None => Raise IndexError end.
Proof.
  unfold getitem, norm_index. simpl.
  destruct l as [ | x l ]; [ reflexivity | ].
  replace (-1 + Z.of_nat (length (x :: l))) with (Z.of_nat (length l))
    by (simpl length; lia).
  replace (Z.of_nat (length l) <? 0) with false by (symmetry; apply Z.ltb_ge; lia).
  replace (Z.of_nat (length (x :: l)) <=? Z.of_nat (length l)) with false
    by (symmetry; apply Z.leb_gt; simpl length; lia).
  simpl orb. cbv iota. rewrite Nat2Z.id, last_lookup. simpl.
  destruct ((x :: l) !! length l); reflexivity.
Qed.

Section sorting_refines.
Context (key : variant -> list Z) (tuple : variant -> value).

Lemma insert_by_keyed (x : variant) (l : list variant) :
  insert_by keyed_lt ((keyed key tuple) x) (map (keyed key tuple) l) = Ok (map (keyed key tuple) (insert_variant key x l)).
Proof.
  induction l as [ | y l IH ]; simpl; [ reflexivity | ].
  unfold keyed_lt at 1. simpl. rewrite key_lt_ints. simpl.
  destruct (lex_ltb (key x) (key y)); [ reflexivity | ].
  rewrite IH. reflexivity.
Qed.

Lemma sort_from_keyed (done todo : list variant) :
  sort_from keyed_lt (map (keyed key tuple) done) (map (keyed key tuple) todo)
  = Ok (map (keyed key tuple) (sort_into key done todo)).
Proof.
  revert done. induction todo as [ | x todo IH ]; intros done; simpl; [ reflexivity | ].
  rewrite insert_by_keyed. simpl. apply IH.
Qed.

(** On tuples of well-formed variants [list.sort] computes the ascending,
    stable sort by key. *)
Lemma sort_by_key_refines (key_of : value -> outcome (list value)) (l : list variant) :
  (forall v, key_of (tuple v) = Ok (map VInt (key v))) ->
  sort_by_key key_of (map tuple l) = Ok (map tuple (sort_ascending key l)).
Proof.
  intros Hkey. unfold sort_by_key.
  assert (omap (fun x => try! k <- key_of x; Ok (k, x)) (map tuple l) = Ok (map (keyed key tuple) l))
    as ->.
  { induction l as [ | v l IH ]; simpl; [ reflexivity | ].
    rewrite Hkey. simpl. rewrite IH. reflexivity. }
  simpl. change (sort_from _ [] (map (keyed key tuple) l))
    with (sort_from keyed_lt (map (keyed key tuple) []) (map (keyed key tuple) l)).
  rewrite sort_from_keyed. simpl. rewrite map_map. reflexivity.
Qed.
End sorting_refines.

Lemma omap_tuples {A} (f : value -> outcome value) (tuple : A -> value)
    (raw : list value) (l : list A) :
  Forall2 (fun i v => f i = Ok (tuple v)) raw l ->
  omap f raw = Ok (map tuple l).
Proof.
  induction 1 as [ | i v raw l Hi _ IH ]; simpl; [ reflexivity | ].
  rewrite Hi. simpl. rewrite IH. reflexivity.
Qed.

Lemma variant_key_of_tuple (v : variant) :
  variant_key (tuple_of v) = Ok (map VInt (claimed_key v)).
Proof.
  unfold variant_key, tuple_of, claimed_key, py_max. simpl.
  destruct (Z.ltb_spec (height v) (width v)); simpl; do 3 f_equal; lia.
Qed.

Lemma variant_key_tiktok_of_tuple (v : variant) :
  variant_key_tiktok (tuple_of_tiktok v) = Ok (map VInt (key_without_frame_rate v)).
Proof.
  unfold variant_key_tiktok, tuple_of_tiktok, key_without_frame_rate, py_max. simpl.
  destruct (Z.ltb_spec (height v) (width v)); simpl; do 3 f_equal; lia.
Qed.

Lemma last_map {A B} (f : A -> B) (l : list A) : last (map f l) = f <$> last l.
Proof.
  induction l as [ | x [ | y l ] IH ]; try reflexivity.
  change (map f (x :: y :: l)) with (f x :: f y :: map f l).
  rewrite !last_cons_cons. exact IH.
Qed.

(** The [try] block of each selector on well-formed variants. *)
Lemma select_variant_chosen (raw : list value) (l : list variant) :
  Forall2 (fun i v => variant_tuple i = Ok (tuple_of v)) raw l ->
  select_variant (VList raw) = chosen claimed_key (-1) l.
Proof.
  intros Hraw. unfold select_variant, chosen, best, py_iter.
  cbn [obind].
  rewrite (omap_tuples variant_tuple tuple_of raw l Hraw). cbn [obind].
  rewrite (sort_by_key_refines claimed_key tuple_of variant_key l variant_key_of_tuple).
  cbn [obind]. rewrite getitem_last, last_map.
  destruct (last (sort_ascending claimed_key l)) as [b | ] eqn:Hb.
  - destruct (sort_ascending claimed_key l); [ discriminate | reflexivity ].
  - apply last_None in Hb. rewrite Hb. reflexivity.
Qed.

Lemma select_variant_tiktok_chosen (E : collaborators) (raw : list value)
    (l : list variant) :
  Forall2 (fun i v => variant_tuple_tiktok i = Ok (tuple_of_tiktok v)) raw l ->
  select_variant_tiktok E (VList raw)
  = chosen key_without_frame_rate (VIDEO_TIKTOK_INDEX E) l.
Proof.
  intros Hraw. unfold select_variant_tiktok, chosen, best, py_iter.
  cbn [obind].
  rewrite (omap_tuples variant_tuple_tiktok tuple_of_tiktok raw l Hraw). cbn [obind].
  rewrite (sort_by_key_refines key_without_frame_rate tuple_of_tiktok variant_key_tiktok l
             variant_key_tiktok_of_tuple).
  cbn [obind]. rewrite getitem_last, last_map.
  destruct (last (sort_ascending key_without_frame_rate l)) as [b | ] eqn:Hb.
  - destruct (sort_ascending key_without_frame_rate l); [ discriminate | reflexivity ].
  - apply last_None in Hb. rewrite Hb. reflexivity.
Qed.

Lemma chosen_outcome (key : variant -> list Z) (index : Z) (l : list variant) :
  (exists t, chosen key index l = Ok t) \/ chosen key index l = Raise IndexError.
Proof.
  unfold chosen. destruct (best key l) as [b | ]; [ | eauto ].
  unfold getitem.
  destruct (norm_index _ index) as [j | ]; [ | auto ].
  destruct (_ !! j); simpl; eauto.
Qed.

Lemma nodes_well_formed (l : list variant) :
  Forall2 (fun i v => variant_tuple i = Ok (tuple_of v)) (map node_of l) l.
Proof. induction l; simpl; constructor; auto. Qed.

Lemma nodes_well_formed_tiktok (l : list variant) :
  Forall2 (fun i v => variant_tuple_tiktok i = Ok (tuple_of_tiktok v))
    (map node_of_tiktok l) l.
Proof. induction l; simpl; constructor; auto. Qed.

(** C3, as the code has it.  On a list of well-formed variants the Source-A
    selector sorts ascending by [(max(height, width), frame_rate, bit_rate,
    byte_size)], takes the last element and returns its height, its width and
    the last of its URL candidates.  The Source-B selector reads no frame
    rate: it sorts ascending by [(max(height, width), bit_rate, byte_size)],
    takes the last element and returns its height, its width and its URL
    candidate at the configured index.  The sorted list is ascending and a
    permutation of the input, so the selected variant has the greatest key.
    An empty list gives the sentinel [(-1, -1, "")]; the candidates
    [(30,1000,500,480,720,["u1"])] and [(60,2000,900,1080,1920,["u2","u3"])]
    give [(1080, 1920, "u3")] on Source-A. *)
Theorem quality_selection (E : collaborators) (data : value) (raw : list value)
    (l : list variant) (w : world) :
  (safe_extract data "video.bit_rate" (VList []) = Ok (VList raw) ->
   Forall2 (fun i v => variant_tuple i = Ok (tuple_of v)) raw l ->
   extract_video_download E data w = (chosen claimed_key (-1) l, w))
  /\ (safe_extract data "video.bitrateInfo" (VList []) = Ok (VList raw) ->
      Forall2 (fun i v => variant_tuple_tiktok i = Ok (tuple_of_tiktok v)) raw l ->
      extract_video_download_tiktok E data w
      = (chosen key_without_frame_rate (VIDEO_TIKTOK_INDEX E) l, w))
  /\ (forall key,
        Sorted (key_le key) (sort_ascending key l)
        /\ Permutation (sort_ascending key l) l
        /\ forall b, best key l = Some b -> In b l /\ forall v, In v l -> key_le key v b)
  /\ (forall key index,
        l = [] -> chosen key index l = Ok (VInt (-1), VInt (-1), VStr ""))
  /\ chosen claimed_key (-1) [Candidates.low; Candidates.high]
     = Ok (VInt 1080, VInt 1920, VStr "u3").
Proof.
  split; [ | split; [ | split; [ | split ] ] ].
  - intros Hdata Hraw. unfold extract_video_download, mbind, lift. rewrite Hdata.
    rewrite (select_variant_chosen raw l Hraw).
    destruct (chosen_outcome claimed_key (-1) l) as [[t ->] | ->]; reflexivity.
  - intros Hdata Hraw. unfold extract_video_download_tiktok, mbind, lift. rewrite Hdata.
    rewrite (select_variant_tiktok_chosen E raw l Hraw).
    destruct (chosen_outcome key_without_frame_rate (VIDEO_TIKTOK_INDEX E) l)
      as [[t ->] | ->]; reflexivity.
  - intros key. split; [ apply sort_ascending_sorted | ].
    split; [ apply sort_ascending_perm | apply best_is_greatest ].
  - intros key index ->. reflexivity.
  - reflexivity.
Qed.

Lemma quality_selection_witness :
  extract_video_download Sample.standard
    (video_of [Candidates.low; Candidates.high]) Sample.fresh
  = (Ok (VInt 1080, VInt 1920, VStr "u3"), Sample.fresh)
  /\ extract_video_download_tiktok (Sample.plain custom.keep_everything 0)
       (video_of_tiktok [Candidates.low; Candidates.high]) Sample.fresh
     = (Ok (VInt 1080, VInt 1920, VStr "u2"), Sample.fresh).
Proof.
  split.
  - apply (quality_selection Sample.standard
             (video_of [Candidates.low; Candidates.high])
             (map node_of [Candidates.low; Candidates.high])
             [Candidates.low; Candidates.high] Sample.fresh);
      [ reflexivity | apply nodes_well_formed ].
  - apply (quality_selection (Sample.plain custom.keep_everything 0)
             (video_of_tiktok [Candidates.low; Candidates.high])
             (map node_of_tiktok [Candidates.low; Candidates.high])
             [Candidates.low; Candidates.high] Sample.fresh);
      [ reflexivity | apply nodes_well_formed_tiktok ].
Defined.

(** C3 as stated fails on Source-B: of two candidates with the same larger
    side, the stated key puts the one with the higher frame rate last, but
    the Source-B selector never reads the frame rate and returns the one with
    the higher bit rate. *)
Lemma tiktok_selector_ignores_frame_rate :
  let l := [Candidates.smooth; Candidates.dense] in
  chosen claimed_key (-1) l = Ok (VInt 100, VInt 100, VStr "u1")
  /\ fst (extract_video_download_tiktok Sample.standard (video_of_tiktok l) Sample.fresh)
     = Ok (VInt 50, VInt 100, VStr "u2")
  /\ fst (extract_video_download_tiktok Sample.standard (video_of_tiktok l) Sample.fresh)
     <> chosen claimed_key (VIDEO_TIKTOK_INDEX Sample.standard) l.
Proof. repeat split; try reflexivity. vm_compute. discriminate. Qed.

(** *** Printed indices parse back *)

Lemma chars_append (s t : string) :
  list_ascii_of_string (s +:+ t) = (list_ascii_of_string s ++ list_ascii_of_string t)%list.
Proof. induction s as [ | a s IH ]; simpl; [ reflexivity | rewrite IH; reflexivity ]. Qed.

Lemma pretty_N_char_digit (n : N) :
  (n < 10)%N -> digit_of (pretty_N_char n) = Some (Z.of_N n).
Proof.
  intros Hn. destruct n as [ | p ]; [ reflexivity | ].
  do 4 (try destruct p as [ p | p | ]; try reflexivity; try lia).
Qed.

Lemma pretty_N_char_index (n : N) : index_char (pretty_N_char n) = true.
Proof. unfold pretty_N_char. repeat case_match; reflexivity. Qed.

Lemma pretty_N_go_chars (x : N) (s : string) :
  Forall (fun a => index_char a = true) (list_ascii_of_string s) ->
  Forall (fun a => index_char a = true) (list_ascii_of_string (pretty_N_go x s)).
Proof.
  revert s. induction (N.lt_wf_0 x) as [x _ IH]; intros s Hs.
  destruct (decide (x = 0%N)) as [-> | Hx]; [ exact Hs | ].
  rewrite pretty_N_go_step by lia.
  apply IH; [ apply N.div_lt; lia | ].
  simpl. constructor; [ apply pretty_N_char_index | exact Hs ].
Qed.

Lemma pretty_N_go_digits (x : N) (s : string) (b : bool) :
  (0 < x)%N ->
  digits 0 b (list_ascii_of_string (pretty_N_go x s))
  = digits (Z.of_N x) true (list_ascii_of_string s).
Proof.
  revert s. induction (N.lt_wf_0 x) as [x _ IH]; intros s Hx.
  rewrite pretty_N_go_step by exact Hx.
  assert (digit_of (pretty_N_char (x `mod` 10)) = Some (Z.of_N (x `mod` 10))) as Hd
    by (apply pretty_N_char_digit, N.mod_lt; discriminate).
  assert (Z.of_N x = 10 * Z.of_N (x `div` 10) + Z.of_N (x `mod` 10)) as Hx10.
  { rewrite (N.div_mod x 10) at 1 by discriminate. lia. }
  destruct (decide (x `div` 10 = 0)%N) as [H0 | H0].
  - rewrite H0 in *. rewrite pretty_N_go_0. simpl. rewrite Hd, Hx10. reflexivity.
  - rewrite IH; [ | apply N.div_lt; [ exact Hx | reflexivity ] | apply N.neq_0_lt_0, H0 ].
    simpl. rewrite Hd, Hx10. reflexivity.
Qed.

Lemma pretty_Z_chars (z : Z) :
  Forall (fun a => index_char a = true) (list_ascii_of_string (pretty z)).
Proof.
  destruct z as [ | p | p ]; unfold pretty, pretty_Z.
  - repeat constructor.
  - unfold pretty, pretty_positive, pretty, pretty_N.
    case_decide; [ repeat constructor | apply pretty_N_go_chars; constructor ].
  - rewrite chars_append. apply Forall_app. split; [ repeat constructor | ].
    unfold pretty, pretty_positive, pretty, pretty_N.
    case_decide; [ repeat constructor | apply pretty_N_go_chars; constructor ].
Qed.

Lemma lstrip_index_chars (l : list ascii) :
  Forall (fun a => index_char a = true) l -> lstrip l = l.
Proof.
  destruct 1 as [ | a l Ha _ ]; simpl; [ reflexivity | ].
  assert (is_space a = false) as ->; [ | reflexivity ].
  unfold index_char, digit_of, is_space in *.
  destruct (Ascii.eqb_spec a "-") as [-> | _]; [ reflexivity | ].
  destruct (_ && _)%nat eqn:Hd in Ha; [ | discriminate ].
  apply andb_prop in Hd as [H1%Nat.leb_le H2%Nat.leb_le].
  apply orb_false_intro;
    [ apply andb_false_intro2; apply Nat.leb_gt; lia | apply Nat.eqb_neq; lia ].
Qed.

Lemma strip_index_chars (l : list ascii) :
  Forall (fun a => index_char a = true) l -> strip l = l.
Proof.
  intros Hl. unfold strip. rewrite (lstrip_index_chars l Hl).
  rewrite lstrip_index_chars by (apply Forall_rev, Hl).
  apply rev_involutive.
Qed.

Lemma digits_head (l : list ascii) (z : Z) :
  digits 0 false l = Some z ->
  exists a r, l = a :: r /\ Ascii.eqb a "-" = false /\ Ascii.eqb a "+" = false.
Proof.
  destruct l as [ | a r ]; simpl; [ discriminate | ].
  destruct (digit_of a) eqn:Hd.
  - intros _. exists a, r. repeat split.
    + destruct (Ascii.eqb_spec a "-") as [-> | ]; [ discriminate | reflexivity ].
    + destruct (Ascii.eqb_spec a "+") as [-> | ]; [ discriminate | reflexivity ].
  - rewrite andb_false_r. discriminate.
Qed.

(** [int(str(z))] is [z]. *)
Lemma py_int_pretty (z : Z) : py_int (pretty z) = Ok z.
Proof.
  unfold py_int. rewrite strip_index_chars by apply pretty_Z_chars.
  assert (forall p, digits 0 false (list_ascii_of_string (pretty (Zpos p))) = Some (Zpos p))
    as Hpos.
  { intros p. unfold pretty, pretty_Z, pretty, pretty_positive, pretty, pretty_N.
    case_decide; [ discriminate | ].
    rewrite pretty_N_go_digits by lia. reflexivity. }
  destruct z as [ | p | p ].
  - reflexivity.
  - destruct (digits_head _ _ (Hpos p)) as (a & r & Hl & Hm & Hp).
    rewrite Hl, Hm, Hp, <- Hl, Hpos. reflexivity.
  - change (pretty (Zneg p)) with (String "-" (pretty (Zpos p))).
    cbn [list_ascii_of_string]. rewrite Ascii.eqb_refl, Hpos. reflexivity.
Qed.

Lemma index_chars_free_of (c : ascii) (s : string) :
  index_char c = false ->
  Forall (fun a => index_char a = true) (list_ascii_of_string s) -> free_of c s.
Proof.
  intros Hc Hs. unfold free_of. eapply Forall_impl; [ exact Hs | ].
  intros a Ha. destruct (Ascii.eqb_spec a c) as [-> | ]; congruence.
Qed.

Lemma split_on_free (c : ascii) (s : string) : free_of c s -> split_on c s = [s].
Proof.
  unfold free_of. induction s as [ | a s IH ]; simpl; [ reflexivity | ].
  intros H. apply Forall_cons in H as [-> H]. rewrite IH by exact H. reflexivity.
Qed.

Lemma split_once_at (c : ascii) (s rest : string) :
  free_of c s -> split_once c (s +:+ String c rest) = (s, Some rest).
Proof.
  unfold free_of. induction s as [ | a s IH ]; simpl.
  - rewrite Ascii.eqb_refl. reflexivity.
  - intros H. apply Forall_cons in H as [-> H]. rewrite IH by exact H. reflexivity.
Qed.

(** *** The degrade path *)

Lemma attr_spec (i : value) (name : string) :
  builtin_name name = false ->
  attr i name = if has_attr i name then Ok (getattr i name) else Raise AttributeError.
Proof.
  intros Hn. rewrite (getattr_plain i name Hn).
  destruct i; simpl; try reflexivity.
  destruct (assoc name fields); reflexivity.
Qed.

Ltac split_on_attrs :=
  repeat (rewrite attr_spec by reflexivity;
          match goal with
          | |- context [has_attr ?v ?n] => destruct (has_attr v n)
          end;
          simpl in *; try reflexivity; try discriminate).

Lemma variant_tuple_lacks (i : value) :
  lacks_subfield i = true -> variant_tuple i = Raise AttributeError.
Proof. unfold lacks_subfield, variant_tuple. intros H. split_on_attrs. Qed.

Lemma variant_tuple_tiktok_lacks (i : value) :
  lacks_subfield_tiktok i = true -> variant_tuple_tiktok i = Raise AttributeError.
Proof. unfold lacks_subfield_tiktok, variant_tuple_tiktok. intros H. split_on_attrs. Qed.

Lemma variant_tuple_raises (i : value) (e : exn) :
  variant_tuple i = Raise e -> e = AttributeError.
Proof. unfold variant_tuple. split_on_attrs; congruence. Qed.

Lemma variant_tuple_tiktok_raises (i : value) (e : exn) :
  variant_tuple_tiktok i = Raise e -> e = AttributeError.
Proof. unfold variant_tuple_tiktok. split_on_attrs; congruence. Qed.

(** One variant that cannot be read makes the whole comprehension raise
    [AttributeError]. *)
Lemma omap_attribute_error (f : value -> outcome value) (lacks : value -> bool)
    (raw : list value) :
  (forall i, lacks i = true -> f i = Raise AttributeError) ->
  (forall i e, f i = Raise e -> e = AttributeError) ->
  Exists (fun i => lacks i = true) raw ->
  omap f raw = Raise AttributeError.
Proof.
  intros Hlacks Hraises. induction 1 as [ i raw Hi | i raw _ IH ]; simpl.
  - rewrite (Hlacks i Hi). reflexivity.
  - destruct (f i) as [t | e] eqn:Hf; simpl.
    + rewrite IH. reflexivity.
    + rewrite (Hraises i e Hf). reflexivity.
Qed.

Lemma safe_extract_loop_dict_free (attributes : list string) (data default v : value) :
  forallb plain_segment attributes = true ->
  dict_free data = true -> dict_free default = true ->
  safe_extract_loop attributes data default = Ok v -> dict_free v = true.
Proof.
  intros Hp Hd Hdef. revert data Hd.
  induction attributes as [ | attribute rest IH ]; intros data Hd; simpl.
  - unfold py_or. destruct (truthy data); intros [= <-]; assumption.
  - simpl in Hp. apply andb_prop in Hp as [Ha Hp].
    unfold plain_segment, segment_name in Ha. apply negb_true_iff in Ha.
    destruct (split_once "[" attribute) as [name [after | ]] eqn:Hs; simpl in Ha.
    + destruct (py_int _) as [i | e]; simpl.
      * pose proof (getitem_dict_free (getattr data name) i
                      (getattr_dict_free _ _ Ha Hd)) as Hg.
        destruct (getitem _ i) as [x | e]; [ apply (IH Hp), Hg | ].
        destruct (caught e); [ intros [= <-]; assumption | discriminate ].
      * destruct (caught e); [ intros [= <-]; assumption | discriminate ].
    + apply split_once_whole in Hs as ->.
      destruct (truthy _); [ apply (IH Hp), getattr_dict_free; assumption | ].
      intros [= <-]. assumption.
Qed.

(** A path of two names resolves to the grandchild, or to the default when
    that is missing or falsy. *)
Lemma resolve_two_names (d : value) (a b : string) (default : value) :
  split_once "[" a = (a, None) -> split_once "[" b = (b, None) ->
  builtin_name b = false ->
  safe_extract_loop [a; b] d default = Ok (py_or (getattr (getattr d a) b) default).
Proof.
  intros Ha Hb Hn. simpl. rewrite Ha, Hb.
  destruct (truthy (getattr d a)) eqn:Hta.
  - unfold py_or. destruct (truthy (getattr (getattr d a) b)) eqn:Htb; reflexivity.
  - rewrite (getattr_falsy _ b Hn Hta). reflexivity.
Qed.

(** A name followed by an indexed name resolves to the candidate at the
    index. *)
Lemma resolve_name_index (d : value) (a segment name after : string) (i : Z)
    (default : value) :
  dict_free d = true ->
  split_once "[" a = (a, None) -> split_once "[" segment = (name, Some after) ->
  py_int (fst (split_once "]" after)) = Ok i ->
  builtin_name a = false -> builtin_name name = false ->
  safe_extract_loop [a; segment] d default
  = Ok (candidate_at (getattr (getattr d a) name) i default).
Proof.
  intros Hd Ha Hs Hi Hna Hnn. simpl. rewrite Ha, Hs, Hi. unfold candidate_at. simpl.
  destruct (truthy (getattr d a)) eqn:Hta.
  - pose proof (getitem_dict_free (getattr (getattr d a) name) i
                  (getattr_dict_free _ name Hnn (getattr_dict_free _ a Hna Hd))) as Hg.
    destruct (getitem _ i) as [x | e]; [ reflexivity | rewrite Hg; reflexivity ].
  - rewrite (getattr_falsy _ name Hnn Hta). reflexivity.
Qed.

Lemma tiktok_url_path (index : Z) :
  let segment := "UrlList[" +:+ pretty index +:+ "]" in
  split_on "." ("PlayAddr.UrlList[" +:+ pretty index +:+ "]") = ["PlayAddr"; segment]
  /\ split_once "[" segment = ("UrlList", Some (pretty index +:+ "]"))
  /\ py_int (fst (split_once "]" (pretty index +:+ "]"))) = Ok index.
Proof.
  assert (free_of "." (pretty index +:+ "]")) as Hdot.
  { unfold free_of. rewrite chars_append. apply Forall_app. split.
    - apply (index_chars_free_of "." (pretty index)); [ reflexivity | apply pretty_Z_chars ].
    - repeat constructor. }
  split; [ | split ].
  - simpl. change ("" +:+ pretty index +:+ "]") with (pretty index +:+ "]").
    rewrite (split_on_free "." _ Hdot). reflexivity.
  - reflexivity.
  - rewrite (split_once_at "]" (pretty index) "").
    + apply py_int_pretty.
    + apply index_chars_free_of; [ reflexivity | apply pretty_Z_chars ].
Qed.

Section degrade.
Context (E : collaborators).

Lemma first_of_list_dict_free (data first : value) (rest : list value) (path : string) :
  plain_path path = true ->
  dict_free data = true ->
  safe_extract data path (VList []) = Ok (VList (first :: rest)) ->
  dict_free first = true.
Proof.
  intros Hplain Hd Hp.
  apply (safe_extract_loop_dict_free _ data (VList []) _ Hplain Hd eq_refl) in Hp.
  simpl in Hp. apply andb_prop in Hp as [Hf _]. exact Hf.
Qed.

Lemma degrade_source_a (data first : value) (rest : list value) (w : world) :
  dict_free first = true ->
  safe_extract data "video.bit_rate" (VList []) = Ok (VList (first :: rest)) ->
  Exists (fun i => lacks_subfield i = true) (first :: rest) ->
  extract_video_download E data w
  = (Ok (py_or (getattr (getattr first "play_addr") "height") (VInt (-1)),
         py_or (getattr (getattr first "play_addr") "width") (VInt (-1)),
         candidate_at (getattr (getattr first "play_addr") "url_list") (-1) (VStr "")),
     degraded E data w).
Proof.
  intros Hf Hdata Hlacks. unfold extract_video_download, mbind at 1, lift at 1.
  rewrite Hdata.
  assert (select_variant (VList (first :: rest)) = Raise AttributeError) as ->.
  { unfold select_variant, py_iter. cbn [obind].
    rewrite (omap_attribute_error variant_tuple lacks_subfield (first :: rest)
               variant_tuple_lacks variant_tuple_raises Hlacks).
    reflexivity. }
  change (getitem (VList (first :: rest)) 0) with (Ok (A := value) first). cbn [obind].
  assert (safe_extract first "play_addr.height" (VInt (-1))
          = Ok (py_or (getattr (getattr first "play_addr") "height") (VInt (-1)))) as ->
    by (apply (resolve_two_names first "play_addr" "height"); reflexivity).
  assert (safe_extract first "play_addr.width" (VInt (-1))
          = Ok (py_or (getattr (getattr first "play_addr") "width") (VInt (-1)))) as ->
    by (apply (resolve_two_names first "play_addr" "width"); reflexivity).
  assert (safe_extract first "play_addr.url_list[-1]" (VStr "")
          = Ok (candidate_at (getattr (getattr first "play_addr") "url_list") (-1)
                  (VStr ""))) as ->
    by (apply (resolve_name_index first "play_addr" "url_list[-1]" "url_list" "-1]" (-1));
        [ exact Hf | reflexivity .. ]).
  reflexivity.
Qed.

Lemma degrade_source_b (data first : value) (rest : list value) (w : world) :
  dict_free first = true ->
  safe_extract data "video.bitrateInfo" (VList []) = Ok (VList (first :: rest)) ->
  Exists (fun i => lacks_subfield_tiktok i = true) (first :: rest) ->
  extract_video_download_tiktok E data w
  = (Ok (py_or (getattr (getattr first "PlayAddr") "Height") (VInt (-1)),
         py_or (getattr (getattr first "PlayAddr") "Width") (VInt (-1)),
         candidate_at (getattr (getattr first "PlayAddr") "UrlList")
           (VIDEO_TIKTOK_INDEX E) (VStr "")),
     degraded E data w).
Proof.
  intros Hf Hdata Hlacks. unfold extract_video_download_tiktok, mbind at 1, lift at 1.
  rewrite Hdata.
  assert (select_variant_tiktok E (VList (first :: rest)) = Raise AttributeError) as ->.
  { unfold select_variant_tiktok, py_iter. cbn [obind].
    rewrite (omap_attribute_error variant_tuple_tiktok lacks_subfield_tiktok
               (first :: rest) variant_tuple_tiktok_lacks variant_tuple_tiktok_raises
               Hlacks).
    reflexivity. }
  change (getitem (VList (first :: rest)) 0) with (Ok (A := value) first). cbn [obind].
  assert (safe_extract first "PlayAddr.Height" (VInt (-1))
          = Ok (py_or (getattr (getattr first "PlayAddr") "Height") (VInt (-1)))) as ->
    by (apply (resolve_two_names first "PlayAddr" "Height"); reflexivity).
  assert (safe_extract first "PlayAddr.Width" (VInt (-1))
          = Ok (py_or (getattr (getattr first "PlayAddr") "Width") (VInt (-1)))) as ->
    by (apply (resolve_two_names first "PlayAddr" "Width"); reflexivity).
  assert (safe_extract first
            ("PlayAddr.UrlList[" +:+ pretty (VIDEO_TIKTOK_INDEX E) +:+ "]") (VStr "")
          = Ok (candidate_at (getattr (getattr first "PlayAddr") "UrlList")
                  (VIDEO_TIKTOK_INDEX E) (VStr ""))) as ->.
  { destruct (tiktok_url_path (VIDEO_TIKTOK_INDEX E)) as (Hpath & Hsegment & Hindex).
    unfold safe_extract. rewrite Hpath.
    eapply resolve_name_index;
      [ exact Hf | reflexivity | exact Hsegment | exact Hindex | reflexivity .. ]. }
  reflexivity.
Qed.

(** C7, as the code has it.  On a tree built from a payload, when the variant
    list is not empty and some variant lacks a sub-field the selector reads,
    the selector raises nothing: it logs the payload as an error and returns
    the first raw variant's height and width, each [-1] when absent, with
    that variant's last URL candidate on Source-A and its URL candidate at the
    configured index on Source-B, the empty string when there is none.
    Nothing is persisted or dropped by this; the caller goes on with these
    values. *)
Theorem malformed_variant_degrades (data first : value) (rest : list value) (w : world) :
  dict_free data = true ->
  (safe_extract data "video.bit_rate" (VList []) = Ok (VList (first :: rest)) ->
   Exists (fun i => lacks_subfield i = true) (first :: rest) ->
   extract_video_download E data w
   = (Ok (py_or (getattr (getattr first "play_addr") "height") (VInt (-1)),
          py_or (getattr (getattr first "play_addr") "width") (VInt (-1)),
          candidate_at (getattr (getattr first "play_addr") "url_list") (-1) (VStr "")),
      degraded E data w))
  /\ (safe_extract data "video.bitrateInfo" (VList []) = Ok (VList (first :: rest)) ->
      Exists (fun i => lacks_subfield_tiktok i = true) (first :: rest) ->
      extract_video_download_tiktok E data w
      = (Ok (py_or (getattr (getattr first "PlayAddr") "Height") (VInt (-1)),
             py_or (getattr (getattr first "PlayAddr") "Width") (VInt (-1)),
             candidate_at (getattr (getattr first "PlayAddr") "UrlList")
               (VIDEO_TIKTOK_INDEX E) (VStr "")),
         degraded E data w))
  /\ saved (degraded E data w) = saved w
  /\ logs (degraded E data w)
     = (logs w ++ [{| level := Error;
                      text := Text ("视频下载地址解析失败: " +:+ py_str E data);
                      echo := Some false |}])%list.
Proof.
  intros Hd. split; [ | split; [ | split; reflexivity ] ].
  - intros Hdata Hlacks. apply (degrade_source_a data first rest w); try assumption.
    apply (first_of_list_dict_free data first rest "video.bit_rate" eq_refl Hd Hdata).
  - intros Hdata Hlacks. apply (degrade_source_b data first rest w); try assumption.
    apply (first_of_list_dict_free data first rest "video.bitrateInfo" eq_refl Hd Hdata).
Qed.
End degrade.

Lemma malformed_variant_degrades_witness :
  let broken := VDict [("play_addr", VDict [("height", VInt 720);
                                            ("url_list", VList [VStr "a"; VStr "b"])])] in
  let payload := VDict [("aweme_id", VStr "1");
                        ("create_time", VInt Sample.noon_2024_06_15);
                        ("video", VDict [("bit_rate", VList [broken])])] in
  fst (extract_video_download Sample.standard (generate_data_object payload) Sample.fresh)
    = Ok (VInt 720, VInt (-1), VStr "b")
  /\ map (fun i => (item_get i "height", item_get i "width", item_get i "downloads"))
       (returned (run Sample.standard [payload] Sample.by_id "batch" false
                    (Some Sample.june_2024) Sample.fresh))
     = [(VInt 720, VInt (-1), VStr "b")].
Proof.
  intros broken payload. split; [ | reflexivity ].
  destruct (malformed_variant_degrades Sample.standard (generate_data_object payload)
              (generate_data_object broken) [] Sample.fresh eq_refl) as (Ha & _).
  rewrite Ha; [ reflexivity | reflexivity | ].
  constructor. reflexivity.
Defined.

(** C7 as stated fails on Source-B when the configured index is not the last
    position: with index 0 the degrade path returns the first URL candidate
    of the first raw variant, not its last one. *)
Lemma tiktok_degrade_uses_configured_index :
  let broken := VNs [("PlayAddr", VNs [("Height", VInt 720); ("Width", VInt 1280);
                                       ("UrlList", VList [VStr "a"; VStr "b"])])] in
  let data := VNs [("video", VNs [("bitrateInfo", VList [broken])])] in
  lacks_subfield_tiktok broken = true
  /\ fst (extract_video_download_tiktok (Sample.plain custom.keep_everything 0) data
            Sample.fresh)
     = Ok (VInt 720, VInt 1280, VStr "a")
  /\ candidate_at (getattr (getattr broken "PlayAddr") "UrlList") (-1) (VStr "") = VStr "b".
Proof. repeat split; reflexivity. Qed.

(** *** Further properties of the value tree and the path resolver *)

Lemma assoc_converted (k : string) (d : list (string * value)) :
  assoc k (map (fun kv => (fst kv, depth_conversion (snd kv))) d)
  = depth_conversion <$> assoc k d.
Proof.
  induction d as [ | [k' v] d IH ]; simpl; [ reflexivity | ].
  destruct (String.eqb k k'); [ reflexivity | exact IH ].
Qed.

Lemma depth_conversion_idempotent (v : value) :
  depth_conversion (depth_conversion v) = depth_conversion v.
Proof.
  induction v as [ | | | | l IH | d IH | d IH ] using value_nested_ind;
    simpl; try reflexivity.
  f_equal. rewrite map_map. apply map_ext_in. intros x Hx.
  rewrite List.Forall_forall in IH. auto.
Qed.

(** X1. [generate_data_object] turns every key of a mapping that is no
    built-in name into an attribute that holds the converted value, and
    leaves such a name that is no key without an attribute; the [__dict__]
    of the namespace is the mapping with its values converted; indexing a
    converted sequence gives the converted element and fails where indexing
    the payload fails; converting twice changes nothing; and the only value
    whose truth changes is the empty mapping, which becomes a truthy
    namespace. *)
Theorem generate_data_object_children (d : list (string * value)) (l : list value)
    (v : value) (k : string) (i : Z) :
  (builtin_name k = false ->
   getattr (generate_data_object (VDict d)) k
   = default VNone (generate_data_object <$> assoc k d))
  /\ getattr (generate_data_object (VDict d)) "__dict__"
     = VDict (map (fun kv => (fst kv, generate_data_object (snd kv))) d)
  /\ getitem (generate_data_object (VList l)) i
     = match getitem (VList l) i with
       | Ok x => Ok (generate_data_object x)
       | Raise e => Raise e
       end
  /\ generate_data_object (generate_data_object v) = generate_data_object v
  /\ truthy (generate_data_object v)
     = truthy v || match v with VDict [] => true | _ => false end.
Proof.
  unfold generate_data_object. split; [ | split; [ | split; [ | split ] ] ].
  - intros Hk. rewrite (getattr_plain _ k Hk). simpl. rewrite assoc_converted.
    reflexivity.
  - reflexivity.
  - simpl. rewrite length_map.
    destruct (norm_index (length l) i) as [j | ]; [ | reflexivity ].
    rewrite list_lookup_fmap. destruct (l !! j); reflexivity.
  - apply depth_conversion_idempotent.
  - destruct v as [ | | | | [ | ] | [ | ] | ]; simpl;
      rewrite ?orb_false_r; reflexivity.
Qed.

Lemma generate_data_object_children_witness :
  builtin_name "music" = false
  /\ getattr (generate_data_object (VDict [("music", VDict [("title", VStr "t")])])) "music"
     = VNs [("title", VStr "t")]
  /\ getattr (generate_data_object (VDict [("music", VDict [("title", VStr "t")])])) "cover"
     = VNone.
Proof.
  split; [ reflexivity | ].
  split.
  - apply (generate_data_object_children [("music", VDict [("title", VStr "t")])] []
             VNone "music" 0). reflexivity.
  - reflexivity.
Defined.

Lemma safe_extract_loop_default_or_truthy (attributes : list string)
    (data default v : value) :
  safe_extract_loop attributes data default = Ok v -> v = default \/ truthy v = true.
Proof.
  revert data. induction attributes as [ | attribute rest IH ]; intros data; simpl.
  - unfold py_or. destruct (truthy data) eqn:Ht; intros [= <-]; auto.
  - destruct (split_once "[" attribute) as [name [after | ]].
    + destruct (try! i <- py_int _; getitem (getattr data name) i) as [x | e].
      * apply IH.
      * destruct (caught e); [ intros [= <-]; auto | discriminate ].
    + destruct (truthy (getattr data attribute)); [ apply IH | intros [= <-]; auto ].
Qed.

(** X2. Whatever [safe_extract] returns is either the caller's default or a
    truthy value: a falsy value found in the tree never reaches the caller.
    With a truthy default the result is therefore always truthy. *)
Theorem safe_extract_default_or_truthy (data : value) (attribute_chain : string)
    (default v : value) :
  safe_extract data attribute_chain default = Ok v ->
  (v = default \/ truthy v = true)
  /\ (truthy default = true -> truthy v = true).
Proof.
  intros H. apply safe_extract_loop_default_or_truthy in H.
  split; [ exact H | ]. destruct H as [-> | H]; auto.
Qed.

Lemma safe_extract_default_or_truthy_witness :
  let data := VNs [("count", VInt 0); ("name", VStr "n")] in
  safe_extract data "count" (VInt (-1)) = Ok (VInt (-1))
  /\ truthy (VInt (-1)) = true.
Proof.
  intros data. split; [ reflexivity | ].
  apply (safe_extract_default_or_truthy data "count" (VInt (-1)) (VInt (-1)));
    reflexivity.
Defined.

Lemma split_once_free (c : ascii) (s : string) :
  free_of c s -> split_once c s = (s, None).
Proof.
  unfold free_of. induction s as [ | a s IH ]; simpl; [ reflexivity | ].
  intros H. apply Forall_cons in H as [-> H]. rewrite IH by exact H. reflexivity.
Qed.

Lemma free_of_append (c : ascii) (s t : string) :
  free_of c s -> free_of c t -> free_of c (s +:+ t).
Proof.
  unfold free_of. rewrite chars_append. intros Hs Ht. apply Forall_app. auto.
Qed.

Lemma append_empty (s : string) : s +:+ "" = s.
Proof.
  induction s as [ | a s IH ]; [ reflexivity | ].
  change (String a s +:+ "") with (String a (s +:+ "")). rewrite IH. reflexivity.
Qed.

(** X3. In an indexed segment only the text between the first "[" and the
    first "]" after it is read as the index: the closing bracket may be
    missing, and whatever follows it is ignored.  So "name[index]junk" and
    "name[index" resolve exactly as "name[index]" does. *)
Theorem safe_extract_index_text (data default : value) (name index junk : string) :
  free_of "." name -> free_of "[" name ->
  free_of "." index -> free_of "]" index ->
  free_of "." junk ->
  safe_extract data (name +:+ "[" +:+ index +:+ "]" +:+ junk) default
    = safe_extract data (name +:+ "[" +:+ index +:+ "]") default
  /\ safe_extract data (name +:+ "[" +:+ index) default
     = safe_extract data (name +:+ "[" +:+ index +:+ "]") default.
Proof.
  intros Hn1 Hn2 Hi1 Hi2 Hj.
  assert (free_of "." "[") as Hb by (repeat constructor).
  assert (free_of "." "]") as Hc by (repeat constructor).
  assert (forall tail, free_of "." tail ->
            safe_extract data (name +:+ "[" +:+ index +:+ tail) default
            = safe_extract_loop [name +:+ "[" +:+ index +:+ tail] data default) as Hpath.
  { intros tail Ht. unfold safe_extract. rewrite split_on_free; [ reflexivity | ].
    repeat apply free_of_append; assumption. }
  assert (forall tail, split_once "[" (name +:+ "[" +:+ index +:+ tail)
                       = (name, Some (index +:+ tail))) as Hseg.
  { intros tail. apply (split_once_at "[" name (index +:+ tail)), Hn2. }
  split.
  - rewrite (Hpath ("]" +:+ junk)) by (apply free_of_append; assumption).
    rewrite (Hpath "]") by exact Hc.
    simpl. rewrite (Hseg ("]" +:+ junk)), (Hseg "]").
    rewrite (split_once_at "]" index junk Hi2
             : split_once "]" (index +:+ "]" +:+ junk) = _).
    rewrite (split_once_at "]" index "" Hi2). reflexivity.
  - rewrite <- (append_empty index) at 1.
    rewrite (Hpath "") by constructor. rewrite (Hpath "]") by exact Hc.
    simpl. rewrite (Hseg ""), (Hseg "]").
    rewrite (split_once_at "]" index "" Hi2).
    rewrite append_empty, (split_once_free "]" index Hi2). reflexivity.
Qed.

Lemma safe_extract_index_text_witness :
  let data := VNs [("url_list", VList [VStr "a"; VStr "b"])] in
  safe_extract data "url_list[-1] (last)" (VStr "") = Ok (VStr "b")
  /\ safe_extract data "url_list[-1" (VStr "") = Ok (VStr "b").
Proof.
  intros data.
  assert (forall c s, forallb (fun a => negb (Ascii.eqb a c)) (list_ascii_of_string s) = true
                      -> free_of c s) as Hfree.
  { intros c s H. unfold free_of. apply List.Forall_forall. intros a Ha.
    rewrite forallb_forall in H. apply negb_true_iff, H, Ha. }
  destruct (safe_extract_index_text data (VStr "") "url_list" "-1" " (last)")
    as [Hjunk Hopen]; [ apply Hfree; reflexivity .. | ].
  split; [ refine (eq_trans Hjunk _) | refine (eq_trans Hopen _) ]; reflexivity.
Defined.

(** *** Durations *)

Lemma seconds_minutes (seconds : Z) : (seconds mod 3600) / 60 = (seconds / 60) mod 60.
Proof.
  change 3600 with (60 * 60). rewrite Z.rem_mul_r by lia.
  rewrite Z.mul_comm, Z.div_add by lia.
  rewrite (Z.div_small (seconds mod 60)) by (apply Z.mod_pos_bound; lia). reflexivity.
Qed.

Lemma seconds_rest (seconds : Z) : (seconds mod 3600) mod 60 = seconds mod 60.
Proof.
  change 3600 with (60 * 60). rewrite Z.rem_mul_r by lia.
  rewrite Z.mul_comm, Z.mod_add by lia. apply Z.mod_mod. lia.
Qed.

(** X4. The two duration formatters agree: Source-A's, given milliseconds,
    drops the part below a second and prints what Source-B's prints for the
    whole seconds.  The text is hours, minutes and seconds, two digits each at
    least, with minutes and seconds below sixty and the three adding up to the
    duration.  Durations are whole numbers here; a duration with a fraction
    is not represented. *)
Theorem durations_agree (seconds millis : Z) :
  (0 <= millis < 1000 ->
   time_conversion (VInt (1000 * seconds + millis)) = time_conversion_tiktok (VInt seconds))
  /\ (exists h m s,
        time_conversion_tiktok (VInt seconds)
        = Ok (VStr (two_digits h +:+ ":" +:+ two_digits m +:+ ":" +:+ two_digits s))
        /\ 0 <= m < 60 /\ 0 <= s < 60 /\ seconds = h * 3600 + m * 60 + s).
Proof.
  split.
  - intros Hm. unfold time_conversion, time_conversion_tiktok. simpl.
    replace ((1000 * seconds + millis) / 1000) with seconds
      by (Z.to_euclidean_division_equations; lia).
    rewrite (Z.div_div seconds 60 60) by lia.
    change (60 * 60) with 3600.
    rewrite (seconds_minutes seconds), (seconds_rest seconds). reflexivity.
  - exists (seconds / 60 / 60), ((seconds / 60) mod 60), (seconds mod 60).
    split; [ reflexivity | ].
    pose proof (Z.div_mod seconds 60). pose proof (Z.div_mod (seconds / 60) 60).
    pose proof (Z.mod_pos_bound seconds 60). pose proof (Z.mod_pos_bound (seconds / 60) 60).
    repeat split; lia.
Qed.

Lemma durations_agree_witness :
  time_conversion (VInt 3725999) = Ok (VStr "01:02:05")
  /\ time_conversion_tiktok (VInt 3725) = Ok (VStr "01:02:05").
Proof.
  destruct (durations_agree 3725 999) as (Hsame & _).
  split; [ refine (eq_trans (Hsame _) _); [ lia | reflexivity ] | reflexivity ].
Defined.

(** *** Ties between candidates *)

Lemma insert_variant_greatest (key : variant -> list Z) (x : variant) (l : list variant) :
  Forall (fun y => key_le key y x) l -> insert_variant key x l = (l ++ [x])%list.
Proof.
  induction 1 as [ | y l Hy _ IH ]; simpl; [ reflexivity | ].
  unfold key_le, lex_le in Hy. rewrite Hy, IH. reflexivity.
Qed.

Lemma sort_into_snoc (key : variant -> list Z) (done todo : list variant) (v : variant) :
  sort_into key done (todo ++ [v]) = insert_variant key v (sort_into key done todo).
Proof.
  revert done. induction todo as [ | x todo IH ]; intros done; simpl;
    [ reflexivity | apply IH ].
Qed.

Lemma best_of_greatest_last (key : variant -> list Z) (l : list variant) (v : variant) :
  Forall (fun x => key_le key x v) l -> best key (l ++ [v]) = Some v.
Proof.
  intros Hl. unfold best, sort_ascending. rewrite sort_into_snoc.
  rewrite insert_variant_greatest; [ apply last_snoc | ].
  apply List.Forall_forall. intros x Hx. rewrite List.Forall_forall in Hl. apply Hl.
  apply (Permutation_in _ (sort_into_perm key [] l)), Hx.
Qed.

(** X5. When candidates tie the later one wins: if the candidate listed last
    has a key no smaller than every other key, both selectors return that
    candidate's height and width with its URL (the last one on Source-A, the
    one at the configured index on Source-B), also when an earlier candidate
    has the very same key. *)
Theorem later_candidate_wins_ties (E : collaborators) (raw : list value)
    (l : list variant) (v : variant) :
  (Forall2 (fun i x => variant_tuple i = Ok (tuple_of x)) raw (l ++ [v]) ->
   Forall (fun x => key_le claimed_key x v) l ->
   select_variant (VList raw)
   = (try! url <- getitem (VList (map VStr (url_candidates v))) (-1);
      Ok (VInt (height v), VInt (width v), url)))
  /\ (Forall2 (fun i x => variant_tuple_tiktok i = Ok (tuple_of_tiktok x)) raw (l ++ [v]) ->
      Forall (fun x => key_le key_without_frame_rate x v) l ->
      select_variant_tiktok E (VList raw)
      = (try! url <- getitem (VList (map VStr (url_candidates v))) (VIDEO_TIKTOK_INDEX E);
         Ok (VInt (height v), VInt (width v), url))).
Proof.
  split; intros Hraw Hl.
  - rewrite (select_variant_chosen raw _ Hraw). unfold chosen.
    rewrite (best_of_greatest_last claimed_key l v Hl). reflexivity.
  - rewrite (select_variant_tiktok_chosen E raw _ Hraw). unfold chosen.
    rewrite (best_of_greatest_last key_without_frame_rate l v Hl). reflexivity.
Qed.

Lemma later_candidate_wins_ties_witness :
  let first := {| frame_rate := 30; bit_rate := 1000; byte_size := 500;
                  height := 720; width := 1280; url_candidates := ["first"] |} in
  let second := {| frame_rate := 30; bit_rate := 1000; byte_size := 500;
                   height := 1280; width := 720; url_candidates := ["second"] |} in
  select_variant (VList (map node_of [first; second]))
  = Ok (VInt 1280, VInt 720, VStr "second").
Proof.
  intros first second.
  destruct (later_candidate_wins_ties Sample.standard (map node_of [first; second])
              [first] second) as [Ha _].
  rewrite Ha; [ reflexivity | apply (nodes_well_formed [first; second]) | ].
  repeat constructor.
Defined.

(** *** The fields of an extracted item *)

#[local] Set Warnings "-clear-no-such-hyp".

Lemma obind_ok {A B} (m : outcome A) (k : A -> outcome B) (b : B) :
  obind m k = Ok b -> exists a, m = Ok a /\ k a = Ok b.
Proof. destruct m as [a | e]; simpl; [ eauto | discriminate ]. Qed.

Lemma writes_nothing (it : item) : writes ∅ it it.
Proof. split; [ set_solver | reflexivity ]. Qed.

Lemma writes_insert (ks : gset string) (it it1 : item) (k : string) (v : value) :
  writes ks it it1 -> writes (ks ∪ {[k]}) it (<[k := v]> it1).
Proof.
  intros [Hd Hf]. split.
  - rewrite dom_insert_L, Hd. set_solver.
  - intros j Hj. rewrite lookup_insert_ne by set_solver. apply Hf. set_solver.
Qed.

Lemma writes_trans (a b : gset string) (it it1 it2 : item) :
  writes a it it1 -> writes b it1 it2 -> writes (a ∪ b) it it2.
Proof.
  intros [Hd1 Hf1] [Hd2 Hf2]. split.
  - rewrite Hd2, Hd1. set_solver.
  - intros k Hk. rewrite Hf2, Hf1 by set_solver. reflexivity.
Qed.

Lemma writes_same (a b : gset string) (it it' : item) :
  a = b -> writes a it it' -> writes b it it'.
Proof. intros ->. auto. Qed.

(** Case analysis on a computation known to return. *)
Ltac returned_cases H :=
  repeat (simpl in H;
          match type of H with
          | Ok _ = Ok _ => injection H as H
          | (Ok _, _) = (Ok _, _) => injection H as H ?
          | Raise _ = Ok _ => discriminate H
          | (Raise _, _) = (Ok _, _) => discriminate H
          | context [match ?x with _ => _ end] => destruct x eqn:?
          | context [if ?b then _ else _] => destruct b eqn:?
          end).

(** Equality of two sets of literal keys, or membership in one, by
    evaluation. *)
Ltac same_keys :=
  unfold canonical_keys, head_keys, media_keys, account_keys, music_keys,
    statistics_slots, closing_keys;
  apply (bool_decide_unpack _); vm_compute; exact I.

(** A chain of insertions over [it] writes the keys it names. *)
Ltac writes_steps := repeat apply writes_insert; apply writes_nothing.

Ltac writes_chain := eapply writes_same; [ | writes_steps ]; same_keys.

(** The same when later stages are described by hypotheses. *)
Ltac writes_stages :=
  eapply writes_same;
  [ | repeat match goal with
             | |- writes _ ?x ?x => fail 1
             | H : writes _ _ ?y |- writes _ _ ?y =>
                 eapply writes_trans; [ | exact H ]
             end;
      writes_steps ];
  same_keys.

(** The field [k] of a chain of insertions. *)
Ltac read_field :=
  repeat (rewrite lookup_insert_ne by discriminate);
  first [ apply lookup_insert_eq | rewrite lookup_insert_eq; reflexivity ].

(** Inversion of a returning computation, one bind at a time. *)
Ltac returned_steps H :=
  repeat match type of H with
         | obind _ _ = Ok _ =>
             let a := fresh "a" in
             let Ha := fresh "Hstep" in
             apply obind_ok in H as (a & Ha & H)
         | mbind _ _ _ = (Ok _, _) =>
             let a := fresh "a" in
             let w := fresh "w" in
             let Ha := fresh "Hstep" in
             apply mbind_ok in H as (a & w & Ha & H);
             try apply lift_ok in Ha as [Ha ->]
         | lift _ _ = (Ok _, _) => apply lift_ok in H as [H ->]
         end.

Section item_fields.
Context (E : collaborators).

Lemma extract_cover_writes (it it' : item) (data : value) (has : bool) :
  extract_cover it data has = Ok it' ->
  writes {["dynamic_cover"; "static_cover"]} it it'.
Proof.
  unfold extract_cover. destruct has; intros H; returned_steps H;
    injection H as <-; writes_chain.
Qed.

Lemma extract_cover_tiktok_writes (it it' : item) (data : value) (has : bool) :
  extract_cover_tiktok it data has = Ok it' ->
  writes {["dynamic_cover"; "static_cover"]} it it'.
Proof.
  unfold extract_cover_tiktok. destruct has; intros H; returned_steps H;
    injection H as <-; writes_chain.
Qed.

(** [__set_blank_data] cannot fail and leaves the placeholders. *)
Lemma set_blank_data_eq (it : item) (data : value) (type_ : string) :
  set_blank_data it data type_
  = Ok (<["static_cover" := VStr ""]>
          (<["dynamic_cover" := VStr ""]>
             (<["width" := VInt (-1)]>
                (<["height" := VInt (-1)]>
                   (<["uri" := VStr ""]>
                      (<["duration" := VStr "00:00:00"]>
                         (<["type" := VStr type_]> it))))))).
Proof. reflexivity. Qed.

Lemma blank_with_downloads (it : item) (type_ : string) (urls : list value) (it0 : item) :
  it0 = <["downloads" := VList urls]>
          (<["static_cover" := VStr ""]>
             (<["dynamic_cover" := VStr ""]>
                (<["width" := VInt (-1)]>
                   (<["height" := VInt (-1)]>
                      (<["uri" := VStr ""]>
                         (<["duration" := VStr "00:00:00"]>
                            (<["type" := VStr type_]> it))))))) ->
  writes media_keys it it0 /\ it0 !! "type" = Some (VStr type_) /\ blank_media it0.
Proof.
  intros ->. split; [ writes_chain | ]. unfold blank_media.
  repeat split; try eexists; read_field.
Qed.

Lemma writes_keeps (ks : gset string) (it it' : item) (k : string) :
  writes ks it it' -> k ∉ ks -> it' !! k = it !! k.
Proof. intros [_ H]. apply H. Qed.

Lemma extract_video_info_writes (it it' : item) (data : value) (type_ : string)
    (w w' : world) :
  extract_video_info E it data type_ w = (Ok it', w') ->
  writes media_keys it it' /\ it' !! "type" = Some (VStr type_).
Proof.
  unfold extract_video_info. intros H. returned_steps H.
  destruct a as [[height width] downloads]. returned_steps H.
  apply extract_cover_writes in H. split.
  - writes_stages.
  - rewrite (writes_keeps _ _ _ "type" H) by same_keys. read_field.
Qed.

Lemma extract_video_info_tiktok_writes (it it' : item) (data : value) (type_ : string)
    (w w' : world) :
  extract_video_info_tiktok E it data type_ w = (Ok it', w') ->
  writes media_keys it it' /\ it' !! "type" = Some (VStr type_).
Proof.
  unfold extract_video_info_tiktok. intros H. returned_steps H.
  destruct a as [[height width] downloads]. returned_steps H.
  apply extract_cover_tiktok_writes in H. split.
  - writes_stages.
  - rewrite (writes_keeps _ _ _ "type" H) by same_keys. read_field.
Qed.

Lemma extract_image_info_writes (it it' : item) (data images : value) (w w' : world) :
  extract_image_info E it data images w = (Ok it', w') ->
  writes media_keys it it'
  /\ (it' !! "type" = Some (VStr (tr E "实况")) \/ it' !! "type" = Some (VStr (tr E "图集")))
  /\ blank_media it'.
Proof.
  unfold extract_image_info. intros H. returned_steps H.
  destruct a0; returned_steps H; rewrite set_blank_data_eq in Hstep1;
    injection Hstep1 as <-; injection H as <- <-;
    match goal with
    | |- context [<["downloads" := VList ?u]> _] =>
        match goal with
        | |- context [<["type" := VStr ?t]> _] =>
            destruct (blank_with_downloads it t u _ eq_refl) as (Hw & Ht & Hb)
        end
    end; auto.
Qed.

Lemma extract_image_info_tiktok_writes (it it' : item) (data images : value)
    (w w' : world) :
  extract_image_info_tiktok E it data images w = (Ok it', w') ->
  writes media_keys it it' /\ it' !! "type" = Some (VStr (tr E "图集")) /\ blank_media it'.
Proof.
  unfold extract_image_info_tiktok. intros H. returned_steps H.
  rewrite set_blank_data_eq in Hstep. injection Hstep as <-. injection H as <- <-.
  match goal with
  | |- context [<["downloads" := VList ?u]> _] =>
      destruct (blank_with_downloads it (tr E "图集") u _ eq_refl) as (Hw & Ht & Hb)
  end; auto.
Qed.

(** What [__classifying_detail] leaves: a video, or an item with the
    placeholders of [__set_blank_data]. *)
Lemma classifying_detail_writes (it it' : item) (data : value) (w w' : world) :
  classifying_detail E it data w = (Ok it', w') ->
  writes media_keys it it'
  /\ (it' !! "type" = Some (VStr (tr E "视频"))
      \/ ((it' !! "type" = Some (VStr (tr E "实况"))
           \/ it' !! "type" = Some (VStr (tr E "图集")))
          /\ blank_media it')).
Proof.
  unfold classifying_detail. intros H. returned_steps H. destruct (truthy a).
  - apply extract_image_info_writes in H as (Hw & Ht & Hb). auto.
  - apply extract_video_info_writes in H as (Hw & Ht). auto.
Qed.

Lemma classifying_detail_tiktok_writes (it it' : item) (data : value) (w w' : world) :
  classifying_detail_tiktok E it data w = (Ok it', w') ->
  writes media_keys it it'
  /\ (it' !! "type" = Some (VStr (tr E "视频"))
      \/ (it' !! "type" = Some (VStr (tr E "图集")) /\ blank_media it')).
Proof.
  unfold classifying_detail_tiktok. intros H. returned_steps H. destruct (truthy a).
  - apply extract_image_info_tiktok_writes in H as (Hw & Ht & Hb). auto.
  - apply extract_video_info_tiktok_writes in H as (Hw & Ht). auto.
Qed.

Lemma extract_text_extra_by_writes (list_key name_key : string) (it it' : item)
    (data : value) :
  extract_text_extra_by list_key name_key it data = Ok it' ->
  writes {["text_extra"]} it it'.
Proof.
  unfold extract_text_extra_by. intros H. returned_steps H. injection H as <-.
  writes_chain.
Qed.

(** A field survives the stages that do not write it. *)
Ltac carried :=
  repeat match goal with
         | H : writes _ _ ?x |- ?x !! _ = _ =>
             rewrite (writes_keeps _ _ _ _ H) by same_keys
         end;
  first [ read_field | eassumption ].

Lemma blank_media_keeps (ks : gset string) (it it' : item) :
  writes ks it it' -> ks ## media_keys -> blank_media it -> blank_media it'.
Proof.
  intros [_ Hk] Hd (H1 & H2 & H3 & H4 & H5 & H6 & urls & H7).
  assert (forall k, k ∈ media_keys -> it' !! k = it !! k) as Hm
    by (intros k Hin; apply Hk; set_solver).
  unfold blank_media.
  rewrite !Hm by same_keys. eauto 10.
Qed.

Lemma dated_head_keeps (ks : gset string) (it it' : item) :
  writes ks it it' -> ks ## head_keys -> dated_head E it -> dated_head E it'.
Proof.
  intros [_ Hk] Hd (id & desc & ts & time & H1 & H2 & H3 & H4 & H5).
  assert (forall k, k ∈ head_keys -> it' !! k = it !! k) as Hm
    by (intros k Hin; apply Hk; set_solver).
  exists id, desc, ts, time. rewrite !Hm by same_keys. auto.
Qed.

Lemma classified_keeps (ks : gset string) (tiktok : bool) (it it' : item) :
  writes ks it it' -> ks ## media_keys -> classified E tiktok it ->
  classified E tiktok it'.
Proof.
  intros Hw Hd Hc. pose proof (blank_media_keeps _ _ _ Hw Hd) as Hb.
  destruct Hw as [_ Hk].
  assert (it' !! "type" = it !! "type") as Ht by (apply Hk; set_solver).
  unfold classified. rewrite Ht. destruct Hc as [ | [? ?]]; auto.
Qed.

Lemma named_by_keeps (ks : gset string) (c : container) (it it' : item) :
  writes ks it it' -> ks ## account_keys -> named_by c it -> named_by c it'.
Proof.
  intros [_ Hk] Hd. unfold named_by.
  assert (it' !! "nickname" = it !! "nickname") as -> by (apply Hk; set_solver).
  assert (it' !! "mark" = it !! "mark") as -> by (apply Hk; set_solver).
  auto.
Qed.

Lemma extract_detail_info_writes (it it' : item) (data : value) (w w' : world) :
  extract_detail_info E it data w = (Ok it', w') ->
  writes (head_keys ∪ media_keys) it it' /\ dated_head E it' /\ classified E false it'.
Proof.
  unfold extract_detail_info. intros H. returned_steps H.
  apply extract_text_extra_by_writes in Hstep3.
  apply classifying_detail_writes in H as (Hw & Hc).
  split; [ | split ].
  - writes_stages.
  - exists a, a0, a1, a2. repeat split; carried.
  - unfold classified. destruct Hc as [ | [[ | ] ?]]; auto.
Qed.

Lemma extract_detail_info_tiktok_writes (it it' : item) (data : value) (w w' : world) :
  extract_detail_info_tiktok E it data w = (Ok it', w') ->
  writes (head_keys ∪ media_keys) it it' /\ dated_head E it' /\ classified E true it'.
Proof.
  unfold extract_detail_info_tiktok. intros H. returned_steps H.
  apply extract_text_extra_by_writes in Hstep3.
  apply classifying_detail_tiktok_writes in H as (Hw & Hc).
  split; [ | split ].
  - writes_stages.
  - exists a, a0, a1, a2. repeat split; carried.
  - unfold classified. destruct Hc as [ | [? ?]]; auto.
Qed.

Lemma extract_nickname_info_writes (c : container) (it it' : item) (data : value) :
  extract_nickname_info E c it data = Ok it' ->
  writes {["nickname"; "mark"]} it it' /\ named_by c it'.
Proof.
  unfold extract_nickname_info, named_by. destruct (c_same c).
  - destruct (c_context c) as [ctx | ]; [ | discriminate ].
    intros [= <-]. split; [ writes_chain | ].
    exists ctx. repeat split; read_field.
  - intros H. returned_steps H. injection H as <-. split; [ writes_chain | ].
    exists a0. split; read_field.
Qed.

Lemma extract_account_info_writes (c : container) (it it' : item) (data : value) :
  extract_account_info E c it data = Ok it' ->
  writes account_keys it it' /\ named_by c it'.
Proof.
  unfold extract_account_info. intros H. returned_steps H.
  apply extract_nickname_info_writes in H as (Hw & Hn). split; [ | exact Hn ].
  writes_stages.
Qed.

Lemma extract_account_info_tiktok_writes (c : container) (it it' : item) (data : value) :
  extract_account_info_tiktok E c it data = Ok it' ->
  writes account_keys it it' /\ named_by c it' /\ it' !! "user_age" = Some (VInt (-1)).
Proof.
  unfold extract_account_info_tiktok. intros H. returned_steps H.
  apply extract_nickname_info_writes in H as (Hw & Hn).
  split; [ writes_stages | split; [ exact Hn | carried ] ].
Qed.

Lemma extract_music_writes (it it' : item) (data : value) (tiktok : bool) :
  extract_music it data tiktok = Ok it' -> writes music_keys it it'.
Proof.
  unfold extract_music. intros H. returned_steps H.
  destruct a0 as [[author title] url]. injection H as <-. writes_chain.
Qed.

Lemma fill_statistics_writes (slots : list (string * string)) (it it' : item)
    (data : value) :
  fill_statistics it data slots = Ok it' -> writes (list_to_set slots.*1) it it'.
Proof.
  revert it. induction slots as [ | [slot key] rest IH ]; simpl; intros it H.
  - injection H as <-. apply writes_nothing.
  - returned_steps H. apply IH in H.
    eapply writes_same; [ | eapply writes_trans; [ | exact H ] ].
    2: { apply writes_insert, writes_nothing. }
    set_solver.
Qed.

Lemma extract_statistics_writes (it it' : item) (data : value) :
  extract_statistics it data = Ok it' -> writes statistics_slots it it'.
Proof.
  unfold extract_statistics. intros H. returned_steps H.
  apply fill_statistics_writes in H. revert H. apply writes_same. same_keys.
Qed.

Lemma extract_statistics_tiktok_writes (it it' : item) (data : value) :
  extract_statistics_tiktok it data = Ok it' -> writes statistics_slots it it'.
Proof.
  unfold extract_statistics_tiktok. intros H. returned_steps H.
  apply fill_statistics_writes in H. revert H. apply writes_same. same_keys.
Qed.

Lemma extract_tags_by_writes (list_key name_key : string) (it it' : item)
    (data : value) :
  extract_tags_by list_key name_key it data = Ok it' -> writes {["tag"]} it it'.
Proof.
  unfold extract_tags_by. intros H. returned_steps H.
  destruct (negb (truthy a)); returned_steps H; injection H as <-; writes_chain.
Qed.

Lemma extract_extra_info_writes (it it' : item) (data : value) :
  extract_extra_info E it data = Ok it' -> writes {["extra"]} it it'.
Proof.
  unfold extract_extra_info. intros H. returned_steps H.
  destruct (truthy a); returned_steps H; injection H as <-; writes_chain.
Qed.

Lemma extract_additional_info_writes (it it' : item) (data : value) (tiktok : bool) :
  extract_additional_info E it data tiktok = Ok it' ->
  writes {["ratio"; "share_url"]} it it'.
Proof.
  unfold extract_additional_info. intros H. returned_steps H. injection H as <-.
  writes_chain.
Qed.

(** One payload through [__extract_batch]: the record has the canonical
    fields and nothing else. *)
Lemma extract_batch_fields (c : container) (data : value) (w w' : world) (it : item) :
  extract_batch E c data w = (Ok it, w') ->
  dom it = canonical_keys /\ dated_head E it /\ classified E false it /\ named_by c it.
Proof.
  unfold extract_batch. intros H. returned_steps H. injection H as <- <-.
  apply extract_detail_info_writes in Hstep as (W1 & Hh & Hc).
  apply extract_account_info_writes in Hstep0 as (W2 & Hn).
  apply extract_music_writes in Hstep1. apply extract_statistics_writes in Hstep2.
  apply extract_tags_by_writes in Hstep3. apply extract_extra_info_writes in Hstep4.
  apply extract_additional_info_writes in Hstep5.
  assert (writes (music_keys ∪ statistics_slots ∪ closing_keys) a0 a5)
    as Wb by writes_stages.
  pose proof (writes_trans _ _ _ _ _ W2 Wb) as Wa.
  repeat split.
  - destruct (writes_trans _ _ _ _ _ W1 Wa) as [-> _]. unfold template.
    rewrite dom_singleton_L. same_keys.
  - eapply dated_head_keeps; [ exact Wa | same_keys | exact Hh ].
  - eapply classified_keeps; [ exact Wa | same_keys | exact Hc ].
  - eapply named_by_keeps; [ exact Wb | same_keys | exact Hn ].
Qed.

Lemma extract_batch_tiktok_fields (c : container) (data : value) (w w' : world)
    (it : item) :
  extract_batch_tiktok E c data w = (Ok it, w') ->
  dom it = canonical_keys /\ dated_head E it /\ classified E true it /\ named_by c it.
Proof.
  unfold extract_batch_tiktok. intros H. returned_steps H. injection H as <- <-.
  apply extract_detail_info_tiktok_writes in Hstep as (W1 & Hh & Hc).
  apply extract_account_info_tiktok_writes in Hstep0 as (W2 & Hn & _).
  apply extract_music_writes in Hstep1. apply extract_statistics_tiktok_writes in Hstep2.
  apply extract_tags_by_writes in Hstep3.
  assert (writes {["extra"]} a3 a4) as Hstep4'
    by (unfold extract_extra_info_tiktok in Hstep4; injection Hstep4 as <-; writes_chain).
  clear Hstep4.
  apply extract_additional_info_writes in Hstep5.
  assert (writes (music_keys ∪ statistics_slots ∪ closing_keys) a0 a5)
    as Wb by writes_stages.
  pose proof (writes_trans _ _ _ _ _ W2 Wb) as Wa.
  repeat split.
  - destruct (writes_trans _ _ _ _ _ W1 Wa) as [-> _]. unfold template.
    rewrite dom_singleton_L. same_keys.
  - eapply dated_head_keeps; [ exact Wa | same_keys | exact Hh ].
  - eapply classified_keeps; [ exact Wa | same_keys | exact Hc ].
  - eapply named_by_keeps; [ exact Wb | same_keys | exact Hn ].
Qed.

Lemma extract_one_fields (c : container) (tiktok : bool) (raw : value) (w w' : world)
    (it : item) :
  extract_one E c tiktok raw w = (Ok it, w') ->
  dom it = canonical_keys /\ dated_head E it /\ classified E tiktok it /\ named_by c it.
Proof.
  unfold extract_one. destruct tiktok.
  - apply extract_batch_tiktok_fields.
  - apply extract_batch_fields.
Qed.

Lemma mmap_ok_each {A B} (f : A -> M B) (l : list A) (w w' : world) (ys : list B) :
  mmap f l w = (Ok ys, w') ->
  Forall (fun y => exists x w1 w2, In x l /\ f x w1 = (Ok y, w2)) ys.
Proof.
  revert w ys. induction l as [ | x l IH ]; simpl; intros w ys H.
  - injection H as <- <-. constructor.
  - returned_steps H. injection H as <- <-. constructor.
    + exists x, w, w0. auto.
    + apply IH in Hstep0. eapply Forall_impl; [ exact Hstep0 | ].
      intros y (x' & wa & wb & Hin & Hy). exists x', wa, wb. auto.
Qed.

Lemma platform_classify_detail_each (data : list value) (c : container) (tiktok : bool)
    (w w' : world) (items : list item) :
  platform_classify_detail E data c tiktok w = (Ok items, w') ->
  Forall (extracted_from E c tiktok data) items.
Proof.
  unfold platform_classify_detail, extracted_from, extract_one.
  destruct tiktok; apply mmap_ok_each.
Qed.

Lemma ofilter_ok_each {A} (f : A -> outcome bool) (l r : list A) :
  ofilter f l = Ok r -> Forall (fun x => f x = Ok true) r.
Proof.
  revert r. induction l as [ | x l IH ]; simpl; intros r H.
  - injection H as <-. constructor.
  - returned_steps H. injection H as <-. destruct a; auto.
Qed.

Lemma date_filter_within (same : bool) (ctx : batch_context) (l r : list item) :
  date_filter E {| c_same := same; c_context := Some ctx |} l = Ok r ->
  Forall (created_within E (c_earliest ctx) (c_latest ctx)) r.
Proof.
  unfold date_filter. simpl. intros H. apply ofilter_ok_each in H.
  eapply Forall_impl; [ exact H | ]. intros it Hit. simpl in Hit.
  returned_steps Hit. injection Hit as Hr.
  apply andb_prop in Hr as [H1 H2]. apply Z.leb_le in H1, H2.
  unfold item_at in Hstep. destruct (it !! "create_timestamp") as [t | ] eqn:Ht;
    [ | discriminate ].
  injection Hstep as <-. exists t, a0. auto.
Qed.

Lemma sublist_Forall {A} (P : A -> Prop) (l k : list A) :
  sublist l k -> Forall P k -> Forall P l.
Proof.
  intros Hs Hk. apply List.Forall_forall. intros x Hx.
  rewrite List.Forall_forall in Hk. apply Hk.
  apply list_elem_of_In. eapply sublist_subseteq; [ exact Hs | ].
  apply list_elem_of_In. exact Hx.
Qed.

Lemma filter_passes {A} (f : A -> bool) (l : list A) :
  Forall (fun x => f x = true) (List.filter f l).
Proof. apply List.Forall_forall. intros x Hx. apply filter_In in Hx. tauto. Qed.

Lemma keeps_stats_ret {A} (a : A) : keeps_stats (mret a).
Proof. intros w. reflexivity. Qed.

Lemma keeps_stats_lift {A} (o : outcome A) : keeps_stats (lift o).
Proof. intros w. reflexivity. Qed.

Lemma keeps_stats_log (lv : log_level) (t : log_text) (e : option bool) :
  keeps_stats (log_call lv t e).
Proof. intros w. reflexivity. Qed.

Lemma keeps_stats_save (row : list value) : keeps_stats (save row).
Proof. intros w. reflexivity. Qed.

Lemma keeps_stats_bind {A B} (m : M A) (k : A -> M B) :
  keeps_stats m -> (forall a, keeps_stats (k a)) -> keeps_stats (mbind m k).
Proof.
  intros Hm Hk w. unfold mbind. specialize (Hm w).
  destruct (m w) as [[a | e] w1]; simpl in *; [ | assumption ].
  rewrite Hk. assumption.
Qed.

Lemma keeps_stats_mmap {A B} (f : A -> M B) (l : list A) :
  (forall a, keeps_stats (f a)) -> keeps_stats (mmap f l).
Proof.
  intros Hf. induction l as [ | x l IH ]; simpl.
  - apply keeps_stats_ret.
  - apply keeps_stats_bind; [ apply Hf | intros y ].
    apply keeps_stats_bind; [ apply IH | intros ys; apply keeps_stats_ret ].
Qed.

Lemma keeps_stats_run {A} (m : M A) (w w' : world) (r : outcome A) :
  keeps_stats m -> m w = (r, w') -> filter_stats w' = filter_stats w.
Proof. intros Hm Hr. specialize (Hm w). rewrite Hr in Hm. exact Hm. Qed.

Ltac keeps_stats_step :=
  first
    [ apply keeps_stats_ret
    | apply keeps_stats_lift
    | apply keeps_stats_log
    | apply keeps_stats_save
    | apply keeps_stats_bind; [ | intros ? ]
    | apply keeps_stats_mmap; intros ?
    | match goal with
      | |- keeps_stats (match ?x with _ => _ end) => destruct x
      end ].

Lemma extract_video_download_counts (data : value) :
  keeps_stats (extract_video_download E data).
Proof. unfold extract_video_download. repeat keeps_stats_step. Qed.

Lemma extract_video_download_tiktok_counts (data : value) :
  keeps_stats (extract_video_download_tiktok E data).
Proof. unfold extract_video_download_tiktok. repeat keeps_stats_step. Qed.

Lemma platform_classify_detail_counts (data : list value) (c : container)
    (tiktok : bool) :
  keeps_stats (platform_classify_detail E data c tiktok).
Proof.
  unfold platform_classify_detail.
  destruct tiktok; apply keeps_stats_mmap; intros raw.
  - unfold extract_batch_tiktok, extract_detail_info_tiktok, classifying_detail_tiktok,
      extract_image_info_tiktok, extract_video_info_tiktok.
    repeat first [ apply extract_video_download_tiktok_counts | keeps_stats_step ].
  - unfold extract_batch, extract_detail_info, classifying_detail,
      extract_image_info, extract_video_info, classify_slides_item.
    repeat first [ apply extract_video_download_counts | keeps_stats_step ].
Qed.

Lemma extract_item_records_counts (data : list item) :
  keeps_stats (extract_item_records E data).
Proof. unfold extract_item_records. repeat keeps_stats_step. Qed.

Lemma record_data_counts (record : recorder) (data : list item) :
  keeps_stats (record_data record data).
Proof. unfold record_data. repeat keeps_stats_step. Qed.

(** Each item offered to the custom filter is counted once. *)
Lemma condition_filter_counts (all_data : list item) (w w' : world)
    (r : outcome (list item)) :
  condition_filter E all_data w = (r, w') ->
  filter_stats w' = counted (length all_data) (filter_stats w).
Proof.
  unfold condition_filter. revert w w' r.
  induction all_data as [ | x l IH ]; intros w w' r; simpl.
  - intros [= _ <-]. unfold counted. destruct (filter_stats w) as [t f i v]. simpl.
    f_equal. lia.
  - unfold mbind, custom.condition_filter at 1.
    match goal with
    | |- context [mfilter ?f l ?w1] =>
        destruct (mfilter f l w1) as [[ys | e] w2] eqn:Hl;
        apply IH in Hl
    end; intros [= _ <-]; rewrite Hl; unfold counted; simpl; f_equal; lia.
Qed.

(** The stages of a returning [run], with the container each mode builds:
    the persisted items are extracted payloads with an identifier, the
    returned ones are those offered to the custom filter that pass it, all
    of them persisted and, in batch mode, dated within the range. *)
Lemma run_stages (data : list value) (record : recorder) (type_ : string)
    (tiktok : bool) (kwargs : option batch_kwargs) (w w' : world) (out : list item) :
  run E data record type_ tiktok kwargs w = (Ok out, w') ->
  exists persisted rows offered,
    Forall (extracted_from E (container_of kwargs) tiktok data) persisted
    /\ Forall (fun it => truthy (item_get it "id") = true) persisted
    /\ sublist out persisted
    /\ Forall (fun it => condition_rule E it = true) out
    /\ (forall kw, kwargs = Some kw ->
        Forall (created_within E (kw_earliest kw) (kw_latest kw)) out)
    /\ omap (extract_values record) persisted = Ok rows
    /\ saved w' = (saved w ++ rows)%list
    /\ out = List.filter (condition_rule E) offered
    /\ filter_stats w' = counted (length offered) (filter_stats w)
    /\ (kwargs = None -> offered = persisted).
Proof.
  intros H. apply run_ok in H as [(_ & kw & -> & H) | (_ & -> & H)].
  - unfold batch, detail_necessary_keys in H.
    apply mbind_ok in H as (extracted & w1 & Hx & H).
    apply mbind_ok in H as ([] & w2 & Hlog & H).
    apply mbind_ok in H as (dated & w3 & Hdate & H).
    apply lift_ok in Hdate as [Hdate ->].
    apply mbind_ok in H as (kept & w4 & Hkeep & H).
    apply mbind_ok in H as (u & w5 & Hrec & H).
    apply mbind_ok in H as (u' & w6 & Hsum & H).
    injection H as <- <-.
    pose proof (condition_filter_counts _ _ _ _ Hkeep) as Hcount.
    destruct (condition_filter_spec E dated w2) as (w4' & Hc & Hs4 & _).
    rewrite Hc in Hkeep. injection Hkeep as <- <-.
    pose proof (keeps_stats_run _ _ _ _ (record_data_counts _ _) Hrec) as Hk5.
    apply record_data_spec in Hrec as (rows & Hrows & Hs5).
    apply platform_classify_detail_each in Hx as Hfrom.
    pose proof (ofilter_sublist _ _ _ Hdate) as Hsub1.
    assert (sublist (List.filter (condition_rule E) dated) extracted) as Hsub.
    { etransitivity; [ apply filter_sublist | ].
      etransitivity; [ exact Hsub1 | apply filter_sublist ]. }
    exists (List.filter (condition_rule E) dated), rows, dated.
    repeat split.
    + eapply sublist_Forall; [ exact Hsub | exact Hfrom ].
    + eapply sublist_Forall;
        [ etransitivity; [ apply filter_sublist | exact Hsub1 ] | ].
      apply clean_extract_data_has_key.
    + reflexivity.
    + apply filter_passes.
    + intros kw' [= <-]. eapply sublist_Forall; [ apply filter_sublist | ].
      apply date_filter_within in Hdate. exact Hdate.
    + exact Hrows.
    + rewrite (keeps_saved_run _ _ _ _ (summary_detail_keeps E _) Hsum), Hs5, Hs4.
      rewrite (keeps_saved_run _ _ _ _ (extract_item_records_keeps E _) Hlog).
      rewrite (keeps_saved_run _ _ _ _ (platform_classify_detail_keeps E _ _ _) Hx).
      reflexivity.
    + rewrite (keeps_stats_run _ _ _ _ (keeps_stats_log _ _ _) Hsum), Hk5, Hcount.
      rewrite (keeps_stats_run _ _ _ _ (extract_item_records_counts _) Hlog).
      rewrite (keeps_stats_run _ _ _ _ (platform_classify_detail_counts _ _ _) Hx).
      reflexivity.
    + discriminate.
  - unfold detail, detail_necessary_keys in H.
    apply mbind_ok in H as (extracted & w1 & Hx & H).
    apply mbind_ok in H as ([] & w2 & Hlog & H).
    apply mbind_ok in H as (u & w3 & Hrec & H).
    apply mbind_ok in H as (kept & w4 & Hkeep & H).
    injection H as <- <-.
    pose proof (condition_filter_counts _ _ _ _ Hkeep) as Hcount.
    destruct (condition_filter_spec E (clean_extract_data extracted "id") w3)
      as (w4' & Hc & Hs4 & _).
    rewrite Hc in Hkeep. injection Hkeep as <- <-.
    pose proof (keeps_stats_run _ _ _ _ (record_data_counts _ _) Hrec) as Hk3.
    apply record_data_spec in Hrec as (rows & Hrows & Hs3).
    apply platform_classify_detail_each in Hx as Hfrom.
    exists (clean_extract_data extracted "id"), rows, (clean_extract_data extracted "id").
    repeat split.
    + eapply sublist_Forall; [ apply filter_sublist | exact Hfrom ].
    + apply clean_extract_data_has_key.
    + apply filter_sublist.
    + apply filter_passes.
    + discriminate.
    + exact Hrows.
    + rewrite Hs4, Hs3.
      rewrite (keeps_saved_run _ _ _ _ (extract_item_records_keeps E _) Hlog).
      rewrite (keeps_saved_run _ _ _ _ (platform_classify_detail_keeps E _ _ _) Hx).
      reflexivity.
    + rewrite Hcount, Hk3.
      rewrite (keeps_stats_run _ _ _ _ (extract_item_records_counts _) Hlog).
      rewrite (keeps_stats_run _ _ _ _ (platform_classify_detail_counts _ _ _) Hx).
      reflexivity.
Qed.

Lemma omap_ok_each {A B} (f : A -> outcome B) (l : list A) (ys : list B) :
  omap f l = Ok ys -> Forall2 (fun x y => f x = Ok y) l ys.
Proof.
  revert ys. induction l as [ | x l IH ]; simpl; intros ys H.
  - injection H as <-. constructor.
  - returned_steps H. injection H as <-. constructor; auto.
Qed.

(** A row has one value per field key, each read from the item. *)
Lemma extract_values_ok (record : recorder) (it : item) (row : list value) :
  extract_values record it = Ok row ->
  Forall2 (fun k v => it !! k = Some v) (field_keys record) row.
Proof.
  unfold extract_values. intros H. apply omap_ok_each in H.
  eapply Forall2_impl; [ exact H | ]. intros k v. unfold item_at.
  destruct (it !! k); [ intros [= ->]; reflexivity | discriminate ].
Qed.

(** What holds of every item a returning [run] hands back. *)
Lemma run_items_fields (data : list value) (record : recorder) (type_ : string)
    (tiktok : bool) (kwargs : option batch_kwargs) (w w' : world) (out : list item) :
  run E data record type_ tiktok kwargs w = (Ok out, w') ->
  Forall (fun it => truthy (item_get it "id") = true
                    /\ dom it = canonical_keys /\ dated_head E it
                    /\ classified E tiktok it /\ named_by (container_of kwargs) it) out.
Proof.
  intros H. apply run_stages in H as (persisted & rows & offered & Hfrom & Hid & Hsub & _).
  eapply sublist_Forall; [ exact Hsub | ].
  rewrite List.Forall_forall in Hfrom, Hid. apply List.Forall_forall. intros it Hin.
  split; [ auto | ].
  destruct (Hfrom it Hin) as (raw & w1 & w2 & _ & Hx).
  apply extract_one_fields in Hx. exact Hx.
Qed.

End item_fields.

(** *** Extracted records *)

(** X6. Every item [run] returns is a record of the canonical schema: it
    has the collection time, the head, media, account, music, statistics and
    closing fields, and no other field, whatever the payload lacked. *)
Theorem returned_items_canonical (E : collaborators) (data : list value)
    (record : recorder) (type_ : string) (tiktok : bool) (kwargs : option batch_kwargs)
    (w w' : world) (out : list item) :
  run E data record type_ tiktok kwargs w = (Ok out, w') ->
  Forall (fun it => dom it = canonical_keys) out.
Proof.
  intros H. apply run_items_fields in H.
  eapply Forall_impl; [ exact H | ]. simpl. tauto.
Qed.

Lemma returned_items_canonical_witness :
  let r := run Sample.standard [Sample.work "1"; Sample.work "2"] Sample.by_id "detail"
             false None Sample.fresh in
  ids (returned r) = [VStr "1"; VStr "2"]
  /\ Forall (fun it => dom it = canonical_keys) (returned r).
Proof.
  intros r. split; [ vm_compute; exact eq_refl | ].
  apply (returned_items_canonical Sample.standard [Sample.work "1"; Sample.work "2"]
           Sample.by_id "detail" false None Sample.fresh (snd r) (returned r)).
  vm_cast_no_check (eq_refl (Ok (returned r), snd r)).
Defined.

(** X7. A recorder can only persist fields of the canonical schema: when
    [run] returns and has saved something, every field key of the recorder
    is a canonical field, and each row saved has one value per field key.
    With any other key a run that has an item to save does not return. *)
Theorem persisted_fields_are_canonical (E : collaborators) (data : list value)
    (record : recorder) (type_ : string) (tiktok : bool) (kwargs : option batch_kwargs)
    (w w' : world) (out : list item) :
  run E data record type_ tiktok kwargs w = (Ok out, w') ->
  saved w' <> saved w ->
  Forall (fun k => k ∈ canonical_keys) (field_keys record)
  /\ exists rows, saved w' = (saved w ++ rows)%list
                  /\ Forall (fun row => length row = length (field_keys record)) rows.
Proof.
  intros H Hnew.
  apply run_stages in H
    as (persisted & rows & offered & Hfrom & _ & _ & _ & _ & Hrows & Hs & _).
  apply omap_ok_each in Hrows. split.
  - destruct Hrows as [ | it row rest rows' Hrow _ ].
    + rewrite app_nil_r in Hs. contradiction.
    + apply List.Forall_cons_iff in Hfrom as [(raw & w1 & w2 & _ & Hx) _].
      apply extract_one_fields in Hx as (Hdom & _).
      apply extract_values_ok in Hrow. rewrite <- Hdom.
      clear - Hrow. induction Hrow as [ | k v ks vs Hk _ IH ]; constructor; auto.
      apply elem_of_dom. eauto.
  - exists rows. split; [ exact Hs | ].
    clear - Hrows. induction Hrows as [ | it row rest rows' Hrow _ IH ]; constructor; auto.
    apply extract_values_ok in Hrow. symmetry. eapply Forall2_length. exact Hrow.
Qed.

Lemma persisted_fields_are_canonical_witness :
  let record := {| field_keys := ["id"; "type"; "share_url"] |} in
  let r := run Sample.standard [Sample.work "1"] record "batch" false
             (Some Sample.june_2024) Sample.fresh in
  saved (snd r) = [[VStr "1"; VStr "视频"; VStr "https://www.douyin.com/video/1"]]
  /\ Forall (fun k => k ∈ canonical_keys) (field_keys record).
Proof.
  intros record r. split; [ vm_compute; exact eq_refl | ].
  apply (persisted_fields_are_canonical Sample.standard [Sample.work "1"] record "batch"
           false (Some Sample.june_2024) Sample.fresh (snd r) (returned r)).
  - vm_cast_no_check (eq_refl (Ok (returned r), snd r)).
  - vm_compute. discriminate.
Defined.

(** X8. The author fields of the returned items follow the mode.  In batch
    mode with [same] set, every item carries the account name it was asked
    under as [nickname] and the mark, or the name when the mark is empty, as
    [mark].  Otherwise, and in detail mode, [nickname] and [mark] are one and
    the same cleaned name. *)
Theorem returned_items_named (E : collaborators) (data : list value)
    (record : recorder) (type_ : string) (tiktok : bool) (kwargs : option batch_kwargs)
    (w w' : world) (out : list item) :
  run E data record type_ tiktok kwargs w = (Ok out, w') ->
  Forall (fun it =>
            match kwargs with
            | Some kw =>
                if kw_same kw then
                  it !! "nickname" = Some (kw_name kw)
                  /\ it !! "mark" = Some (py_or (kw_mark kw) (kw_name kw))
                else it !! "nickname" = it !! "mark" /\ is_Some (it !! "mark")
            | None => it !! "nickname" = it !! "mark" /\ is_Some (it !! "mark")
            end) out.
Proof.
  intros H. apply run_items_fields in H.
  eapply Forall_impl; [ exact H | ]. simpl. intros it (_ & _ & _ & _ & Hn).
  unfold named_by in Hn. destruct kwargs as [kw | ]; simpl in Hn.
  - destruct (kw_same kw).
    + destruct Hn as (ctx & [= <-] & Hnick & Hmark). simpl in *. auto.
    + destruct Hn as (name & -> & ->). eauto.
  - destruct Hn as (name & -> & ->). eauto.
Qed.

Lemma returned_items_named_witness :
  let r := run Sample.standard [Sample.work "1"] Sample.by_id "batch" false
             (Some Sample.june_2024) Sample.fresh in
  Forall (fun it => it !! "nickname" = Some (VStr "author")
                    /\ it !! "mark" = Some (VStr "author")) (returned r)
  /\ length (returned r) = 1%nat.
Proof.
  intros r. split; [ | vm_compute; exact eq_refl ].
  apply (returned_items_named Sample.standard [Sample.work "1"] Sample.by_id "batch"
           false (Some Sample.june_2024) Sample.fresh (snd r) (returned r)).
  vm_cast_no_check (eq_refl (Ok (returned r), snd r)).
Defined.

(** X9. Every returned item has a description that is not empty, the
    identifier standing in for an empty one, and its [create_time] is the
    formatted [create_timestamp]. *)
Theorem returned_items_described (E : collaborators) (data : list value)
    (record : recorder) (type_ : string) (tiktok : bool) (kwargs : option batch_kwargs)
    (w w' : world) (out : list item) :
  run E data record type_ tiktok kwargs w = (Ok out, w') ->
  Forall (fun it =>
            truthy (item_get it "desc") = true
            /\ (exists desc, item_get it "desc" = py_or desc (item_get it "id"))
            /\ exists timestamp time,
                 it !! "create_timestamp" = Some timestamp
                 /\ format_date E timestamp = Ok time
                 /\ it !! "create_time" = Some time) out.
Proof.
  intros H. apply run_items_fields in H.
  eapply Forall_impl; [ exact H | ]. simpl.
  intros it (Hid & _ & (id & desc & ts & time & H1 & H2 & H3 & H4 & H5) & _).
  unfold item_get in *. rewrite H1 in Hid. rewrite H1, H2. simpl in *.
  repeat split; eauto.
  unfold py_or. destruct (truthy desc) eqn:Hd; auto.
Qed.

Lemma returned_items_described_witness :
  let r := run Sample.standard [Sample.work "1"] Sample.by_id "detail" false None
             Sample.fresh in
  map (fun it => item_get it "desc") (returned r) = [VStr "1"]
  /\ Forall (fun it => truthy (item_get it "desc") = true) (returned r).
Proof.
  intros r. split; [ vm_compute; exact eq_refl | ].
  assert (run Sample.standard [Sample.work "1"] Sample.by_id "detail" false None
            Sample.fresh = (Ok (returned r), snd r)) as H
    by vm_cast_no_check (eq_refl (Ok (returned r), snd r)).
  apply returned_items_described in H.
  eapply Forall_impl; [ exact H | ]. simpl. tauto.
Defined.

(** X10. Every returned item is classified: it is a video, or it is an
    image set or, from Source A only, a live photo, and then its duration,
    address, size and covers are the placeholders and its downloads a list. *)
Theorem returned_items_classified (E : collaborators) (data : list value)
    (record : recorder) (type_ : string) (tiktok : bool) (kwargs : option batch_kwargs)
    (w w' : world) (out : list item) :
  run E data record type_ tiktok kwargs w = (Ok out, w') ->
  Forall (classified E tiktok) out.
Proof.
  intros H. apply run_items_fields in H.
  eapply Forall_impl; [ exact H | ]. simpl. tauto.
Qed.

Lemma returned_items_classified_witness :
  let r := run Sample.standard [photo_work "3"; Sample.work "4"] Sample.by_id "detail"
             false None Sample.fresh in
  map (fun it => item_get it "type") (returned r) = [VStr "图集"; VStr "视频"]
  /\ map (fun it => item_get it "downloads") (returned r)
     = [VList [VStr "b"; VStr "c"; VStr ""]; VStr ""]
  /\ Forall (classified Sample.standard false) (returned r).
Proof.
  intros r. split; [ vm_compute; exact eq_refl | split; [ vm_compute; exact eq_refl | ] ].
  apply (returned_items_classified Sample.standard [photo_work "3"; Sample.work "4"]
           Sample.by_id "detail" false None Sample.fresh (snd r) (returned r)).
  vm_cast_no_check (eq_refl (Ok (returned r), snd r)).
Defined.

(** X11. The returned items pass both filters: the custom rule holds of
    each, and in batch mode the timestamp of each converts to a day from
    [earliest] to [latest], bounds included. *)
Theorem returned_items_pass_filters (E : collaborators) (data : list value)
    (record : recorder) (type_ : string) (tiktok : bool) (kwargs : option batch_kwargs)
    (w w' : world) (out : list item) :
  run E data record type_ tiktok kwargs w = (Ok out, w') ->
  Forall (fun it => condition_rule E it = true) out
  /\ forall kw, kwargs = Some kw ->
               Forall (created_within E (kw_earliest kw) (kw_latest kw)) out.
Proof.
  intros H.
  apply run_stages in H as (persisted & rows & offered & _ & _ & _ & Hrule & Hdate & _).
  auto.
Qed.

Lemma returned_items_pass_filters_witness :
  let E := Sample.plain Sample.without_2 (-1) in
  let r := run E [Sample.work "1"; Sample.work "2"; Sample.work "3"] Sample.by_id "batch"
             false (Some Sample.june_2024) Sample.fresh in
  ids (returned r) = [VStr "1"; VStr "3"]
  /\ Forall (fun it => Sample.without_2 it = true) (returned r)
  /\ Forall (created_within E (ordinal 2024 6 1) (ordinal 2024 6 30)) (returned r).
Proof.
  intros E r. split; [ vm_compute; exact eq_refl | ].
  destruct (returned_items_pass_filters E
              [Sample.work "1"; Sample.work "2"; Sample.work "3"] Sample.by_id "batch"
              false (Some Sample.june_2024) Sample.fresh (snd r) (returned r))
    as [Hrule Hdate].
  - vm_cast_no_check (eq_refl (Ok (returned r), snd r)).
  - split; [ exact Hrule | exact (Hdate Sample.june_2024 eq_refl) ].
Defined.



(** *** Choosing the account among several *)

Section selection.
Context (E : collaborators).

Lemma safe_extract_payload (raw : value) (chain : string) (default : value) :
  plain_path chain = true ->
  is_payload raw = true ->
  exists v, safe_extract (generate_data_object raw) chain default = Ok v.
Proof.
  intros Hplain Hp. unfold safe_extract, generate_data_object.
  apply safe_extract_loop_total; [ exact Hplain | ].
  apply depth_conversion_dict_free, Hp.
Qed.

Lemma select_item_spec (data : list value) (id_ : value) (key : string) :
  plain_path key = true ->
  Forall (fun raw => is_payload raw = true) data ->
  (exists before raw after found,
      data = (before ++ raw :: after)%list
      /\ select_item data id_ key = Ok (generate_data_object raw)
      /\ safe_extract (generate_data_object raw) key (VStr "") = Ok found
      /\ py_eq id_ found = true
      /\ none_selected before id_ key)
  \/ (select_item data id_ key = Raise DownloaderError /\ none_selected data id_ key).
Proof.
  intros Hplain. induction 1 as [ | raw data Hp _ IH ]; simpl.
  - right. split; [ reflexivity | constructor ].
  - destruct (safe_extract_payload raw key (VStr "") Hplain Hp) as (found & Hf).
    rewrite Hf. simpl. destruct (py_eq id_ found) eqn:Heq.
    + left. exists [], raw, data, found. repeat split; auto. constructor.
    + destruct IH as [(before & r & after & f & -> & Hs & Hr & He & Hn) | [Hs Hn]].
      * left. exists (raw :: before), r, after, f. repeat split; auto.
        constructor; eauto.
      * right. split; [ exact Hs | ]. constructor; eauto.
Qed.

Lemma mode_is_post (A : Type) (mode : option string) (a b : A) :
  match mode with Some "post" => a | _ => b end
  = if bool_decide (mode = Some "post") then a else b.
Proof.
  destruct mode as [s | ]; [ | reflexivity ].
  do 4 (destruct s as [ | c s ];
        [ reflexivity | destruct c as [[] [] [] [] [] [] [] []]; try reflexivity ]).
  destruct s; reflexivity.
Qed.

(** X13. For a key path that names no built-in attribute, [__select_item]
    returns the first entry of the list whose value at the path equals the
    identifier, converted to a tree, the entries before it being no match;
    when no entry matches it raises [DownloaderError].  On payloads and such
    a path it raises nothing else. *)
Theorem select_item_first_match (data : list value) (id_ : value) (key : string) :
  plain_path key = true ->
  Forall (fun raw => is_payload raw = true) data ->
  match select_item data id_ key with
  | Ok candidate =>
      exists before raw after found,
        data = (before ++ raw :: after)%list
        /\ candidate = generate_data_object raw
        /\ safe_extract candidate key (VStr "") = Ok found
        /\ py_eq id_ found = true
        /\ none_selected before id_ key
  | Raise e => e = DownloaderError /\ none_selected data id_ key
  end.
Proof.
  intros Hplain Hp.
  destruct (select_item_spec data id_ key Hplain Hp)
    as [(before & raw & after & found & Hd & -> & Hf & He & Hn) | [-> Hn]].
  - exists before, raw, after, found. auto.
  - auto.
Qed.

(** X14. [preprocessing_data] on a list of payloads neither logs nor saves.
    Outside mode "post" it raises [DownloaderError], and so it does in mode
    "post" when no entry has the expected [sec_uid].  When it returns, the
    mode is "post" and the identifier returned is the [uid] of the first
    entry whose [sec_uid] equals the expected one.  Data that is neither a
    mapping nor a list raises [DownloaderError] as well. *)
Theorem preprocessing_list_selects (candidates : list value) (tiktok : bool)
    (mode : option string) (mark user_id : value) (w : world) :
  Forall (fun raw => is_payload raw = true) candidates ->
  let key := if tiktok then "author.secUid" else "author.sec_uid" in
  let uid_key := if tiktok then "author.id" else "author.uid" in
  let r := preprocessing_data E (VList candidates) tiktok mode mark user_id w in
  snd r = w
  /\ (mode <> Some "post" -> fst r = Raise DownloaderError)
  /\ (none_selected candidates user_id key -> fst r = Raise DownloaderError)
  /\ (forall id_ name mark',
        fst r = Ok (id_, name, mark') ->
        mode = Some "post"
        /\ exists before raw after found,
             candidates = (before ++ raw :: after)%list
             /\ none_selected before user_id key
             /\ safe_extract (generate_data_object raw) key (VStr "") = Ok found
             /\ py_eq user_id found = true
             /\ safe_extract (generate_data_object raw) uid_key (VStr "") = Ok id_)
  /\ (forall other,
        match other with VDict _ | VList _ => False | _ => True end ->
        preprocessing_data E other tiktok mode mark user_id w
        = (Raise DownloaderError, w)).
Proof.
  intros Hp key uid_key r.
  assert (r = (if bool_decide (mode = Some "post") then
                 lift (try! key <- param tiktok "sec_uid";
                       try! found <- select_item candidates user_id key;
                       try! id_key <- param tiktok "uid";
                       try! name_key <- param tiktok "nickname";
                       extract_pretreatment_data E found id_key name_key mark VNone)
               else lift (Raise DownloaderError)) w) as Hr.
  { subst r. unfold preprocessing_data. rewrite mode_is_post. reflexivity. }
  assert (param tiktok "sec_uid" = Ok key) as Hk by (destruct tiktok; reflexivity).
  assert (plain_path key = true) as Hplain by (destruct tiktok; reflexivity).
  assert (param tiktok "uid" = Ok uid_key) as Hu by (destruct tiktok; reflexivity).
  rewrite Hk, Hu in Hr. cbn [obind] in Hr.
  split; [ | split; [ | split; [ | split ] ] ].
  - rewrite Hr. destruct (bool_decide (mode = Some "post")); reflexivity.
  - intros Hm. rewrite Hr. rewrite bool_decide_eq_false_2 by exact Hm. reflexivity.
  - intros Hn. rewrite Hr. destruct (bool_decide (mode = Some "post")); [ | reflexivity ].
    destruct (select_item_spec candidates user_id key Hplain Hp)
      as [(before & raw & after & found & -> & _ & Hf & He & _) | [-> _]];
      [ | reflexivity ].
    apply Forall_app in Hn as [_ Hn]. apply List.Forall_cons_iff in Hn as [(f & Hf' & He') _].
    rewrite Hf in Hf'. injection Hf' as <-. rewrite He in He'. discriminate.
  - intros id_ name mark' Hok. rewrite Hr in Hok.
    destruct (bool_decide (mode = Some "post")) eqn:Hm; [ | discriminate ].
    apply bool_decide_eq_true_1 in Hm. split; [ exact Hm | ].
    destruct (select_item_spec candidates user_id key Hplain Hp)
      as [(before & raw & after & found & Hd & Hs & Hf & He & Hn) | [Hs _]];
      rewrite Hs in Hok; [ | discriminate ].
    exists before, raw, after, found. repeat split; auto.
    simpl in Hok. destruct (param tiktok "nickname") as [name_key | ]; [ | discriminate ].
    simpl in Hok. unfold extract_pretreatment_data in Hok.
    returned_steps Hok. injection Hok as <- _ _. exact Hstep.
  - intros other Ho. destruct other; try reflexivity; contradiction.
Qed.

(** X15. A profile whose [sec_uid] equals the expected identifier is
    accepted without a log entry: the triple is the profile's [uid], its
    cleaned nickname with the [uid] standing in for an unusable one, and the
    cleaned mark with that name standing in.  Source B reads the same three
    fields under [user]. *)
Theorem matching_profile_is_accepted (d : list (string * value)) (tiktok : bool)
    (mode : option string) (mark user_id nickname sec_uid uid : value) (w : world) :
  (if tiktok then
     exists user, assoc "user" d = Some (VDict user)
                  /\ assoc "nickname" user = Some nickname
                  /\ assoc "secUid" user = Some sec_uid /\ assoc "id" user = Some uid
   else assoc "nickname" d = Some nickname /\ assoc "sec_uid" d = Some sec_uid
        /\ assoc "uid" d = Some uid) ->
  py_eq user_id sec_uid = true ->
  preprocessing_data E (VDict d) tiktok mode mark user_id w
  = (try! name <- cleaner_filter_name E nickname (Some uid);
     try! mark' <- cleaner_filter_name E mark (Some name);
     Ok (uid, name, mark'), w).
Proof.
  intros Hd Heq.
  set (info := <["uid" := uid]> (<["sec_uid" := sec_uid]> (<["nickname" := nickname]> ∅))
         : item).
  assert ((if tiktok then get_user_info_tiktok E (VDict d) else get_user_info E (VDict d)) w
          = (Ok info, w)) as Hinfo.
  { destruct tiktok.
    - destruct Hd as (user & Hu & Hn & Hs & Hi).
      unfold get_user_info_tiktok, getitem_key. rewrite Hu. simpl.
      rewrite Hn, Hs, Hi. reflexivity.
    - destruct Hd as (Hn & Hs & Hi).
      unfold get_user_info, getitem_key. rewrite Hn, Hs, Hi. reflexivity. }
  unfold preprocessing_data, mbind at 1. rewrite Hinfo.
  assert (info !! "sec_uid" = Some sec_uid) as Hs by (subst info; read_field).
  assert (info !! "nickname" = Some nickname) as Hn by (subst info; read_field).
  assert (info !! "uid" = Some uid) as Hu by (subst info; read_field).
  unfold item_get, item_at. rewrite Hs, Hn, Hu. simpl. rewrite Heq. simpl.
  unfold mbind, lift, mret.
  destruct (cleaner_filter_name E nickname (Some uid)) as [name | e]; simpl;
    [ | reflexivity ].
  destruct (cleaner_filter_name E mark (Some name)) as [mark' | e]; reflexivity.
Qed.

End selection.

Lemma select_item_first_match_witness :
  let profile s := VDict [("author", VDict [("sec_uid", VStr s)])] in
  select_item [profile "a"; profile "b"; profile "b"] (VStr "b") "author.sec_uid"
  = Ok (generate_data_object (profile "b"))
  /\ exists before raw after,
       [profile "a"; profile "b"; profile "b"] = (before ++ raw :: after)%list
       /\ none_selected before (VStr "b") "author.sec_uid".
Proof.
  intros profile. split; [ reflexivity | ].
  pose proof (select_item_first_match [profile "a"; profile "b"; profile "b"] (VStr "b")
                "author.sec_uid") as H.
  assert (select_item [profile "a"; profile "b"; profile "b"] (VStr "b") "author.sec_uid"
          = Ok (generate_data_object (profile "b"))) as Hs by reflexivity.
  rewrite Hs in H.
  destruct H as (before & raw & after & found & Hd & _ & _ & _ & Hn).
  - reflexivity.
  - repeat constructor.
  - exists before, raw, after. auto.
Defined.

Lemma preprocessing_list_selects_witness :
  let profile s u := VDict [("author", VDict [("sec_uid", VStr s); ("uid", VStr u);
                                              ("nickname", VStr "n")])] in
  preprocessing_data Sample.standard (VList [profile "a" "1"; profile "b" "2"]) false
    (Some "post") (VStr "") (VStr "b") Sample.fresh
  = (Ok (VStr "2", VStr "n", VStr "n"), Sample.fresh)
  /\ fst (preprocessing_data Sample.standard (VList [profile "a" "1"; profile "b" "2"])
            false (Some "mix") (VStr "") (VStr "b") Sample.fresh)
     = Raise DownloaderError.
Proof.
  intros profile. split; [ reflexivity | ].
  destruct (preprocessing_list_selects Sample.standard [profile "a" "1"; profile "b" "2"]
              false (Some "mix") (VStr "") (VStr "b") Sample.fresh)
    as (_ & Hm & _).
  - repeat constructor.
  - apply Hm. discriminate.
Defined.

Lemma matching_profile_is_accepted_witness :
  preprocessing_data Sample.standard
    (VDict [("nickname", VStr ""); ("sec_uid", VStr "X"); ("uid", VStr "7")]) false None
    (VStr "") (VStr "X") Sample.fresh
  = (Ok (VStr "7", VStr "7", VStr "7"), Sample.fresh).
Proof.
  apply (matching_profile_is_accepted Sample.standard
           [("nickname", VStr ""); ("sec_uid", VStr "X"); ("uid", VStr "7")] false None
           (VStr "") (VStr "X") (VStr "") (VStr "X") (VStr "7") Sample.fresh).
  - repeat split; reflexivity.
  - reflexivity.
Defined.

(** *** What a run logs *)

Section logging.
Context (E : collaborators).

Lemma logs_errors_ret {A} (a : A) : logs_errors (mret a).
Proof. intros w. exists []. rewrite app_nil_r. auto. Qed.

Lemma logs_errors_lift {A} (o : outcome A) : logs_errors (lift o).
Proof. intros w. exists []. rewrite app_nil_r. auto. Qed.

Lemma logs_errors_log (t : log_text) (e : option bool) : logs_errors (log_call Error t e).
Proof. intros w. eexists. split; [ reflexivity | ]. repeat constructor. Qed.

Lemma logs_errors_bind {A B} (m : M A) (k : A -> M B) :
  logs_errors m -> (forall a, logs_errors (k a)) -> logs_errors (mbind m k).
Proof.
  intros Hm Hk w. unfold mbind. destruct (Hm w) as (e1 & H1 & F1).
  destruct (m w) as [[a | e] w1]; simpl in *; [ | eauto ].
  destruct (Hk a w1) as (e2 & H2 & F2). exists (e1 ++ e2)%list.
  rewrite H2, H1, app_assoc. split; [ reflexivity | ].
  apply Forall_app. auto.
Qed.

Lemma logs_errors_mmap {A B} (f : A -> M B) (l : list A) :
  (forall a, logs_errors (f a)) -> logs_errors (mmap f l).
Proof.
  intros Hf. induction l as [ | x l IH ]; simpl.
  - apply logs_errors_ret.
  - apply logs_errors_bind; [ apply Hf | intros y ].
    apply logs_errors_bind; [ apply IH | intros ys; apply logs_errors_ret ].
Qed.

Lemma logs_errors_run {A} (m : M A) (w w' : world) (r : outcome A) :
  logs_errors m -> m w = (r, w') ->
  exists errors, logs w' = (logs w ++ errors)%list
                 /\ Forall (fun e => level e = Error) errors.
Proof. intros Hm Hr. specialize (Hm w). rewrite Hr in Hm. exact Hm. Qed.

Ltac logs_errors_step :=
  first
    [ apply logs_errors_ret
    | apply logs_errors_lift
    | apply logs_errors_log
    | apply logs_errors_bind; [ | intros ? ]
    | apply logs_errors_mmap; intros ?
    | match goal with
      | |- logs_errors (match ?x with _ => _ end) => destruct x
      end ].

Lemma extract_video_download_logs (data : value) :
  logs_errors (extract_video_download E data).
Proof. unfold extract_video_download. repeat logs_errors_step. Qed.

Lemma extract_video_download_tiktok_logs (data : value) :
  logs_errors (extract_video_download_tiktok E data).
Proof. unfold extract_video_download_tiktok. repeat logs_errors_step. Qed.

(** Extraction logs nothing but the failures of the quality selectors. *)
Lemma platform_classify_detail_logs (data : list value) (c : container) (tiktok : bool) :
  logs_errors (platform_classify_detail E data c tiktok).
Proof.
  unfold platform_classify_detail.
  destruct tiktok; apply logs_errors_mmap; intros raw.
  - unfold extract_batch_tiktok, extract_detail_info_tiktok, classifying_detail_tiktok,
      extract_image_info_tiktok, extract_video_info_tiktok.
    repeat first [ apply extract_video_download_tiktok_logs | logs_errors_step ].
  - unfold extract_batch, extract_detail_info, classifying_detail,
      extract_image_info, extract_video_info, classify_slides_item.
    repeat first [ apply extract_video_download_logs | logs_errors_step ].
Qed.

Lemma extract_item_records_logs (data : list item) (w w' : world) (u : unit) :
  extract_item_records E data w = (Ok u, w') ->
  logs w' = (logs w ++ map (success_record E) data)%list.
Proof.
  unfold extract_item_records. intros H. apply mbind_ok in H as (us & w1 & H & Hr).
  injection Hr as _ <-. revert w us H.
  induction data as [ | it data IH ]; simpl; intros w us H.
  - injection H as _ <-. rewrite app_nil_r. reflexivity.
  - returned_steps H. injection H as _ <-. returned_steps Hstep.
    apply IH in Hstep0. rewrite Hstep0.
    unfold item_at in Hstep1, Hstep2.
    destruct (it !! "type") as [t | ] eqn:Ht; [ | discriminate ].
    destruct (it !! "id") as [i | ] eqn:Hi; [ | discriminate ].
    injection Hstep1 as <-. injection Hstep2 as <-.
    unfold log_call in Hstep. injection Hstep as _ <-. simpl.
    rewrite <- app_assoc. simpl. unfold success_record, item_get. rewrite Ht, Hi.
    reflexivity.
Qed.

Lemma mmap_keeps_logs {A B} (f : A -> M B) (l : list A) :
  (forall a w, logs (snd (f a w)) = logs w) ->
  forall w, logs (snd (mmap f l w)) = logs w.
Proof.
  intros Hf. induction l as [ | x l IH ]; simpl; intros w; [ reflexivity | ].
  unfold mbind at 1. specialize (Hf x w).
  destruct (f x w) as [[y | e] w1]; simpl in *; [ | exact Hf ].
  unfold mbind. specialize (IH w1).
  destruct (mmap f l w1) as [[ys | e] w2]; simpl in *; congruence.
Qed.

Lemma record_data_logs (record : recorder) (data : list item) (w w' : world)
    (r : outcome unit) :
  record_data record data w = (r, w') -> logs w' = logs w.
Proof.
  unfold record_data, mbind. intros H.
  pose proof (mmap_keeps_logs
                (fun i => do! row <- lift (extract_values record i); save row) data) as Hk.
  match type of H with
  | context [mmap ?f data w] =>
      assert (logs (snd (mmap f data w)) = logs w) as Hw;
      [ apply Hk | destruct (mmap f data w) as [[ys | e] w1] ]
  end.
  - intros it w0. unfold mbind, lift, save.
    destruct (extract_values record it); reflexivity.
  - injection H as _ <-. exact Hw.
  - injection H as _ <-. exact Hw.
Qed.

(** X16. What a returning [run] has logged, in order: first the failures of
    the quality selectors met during extraction, all at error level; then
    one success line for each extracted item with an identifier, in input
    order, the returned items being among them; and in batch mode, last, the
    summary line with the number of items returned.  Detail mode logs no
    summary. *)
Theorem run_log_order (data : list value) (record : recorder) (type_ : string)
    (tiktok : bool) (kwargs : option batch_kwargs) (w w' : world) (out : list item) :
  run E data record type_ tiktok kwargs w = (Ok out, w') ->
  exists errors cleaned,
    Forall (fun e => level e = Error) errors
    /\ sublist out cleaned
    /\ logs w' = (logs w ++ errors ++ map (success_record E) cleaned
                  ++ match kwargs with
                     | Some _ => [summary_record E (length out)]
                     | None => []
                     end)%list.
Proof.
  intros H. apply run_ok in H as [(_ & kw & -> & H) | (_ & -> & H)].
  - unfold batch, detail_necessary_keys in H.
    apply mbind_ok in H as (extracted & w1 & Hx & H).
    apply mbind_ok in H as ([] & w2 & Hlog & H).
    apply mbind_ok in H as (dated & w3 & Hdate & H).
    apply lift_ok in Hdate as [Hdate ->].
    apply mbind_ok in H as (kept & w4 & Hkeep & H).
    apply mbind_ok in H as (u & w5 & Hrec & H).
    apply mbind_ok in H as (u' & w6 & Hsum & H).
    injection H as <- <-.
    destruct (condition_filter_spec E dated w2) as (w4' & Hc & _ & Hl4).
    rewrite Hc in Hkeep. injection Hkeep as <- <-.
    destruct (logs_errors_run _ _ _ _ (platform_classify_detail_logs _ _ _) Hx)
      as (errors & Hl1 & Herr).
    apply extract_item_records_logs in Hlog. apply record_data_logs in Hrec.
    unfold summary_detail, log_call in Hsum. injection Hsum as _ <-. simpl.
    exists errors, (clean_extract_data extracted "id"). split; [ exact Herr | split ].
    + etransitivity; [ apply filter_sublist | ]. eapply ofilter_sublist. exact Hdate.
    + rewrite Hrec, Hl4, Hlog, Hl1. rewrite <- !app_assoc. reflexivity.
  - unfold detail, detail_necessary_keys in H.
    apply mbind_ok in H as (extracted & w1 & Hx & H).
    apply mbind_ok in H as ([] & w2 & Hlog & H).
    apply mbind_ok in H as (u & w3 & Hrec & H).
    apply mbind_ok in H as (kept & w4 & Hkeep & H).
    injection H as <- <-.
    destruct (condition_filter_spec E (clean_extract_data extracted "id") w3)
      as (w4' & Hc & _ & Hl4).
    rewrite Hc in Hkeep. injection Hkeep as <- <-.
    destruct (logs_errors_run _ _ _ _ (platform_classify_detail_logs _ _ _) Hx)
      as (errors & Hl1 & Herr).
    apply extract_item_records_logs in Hlog. apply record_data_logs in Hrec.
    exists errors, (clean_extract_data extracted "id"). split; [ exact Herr | split ].
    + apply filter_sublist.
    + rewrite Hl4, Hrec, Hlog, Hl1. rewrite app_nil_r, <- app_assoc. reflexivity.
Qed.

End logging.

Lemma run_log_order_witness :
  let r := run Sample.standard [Sample.work "1"; Sample.undated ""] Sample.by_id "batch"
             false (Some Sample.june_2024) Sample.fresh in
  logs (snd r) = [success_record Sample.standard
                    (<["type" := VStr "视频"]> (<["id" := VStr "1"]> ∅));
                  summary_record Sample.standard 1]
  /\ exists errors cleaned,
       logs (snd r) = (errors ++ map (success_record Sample.standard) cleaned
                       ++ [summary_record Sample.standard (length (returned r))])%list.
Proof.
  intros r. split; [ vm_compute; exact eq_refl | ].
  destruct (run_log_order Sample.standard [Sample.work "1"; Sample.undated ""]
              Sample.by_id "batch" false (Some Sample.june_2024) Sample.fresh (snd r)
              (returned r)) as (errors & cleaned & _ & _ & Hlogs).
  - vm_cast_no_check (eq_refl (Ok (returned r), snd r)).
  - exists errors, cleaned. exact Hlogs.
Defined.

(** *** Collections and image sets *)

Lemma assoc_In (k : string) (d : list (string * value)) (v : value) :
  assoc k d = Some v -> In (k, v) d.
Proof.
  induction d as [ | [k' x] d IH ]; simpl; [ discriminate | ].
  destruct (String.eqb k k') eqn:Hk; [ | auto ].
  apply String.eqb_eq in Hk. intros [= ->]. subst. auto.
Qed.

(** X17. [extract_mix_id] never raises on a payload: it returns the
    converted [mix_id] found under [mix_info] when the payload is a mapping
    that has both and the identifier is truthy, and the empty text in every
    other case. *)
Theorem extract_mix_id_reads_mix_info (data : value) :
  is_payload data = true ->
  extract_mix_id data
  = Ok (match data with
        | VDict d =>
            match assoc "mix_info" d with
            | Some (VDict info) =>
                match assoc "mix_id" info with
                | Some id => py_or (generate_data_object id) (VStr "")
                | None => VStr ""
                end
            | _ => VStr ""
            end
        | _ => VStr ""
        end).
Proof.
  intros Hp. unfold extract_mix_id, safe_extract.
  change (split_on "." "mix_info.mix_id") with ["mix_info"; "mix_id"].
  rewrite resolve_two_names by reflexivity. f_equal.
  destruct data as [ | | | | l | d | f ]; try reflexivity.
  - unfold generate_data_object. simpl. rewrite assoc_converted.
    destruct (assoc "mix_info" d) as [info | ] eqn:Hi; simpl; [ | reflexivity ].
    destruct info as [ | | | | l | info | f ]; try reflexivity.
    + simpl. rewrite assoc_converted.
      destruct (assoc "mix_id" info); reflexivity.
    + simpl in Hp. rewrite forallb_forall in Hp.
      apply assoc_In, Hp in Hi. discriminate.
  - discriminate.
Qed.

Lemma extract_mix_id_reads_mix_info_witness :
  extract_mix_id (VDict [("aweme_id", VStr "1");
                         ("mix_info", VDict [("mix_name", VStr "m"); ("mix_id", VStr "77")])])
  = Ok (VStr "77")
  /\ extract_mix_id (VDict [("aweme_id", VStr "1")]) = Ok (VStr "").
Proof.
  split.
  - apply (extract_mix_id_reads_mix_info
             (VDict [("aweme_id", VStr "1");
                     ("mix_info", VDict [("mix_name", VStr "m"); ("mix_id", VStr "77")])])).
    reflexivity.
  - reflexivity.
Defined.

Section slides.
Context (E : collaborators).

Lemma mmap_ok_pairs {A B} (f : A -> M B) (l : list A) (w w' : world) (ys : list B) :
  mmap f l w = (Ok ys, w') ->
  Forall2 (fun x y => exists w1 w2, f x w1 = (Ok y, w2)) l ys.
Proof.
  revert w ys. induction l as [ | x l IH ]; simpl; intros w ys H.
  - injection H as <- <-. constructor.
  - returned_steps H. injection H as <- <-. constructor; eauto.
Qed.

(** X18. An image set or live photo gets one download per image, in order.
    On Source A the item is a live photo as soon as one image carries a
    video, and then each download is what [__classify_slides_item] gives for
    the image; otherwise, and always on Source B, each download is the URL
    candidate of the image at the end of its list, or at the configured
    index on Source B, and empty when the image has none. *)
Theorem image_downloads_per_slide (it it' : item) (data images : value) (tiktok : bool)
    (w w' : world) :
  (if tiktok then extract_image_info_tiktok E it data images w
   else extract_image_info E it data images w) = (Ok it', w') ->
  exists slides urls live,
    py_iter images = Ok slides
    /\ it' !! "downloads" = Some (VList urls)
    /\ length urls = length slides
    /\ (if tiktok then Ok false else any_video slides) = Ok live
    /\ it' !! "type" = Some (VStr (tr E (if live then "实况" else "图集")))
    /\ Forall2 (fun slide url =>
                  if live then
                    exists w1 w2, classify_slides_item E slide w1 = (Ok url, w2)
                  else
                    safe_extract slide
                      (if tiktok then
                         "imageURL.urlList[" +:+ pretty (IMAGE_TIKTOK_INDEX E) +:+ "]"
                       else "url_list[-1]") (VStr "") = Ok url) slides urls.
Proof.
  destruct tiktok.
  - unfold extract_image_info_tiktok. intros H. returned_steps H.
    rewrite set_blank_data_eq in Hstep. injection Hstep as <-. injection H as <- <-.
    apply omap_ok_each in Hstep1.
    exists a0, a1, false. repeat split; auto; try read_field.
    symmetry. eapply Forall2_length. exact Hstep1.
  - unfold extract_image_info. intros H. returned_steps H.
    destruct a0; returned_steps H; rewrite set_blank_data_eq in Hstep1;
      injection Hstep1 as <-; injection H as <- <-.
    + apply mmap_ok_pairs in Hstep2.
      exists a, a1, true. repeat split; auto; try read_field.
      symmetry. eapply Forall2_length. exact Hstep2.
    + apply omap_ok_each in Hstep2.
      exists a, a1, false. repeat split; auto; try read_field.
      symmetry. eapply Forall2_length. exact Hstep2.
Qed.

End slides.

Lemma image_downloads_per_slide_witness :
  let images := VList [VNs [("url_list", VList [VStr "a"; VStr "b"])]; VNs []] in
  exists it', extract_image_info Sample.standard ∅ VNone images Sample.fresh
              = (Ok it', Sample.fresh)
              /\ it' !! "downloads" = Some (VList [VStr "b"; VStr ""])
              /\ exists slides urls, py_iter images = Ok slides
                                     /\ it' !! "downloads" = Some (VList urls)
                                     /\ length urls = length slides.
Proof.
  intros images. eexists. split; [ reflexivity | ]. split; [ reflexivity | ].
  destruct (image_downloads_per_slide Sample.standard ∅ _ VNone images false
              Sample.fresh Sample.fresh eq_refl)
    as (slides & urls & live & Hs & Hd & Hl & _).
  exists slides, urls. auto.
Defined.

(** *** The settings file *)

Lemma assoc_setitem (k k' : string) (v : value) (d : Settings.dict) :
  assoc k' (Settings.setitem k v d) = if String.eqb k' k then Some v else assoc k' d.
Proof.
  induction d as [ | [k0 x] d IH ]; simpl.
  - destruct (String.eqb k' k); reflexivity.
  - destruct (String.eqb_spec k k0) as [<- | Hk]; simpl.
    + destruct (String.eqb k' k); reflexivity.
    + rewrite IH. destruct (String.eqb_spec k' k0) as [-> | Hk'].
      * apply not_eq_sym in Hk. apply String.eqb_neq in Hk. rewrite Hk. reflexivity.
      * reflexivity.
Qed.

Lemma setitem_same (k : string) (v : value) (d : Settings.dict) :
  assoc k d = Some v -> Settings.setitem k v d = d.
Proof.
  induction d as [ | [k0 x] d IH ]; simpl; [ discriminate | ].
  destruct (String.eqb_spec k k0) as [<- | Hk].
  - intros [= ->]. reflexivity.
  - intros H. rewrite IH by exact H. reflexivity.
Qed.

Lemma has_key_setitem (k k' : string) (v : value) (d : Settings.dict) :
  Settings.has_key k' (Settings.setitem k v d)
  = String.eqb k' k || Settings.has_key k' d.
Proof.
  unfold Settings.has_key. rewrite assoc_setitem.
  destruct (String.eqb k' k); reflexivity.
Qed.

Section settings_file.
Context (tr : string -> string).

(** One renaming round: a key the data has keeps its value, and the new name
    of an old key the data has takes the old key's value. *)
Lemma rename_one_spec (st : Settings.dict * Settings.env) (old new_ : string)
    (fallback : value) :
  (forall k,
      assoc k (fst (Settings.rename_one tr st (old, new_, fallback)))
      = match assoc k (fst st) with
        | Some v => Some v
        | None => if String.eqb k new_ then assoc old (fst st) else None
        end)
  /\ snd (Settings.rename_one tr st (old, new_, fallback))
     = (if Settings.has_key old (fst st)
        then Settings.say (fst (Settings.renamed_notice tr old new_))
               (snd (Settings.renamed_notice tr old new_)) (snd st)
        else snd st).
Proof.
  destruct st as [data e]. unfold Settings.rename_one, Settings.has_key. simpl.
  destruct (assoc old data) as [x | ] eqn:Hold; simpl.
  - split; [ | reflexivity ]. intros k. rewrite assoc_setitem. unfold Settings.get.
    rewrite Hold.
    destruct (String.eqb_spec k new_) as [-> | _].
    + destruct (assoc new_ data); reflexivity.
    + destruct (assoc k data); reflexivity.
  - split; [ | reflexivity ]. intros k.
    destruct (assoc k data); [ reflexivity | ]. destruct (String.eqb k new_); reflexivity.
Qed.

Lemma compatible_with_old_settings_spec (data : Settings.dict) (e : Settings.env) :
  let r := Settings.compatible_with_old_settings tr data e in
  (forall k,
      assoc k (fst r)
      = match assoc k data with
        | Some v => Some v
        | None => match Settings.old_name_of k with
                  | Some old => assoc old data
                  | None => None
                  end
        end)
  /\ Settings.console (snd r)
     = (Settings.console e
        ++ map (fun names => Settings.renamed_notice tr (fst names) (snd names))
             (Settings.renamed_in data))%list
  /\ Settings.here (snd r) = Settings.here e
  /\ Settings.above (snd r) = Settings.above e.
Proof.
  unfold Settings.compatible_with_old_settings, Settings.rename_params.
  cbn [fold_left].
  set (st1 := Settings.rename_one tr (data, e) _).
  set (st2 := Settings.rename_one tr st1 _).
  set (st3 := Settings.rename_one tr st2 _).
  set (st4 := Settings.rename_one tr st3 _).
  destruct (rename_one_spec (data, e) "default_mode" "run_command" (VStr "")) as [L1 S1].
  destruct (rename_one_spec st1 "update_cookie" "douyin_platform" (VBool true)) as [L2 S2].
  destruct (rename_one_spec st2 "update_cookie_tiktok" "tiktok_platform" (VBool true))
    as [L3 S3].
  destruct (rename_one_spec st3 "original_cover" "static_cover" (VBool false)) as [L4 S4].
  fold st1 in L1, S1. fold st2 in L2, S2. fold st3 in L3, S3. fold st4 in L4, S4.
  cbn [fst snd] in L1, S1.
  assert (forall k, String.eqb k "run_command" = false ->
                    assoc k (fst st1) = assoc k data) as K1.
  { intros k Hk. rewrite L1, Hk. destruct (assoc k data); reflexivity. }
  assert (forall k, String.eqb k "run_command" = false ->
                    String.eqb k "douyin_platform" = false ->
                    assoc k (fst st2) = assoc k data) as K2.
  { intros k Hk1 Hk2. rewrite L2, Hk2, (K1 k Hk1). destruct (assoc k data); reflexivity. }
  assert (forall k, String.eqb k "run_command" = false ->
                    String.eqb k "douyin_platform" = false ->
                    String.eqb k "tiktok_platform" = false ->
                    assoc k (fst st3) = assoc k data) as K3.
  { intros k Hk1 Hk2 Hk3. rewrite L3, Hk3, (K2 k Hk1 Hk2).
    destruct (assoc k data); reflexivity. }
  assert (Settings.has_key "update_cookie" (fst st1)
          = Settings.has_key "update_cookie" data) as H2
    by (unfold Settings.has_key; rewrite K1 by reflexivity; reflexivity).
  assert (Settings.has_key "update_cookie_tiktok" (fst st2)
          = Settings.has_key "update_cookie_tiktok" data) as H3
    by (unfold Settings.has_key; rewrite K2 by reflexivity; reflexivity).
  assert (Settings.has_key "original_cover" (fst st3)
          = Settings.has_key "original_cover" data) as H4
    by (unfold Settings.has_key; rewrite K3 by reflexivity; reflexivity).
  split.
  - intros k. rewrite L4, L3, L2, L1.
    rewrite (K1 "update_cookie"), (K2 "update_cookie_tiktok"), (K3 "original_cover")
      by reflexivity.
    unfold Settings.old_name_of, Settings.rename_params. cbn [List.find fst snd].
    destruct (assoc k data) as [v | ]; [ reflexivity | ].
    destruct (String.eqb_spec k "run_command") as [-> | _].
    { cbn. destruct (assoc "default_mode" data); reflexivity. }
    destruct (String.eqb_spec k "douyin_platform") as [-> | _].
    { cbn. destruct (assoc "update_cookie" data); reflexivity. }
    destruct (String.eqb_spec k "tiktok_platform") as [-> | _].
    { cbn. destruct (assoc "update_cookie_tiktok" data); reflexivity. }
    destruct (String.eqb k "static_cover"); reflexivity.
  - rewrite S4, S3, S2, S1, H2, H3, H4.
    unfold Settings.renamed_in, Settings.rename_params. cbn [List.filter fst snd].
    destruct (Settings.has_key "default_mode" data),
      (Settings.has_key "update_cookie" data),
      (Settings.has_key "update_cookie_tiktok" data),
      (Settings.has_key "original_cover" data);
      cbn [map fst snd Settings.say Settings.console Settings.here Settings.above];
      rewrite <- ?app_assoc, ?app_nil_r; repeat split; reflexivity.
Qed.

(** The loop of [__check] over any list of default entries with distinct
    keys. *)
Lemma add_missing_fold (defs data : Settings.dict) (changed : bool) (e : Settings.env) :
  NoDup (map fst defs) ->
  let r := fold_left (Settings.add_missing tr) defs (data, changed, e) in
  (forall k,
      assoc k (fst (fst r))
      = match assoc k data with
        | Some v => Some v
        | None => assoc k defs
        end)
  /\ snd (fst r)
     = changed || negb (forallb (fun kv => Settings.has_key (fst kv) data) defs)
  /\ Settings.console (snd r)
     = (Settings.console e
        ++ map (fun kv => Settings.missing_notice tr (fst kv))
             (List.filter (fun kv => negb (Settings.has_key (fst kv) data)) defs))%list
  /\ Settings.here (snd r) = Settings.here e
  /\ Settings.above (snd r) = Settings.above e
  /\ (forallb (fun kv => Settings.has_key (fst kv) data) defs = true ->
      fst (fst r) = data).
Proof.
  revert data changed e.
  induction defs as [ | [k1 v1] defs IH ]; intros data changed e Hnd; cbn [fold_left].
  - cbn. rewrite orb_false_r, app_nil_r. repeat split; auto.
    intros k. destruct (assoc k data); reflexivity.
  - cbn [map fst] in Hnd. apply NoDup_cons in Hnd as [Hk1 Hnd].
    assert (Settings.add_missing tr (data, changed, e) (k1, v1)
            = if Settings.has_key k1 data then (data, changed, e)
              else (Settings.setitem k1 v1 data, true,
                    Settings.say (fst (Settings.missing_notice tr k1))
                      (snd (Settings.missing_notice tr k1)) e)) as -> by reflexivity.
    cbv zeta. cbn [forallb List.filter fst negb map].
    destruct (Settings.has_key k1 data) eqn:Hhas; cbn [andb negb map].
    + destruct (IH data changed e Hnd) as (L & C & P & Hh & Ha & Same).
      split; [ | split; [ | split; [ | split; [ | split ] ] ] ];
        [ | exact C | exact P | exact Hh | exact Ha | exact Same ].
      intros k. rewrite L. cbn [assoc].
      destruct (assoc k data) eqn:Hk; [ reflexivity | ].
      destruct (String.eqb_spec k k1) as [-> | _]; [ | reflexivity ].
      unfold Settings.has_key in Hhas. rewrite Hk in Hhas. discriminate.
    + set (data1 := Settings.setitem k1 v1 data).
      set (e1 := Settings.say _ _ e).
      destruct (IH data1 true e1 Hnd) as (L & C & P & Hh & Ha & _).
      assert (forall kv, In kv defs ->
                         Settings.has_key (fst kv) data1 = Settings.has_key (fst kv) data)
        as Hsame.
      { intros [k v] Hin. unfold data1. rewrite has_key_setitem. cbn [fst].
        destruct (String.eqb_spec k k1) as [-> | _]; [ | reflexivity ].
        exfalso. apply Hk1. apply list_elem_of_In, in_map_iff. exists (k1, v). auto. }
      split; [ | split; [ | split; [ | split; [ | split ] ] ] ].
      * intros k. rewrite L. unfold data1. rewrite assoc_setitem. cbn [assoc].
        destruct (String.eqb_spec k k1) as [-> | _].
        -- unfold Settings.has_key in Hhas.
           destruct (assoc k1 data); [ discriminate | reflexivity ].
        -- reflexivity.
      * rewrite C. rewrite orb_true_r. reflexivity.
      * rewrite P. unfold e1. cbn [Settings.say Settings.console].
        rewrite <- app_assoc. cbn [app]. do 3 f_equal.
        apply filter_ext_in. intros kv Hin. rewrite (Hsame kv Hin). reflexivity.
      * rewrite Hh. reflexivity.
      * rewrite Ha. reflexivity.
      * discriminate.
Qed.

Lemma default_keys_distinct : NoDup (map fst Settings.default).
Proof.
  apply (bool_decide_unpack _). vm_compute. exact I.
Qed.

Lemma In_has_key (k : string) (v : value) (d : Settings.dict) :
  In (k, v) d -> Settings.has_key k d = true.
Proof.
  unfold Settings.has_key. induction d as [ | [k0 x] d IH ]; simpl; [ tauto | ].
  intros [[= -> ->] | Hin].
  - rewrite String.eqb_refl. reflexivity.
  - destruct (String.eqb k k0); [ reflexivity | auto ].
Qed.

(** What [__check] returns and does, in terms of the data after the renaming
    pass. *)
Lemma check_spec (data : Settings.dict) (e : Settings.env) :
  let renamed := fst (Settings.compatible_with_old_settings tr data e) in
  let r := Settings.check tr data e in
  (forall k,
      assoc k (fst r)
      = match assoc k renamed with
        | Some v => Some v
        | None => assoc k Settings.default
        end)
  /\ (Settings.complete renamed = true -> fst r = renamed)
  /\ Settings.here (snd r)
     = (if Settings.complete renamed then Settings.here e
        else Some (Settings.Object (fst r)))
  /\ Settings.above (snd r) = Settings.above e
  /\ Settings.console (snd r)
     = (Settings.console e
        ++ map (fun names => Settings.renamed_notice tr (fst names) (snd names))
             (Settings.renamed_in data)
        ++ map (fun kv => Settings.missing_notice tr (fst kv)) (Settings.missing_in renamed)
        ++ (if Settings.complete renamed then [] else [Settings.saved_notice tr]))%list.
Proof.
  cbv zeta. unfold Settings.check, Settings.complete, Settings.missing_in.
  destruct (compatible_with_old_settings_spec data e) as (_ & C1 & H1 & A1).
  destruct (Settings.compatible_with_old_settings tr data e) as [d1 e1].
  cbn [fst snd] in *.
  destruct (add_missing_fold Settings.default d1 false e1 default_keys_distinct)
    as (L & C & P & Hh & Ha & Same).
  destruct (fold_left (Settings.add_missing tr) Settings.default (d1, false, e1))
    as [[d2 changed] e2].
  cbn [fst snd orb] in *. subst changed.
  destruct (forallb (fun kv => Settings.has_key (fst kv) d1) Settings.default);
    cbn [negb fst snd].
  - rewrite P, C1, Hh, Ha, H1, A1, app_nil_r, <- app_assoc. auto.
  - unfold Settings.update.
    cbn [Settings.say Settings.dump Settings.console Settings.here Settings.above].
    rewrite P, C1, Ha, A1, <- !app_assoc. repeat split; auto.
Qed.

Lemma check_complete (data : Settings.dict) (e : Settings.env) :
  Settings.complete (fst (Settings.check tr data e)) = true.
Proof.
  destruct (check_spec data e) as (L & _). unfold Settings.complete.
  apply forallb_forall. intros [k v] Hin. cbn [fst].
  unfold Settings.has_key. rewrite L.
  destruct (assoc k _); [ reflexivity | ].
  apply In_has_key in Hin. unfold Settings.has_key in Hin. exact Hin.
Qed.

Lemma complete_has_key (d : Settings.dict) (k : string) :
  Settings.complete d = true -> Settings.has_key k Settings.default = true ->
  Settings.has_key k d = true.
Proof.
  unfold Settings.complete. rewrite forallb_forall. intros Hc Hk.
  unfold Settings.has_key in Hk. destruct (assoc k Settings.default) as [v | ] eqn:Ha;
    [ | discriminate ].
  apply assoc_In in Ha. apply (Hc (k, v) Ha).
Qed.

(** A renaming round changes nothing in data that has the new name. *)
Lemma rename_one_settled (st : Settings.dict * Settings.env) (old new_ : string)
    (fallback : value) :
  Settings.has_key new_ (fst st) = true ->
  fst (Settings.rename_one tr st (old, new_, fallback)) = fst st.
Proof.
  destruct st as [data e]. unfold Settings.rename_one, Settings.has_key. cbn [fst].
  intros Hnew. destruct (assoc old data); [ | reflexivity ]. cbn [fst].
  destruct (assoc new_ data) as [x | ] eqn:Hx; [ | discriminate ].
  apply setitem_same. unfold Settings.get. rewrite Hx. reflexivity.
Qed.

Lemma rename_fold_settled (ps : list (string * string * value))
    (st : Settings.dict * Settings.env) :
  Forall (fun p => Settings.has_key (snd (fst p)) (fst st) = true) ps ->
  fst (fold_left (Settings.rename_one tr) ps st) = fst st.
Proof.
  revert st. induction ps as [ | [[old new_] fallback] ps IH ]; intros st Hps;
    cbn [fold_left]; [ reflexivity | ].
  apply List.Forall_cons_iff in Hps as [Hp Hps]. cbn [fst snd] in Hp.
  pose proof (rename_one_settled st old new_ fallback Hp) as Hst.
  rewrite IH; [ exact Hst | ]. rewrite Hst. exact Hps.
Qed.

Lemma compatible_with_old_settings_settled (d : Settings.dict) (e : Settings.env) :
  Settings.complete d = true ->
  fst (Settings.compatible_with_old_settings tr d e) = d.
Proof.
  intros Hc. unfold Settings.compatible_with_old_settings.
  apply (rename_fold_settled Settings.rename_params (d, e)).
  repeat constructor; cbn [fst snd]; apply (complete_has_key d _ Hc); reflexivity.
Qed.

(** The settings [__check] returns do not depend on the console or the
    files, and neither does whether it saves them. *)
Lemma rename_fold_data (ps : list (string * string * value)) (d : Settings.dict)
    (e e' : Settings.env) :
  fst (fold_left (Settings.rename_one tr) ps (d, e))
  = fst (fold_left (Settings.rename_one tr) ps (d, e')).
Proof.
  revert d e e'. induction ps as [ | [[old new_] fallback] ps IH ]; intros d e e';
    cbn [fold_left]; [ reflexivity | ].
  unfold Settings.rename_one at 2 4.
  destruct (Settings.has_key old d); apply IH.
Qed.

Lemma add_missing_fold_data (defs d : Settings.dict) (changed : bool)
    (e e' : Settings.env) :
  fst (fold_left (Settings.add_missing tr) defs (d, changed, e))
  = fst (fold_left (Settings.add_missing tr) defs (d, changed, e')).
Proof.
  revert d changed e e'. induction defs as [ | [k v] defs IH ]; intros d changed e e';
    cbn [fold_left]; [ reflexivity | ].
  unfold Settings.add_missing at 2 4. cbn [fst snd].
  destruct (Settings.has_key k d); apply IH.
Qed.

Lemma check_data (d : Settings.dict) (e e' : Settings.env) :
  fst (Settings.check tr d e) = fst (Settings.check tr d e').
Proof.
  unfold Settings.check, Settings.compatible_with_old_settings.
  pose proof (rename_fold_data Settings.rename_params d e e') as Hr.
  destruct (fold_left (Settings.rename_one tr) Settings.rename_params (d, e)) as [d1 e1].
  destruct (fold_left (Settings.rename_one tr) Settings.rename_params (d, e')) as [d1' e1'].
  cbn [fst] in Hr. subst d1'.
  pose proof (add_missing_fold_data Settings.default d1 false e1 e1') as Ha.
  destruct (fold_left (Settings.add_missing tr) Settings.default (d1, false, e1))
    as [[d2 c] e2].
  destruct (fold_left (Settings.add_missing tr) Settings.default (d1, false, e1'))
    as [[d2' c'] e2'].
  cbn [fst] in Ha. injection Ha as -> ->. destruct c'; reflexivity.
Qed.

Lemma complete_nothing_missing (d : Settings.dict) :
  Settings.complete d = true -> Settings.missing_in d = [].
Proof.
  unfold Settings.complete, Settings.missing_in.
  induction Settings.default as [ | kv l IH ]; cbn [forallb List.filter];
    [ reflexivity | ].
  intros [-> Hl]%andb_prop. cbn [negb]. auto.
Qed.

Lemma check_settled (d : Settings.dict) (e : Settings.env) :
  Settings.complete d = true ->
  fst (Settings.check tr d e) = d
  /\ Settings.here (snd (Settings.check tr d e)) = Settings.here e
  /\ Settings.above (snd (Settings.check tr d e)) = Settings.above e.
Proof.
  intros Hc. destruct (check_spec d e) as (_ & Hsame & Hh & Ha & _).
  rewrite (compatible_with_old_settings_settled d e Hc) in Hsame, Hh.
  rewrite Hc in Hh. auto.
Qed.

Lemma env_eta (e e' : Settings.env) :
  Settings.console e' = Settings.console e -> Settings.here e' = Settings.here e ->
  Settings.above e' = Settings.above e -> e' = e.
Proof. destruct e, e'. simpl. intros -> -> ->. reflexivity. Qed.

(** Reading again after [__check] ran on the file's settings. *)
Lemma check_then_read (d : Settings.dict) (e : Settings.env) :
  Settings.here e = Some (Settings.Object d) ->
  let r := Settings.check tr d e in
  fst (Settings.read tr (snd r)) = fst r
  /\ Settings.here (snd (Settings.read tr (snd r))) = Settings.here (snd r)
  /\ Settings.above (snd (Settings.read tr (snd r))) = Settings.above (snd r).
Proof.
  intros He r. destruct (check_spec d e) as (_ & Hsame & Hh & Ha & _). fold r in Hsame, Hh, Ha.
  assert (Settings.compatible (snd r) = snd r) as Hcompat.
  { unfold Settings.compatible. rewrite Hh.
    destruct (Settings.above (snd r)); [ | reflexivity ].
    destruct (Settings.complete _); [ rewrite He | ]; reflexivity. }
  unfold Settings.read. rewrite Hcompat, Hh.
  destruct (Settings.complete (fst (Settings.compatible_with_old_settings tr d e)))
    eqn:Hc.
  - rewrite He. split; [ apply check_data | ].
    assert (Settings.complete (fst (Settings.compatible_with_old_settings tr d (snd r)))
            = true) as Hc2.
    { rewrite <- Hc. unfold Settings.compatible_with_old_settings. f_equal.
      apply rename_fold_data. }
    destruct (check_spec d (snd r)) as (_ & _ & Hh2 & Ha2 & _).
    rewrite Hc2 in Hh2. split; [ rewrite Hh2, Hh; congruence | exact Ha2 ].
  - destruct (check_settled (fst r) (snd r) (check_complete d e)) as (A & B & C).
    rewrite A, B, C, Hh. auto.
Qed.

(** X19. [__check] completes the settings: a parameter the file has keeps
    its value, a new name the file lacks takes the value of its old name
    when the file has that, and every other parameter of [default] the file
    lacks takes its default, so the result has every default parameter.  The
    file is rewritten, with the result, exactly when a default parameter was
    still missing after the renaming pass; the console then shows one line
    per renamed parameter, one per added parameter in the order of
    [default], and the confirmation. *)
Theorem check_completes_settings (data : Settings.dict) (e : Settings.env) :
  let renamed := fst (Settings.compatible_with_old_settings tr data e) in
  let r := Settings.check tr data e in
  (forall k,
      assoc k (fst r)
      = match assoc k data with
        | Some v => Some v
        | None =>
            match match Settings.old_name_of k with
                  | Some old => assoc old data
                  | None => None
                  end with
            | Some v => Some v
            | None => assoc k Settings.default
            end
        end)
  /\ Settings.complete (fst r) = true
  /\ Settings.here (snd r)
     = (if Settings.complete renamed then Settings.here e
        else Some (Settings.Object (fst r)))
  /\ Settings.above (snd r) = Settings.above e
  /\ Settings.console (snd r)
     = (Settings.console e
        ++ map (fun names => Settings.renamed_notice tr (fst names) (snd names))
             (Settings.renamed_in data)
        ++ map (fun kv => Settings.missing_notice tr (fst kv)) (Settings.missing_in renamed)
        ++ (if Settings.complete renamed then [] else [Settings.saved_notice tr]))%list.
Proof.
  intros renamed r. destruct (check_spec data e) as (L & _ & Hh & Ha & Hc).
  destruct (compatible_with_old_settings_spec data e) as (L1 & _).
  split; [ | split; [ apply check_complete | auto ] ].
  intros k. unfold r. rewrite L, L1. destruct (assoc k data); reflexivity.
Qed.

(** X20. A renamed parameter alone is carried over but not saved: when the
    file has an old name and lacks only its new name, the settings returned
    have the old value under the new name, the old name stays, and the file
    is left as it was, so the next start meets the old name again. *)
Theorem renamed_parameter_is_not_saved (data : Settings.dict) (e : Settings.env)
    (old new_ : string) (fallback v : value) :
  In (old, new_, fallback) Settings.rename_params ->
  assoc old data = Some v ->
  assoc new_ data = None ->
  forallb (fun kv => String.eqb (fst kv) new_ || Settings.has_key (fst kv) data)
    Settings.default = true ->
  let r := Settings.check tr data e in
  assoc new_ (fst r) = Some v
  /\ assoc old (fst r) = Some v
  /\ Settings.here (snd r) = Settings.here e
  /\ Settings.console (snd r)
     = (Settings.console e
        ++ map (fun names => Settings.renamed_notice tr (fst names) (snd names))
             (Settings.renamed_in data))%list.
Proof.
  intros Hin Hold Hnew Hrest r.
  destruct (check_spec data e) as (_ & Hsame & Hh & _ & Hc). fold r in Hsame, Hh, Hc.
  destruct (compatible_with_old_settings_spec data e) as (L1 & _).
  assert (Settings.old_name_of new_ = Some old) as Hname.
  { unfold Settings.rename_params in Hin. cbn [In] in Hin.
    destruct Hin as [[= <- <- _] | [[= <- <- _] | [[= <- <- _] | [[= <- <- _] | []]]]];
      reflexivity. }
  assert (Settings.complete (fst (Settings.compatible_with_old_settings tr data e)) = true)
    as Hcomplete.
  { unfold Settings.complete. apply forallb_forall. intros [k x] Hk. cbn [fst].
    unfold Settings.has_key. rewrite L1.
    pose proof (proj1 (forallb_forall _ _) Hrest (k, x) Hk) as Hhas. cbn [fst] in Hhas.
    destruct (String.eqb_spec k new_) as [-> | Hne].
    - rewrite Hnew, Hname, Hold. reflexivity.
    - unfold Settings.has_key in Hhas. cbn [orb] in Hhas.
      destruct (assoc k data); [ reflexivity | discriminate ]. }
  rewrite Hcomplete in Hh, Hc. rewrite (Hsame Hcomplete).
  rewrite (complete_nothing_missing _ Hcomplete) in Hc.
  rewrite !L1, Hnew, Hname, Hold. cbn [map app] in Hc. rewrite app_nil_r in Hc. auto.
Qed.

(** X21. Reading the settings twice gives the same settings, and the second
    reading leaves both files as the first left them, whether the settings
    file is absent, holds a JSON object or is not JSON. *)
Theorem read_twice_is_stable (e : Settings.env) :
  let first := Settings.read tr e in
  let second := Settings.read tr (snd first) in
  fst second = fst first
  /\ Settings.here (snd second) = Settings.here (snd first)
  /\ Settings.above (snd second) = Settings.above (snd first).
Proof.
  assert (Settings.compatible (Settings.compatible e) = Settings.compatible e) as Hc.
  { unfold Settings.compatible.
    destruct (Settings.above e) as [c | ] eqn:Ha, (Settings.here e) as [h | ] eqn:Hh;
      cbn [Settings.here Settings.above]; rewrite ?Ha, ?Hh; reflexivity. }
  assert (forall e1, Settings.read tr e1 = Settings.read tr (Settings.compatible e1))
    as Hread.
  { intros e1. unfold Settings.read.
    assert (Settings.compatible (Settings.compatible e1) = Settings.compatible e1) as ->;
      [ | reflexivity ].
    unfold Settings.compatible.
    destruct (Settings.above e1) as [c | ] eqn:Ha, (Settings.here e1) as [h | ] eqn:Hh;
      cbn [Settings.here Settings.above]; rewrite ?Ha, ?Hh; reflexivity. }
  cbv zeta. rewrite (Hread e). generalize dependent (Settings.compatible e).
  clear e. intros e0 Hc.
  assert (Settings.read tr e0
          = match Settings.here e0 with
            | Some (Settings.Object data) => Settings.check tr data e0
            | Some Settings.Malformed =>
                (Settings.default,
                 Settings.say (fst (Settings.malformed_notice tr))
                   (snd (Settings.malformed_notice tr)) e0)
            | None => Settings.create tr e0
            end) as ->.
  { unfold Settings.read. rewrite Hc. reflexivity. }
  destruct (Settings.here e0) as [[d | ] | ] eqn:Hh.
  - apply (check_then_read d e0 Hh).
  - cbn [fst snd]. unfold Settings.read, Settings.compatible.
    cbn [Settings.say Settings.here Settings.above]. rewrite Hh.
    destruct (Settings.above e0) eqn:Ha; cbn [Settings.say Settings.here Settings.above];
      rewrite Hh; cbn [fst snd Settings.say Settings.here Settings.above];
      rewrite ?Hh, ?Ha; auto.
  - unfold Settings.create. cbn [fst snd]. unfold Settings.read, Settings.compatible.
    cbn [Settings.say Settings.dump Settings.here Settings.above].
    assert (Settings.complete Settings.default = true) as Hd
        by (vm_compute; reflexivity).
    destruct (Settings.above e0) eqn:Ha;
      cbn [Settings.say Settings.dump Settings.here Settings.above];
      match goal with
      | |- context [Settings.check tr ?d ?e1] =>
          destruct (check_settled d e1 Hd) as (A & B & C)
      end;
      rewrite A, B, C; cbn [Settings.say Settings.dump Settings.here Settings.above];
      rewrite ?Ha; auto.
Qed.


End settings_file.

Lemma renamed_parameter_is_not_saved_witness :
  let data :=
    ("default_mode", VStr "5")
      :: List.filter (fun kv => negb (String.eqb (fst kv) "run_command")) Settings.default in
  let e := {| Settings.console := []; Settings.here := Some (Settings.Object data);
              Settings.above := None |} in
  let r := Settings.check id data e in
  assoc "run_command" (fst r) = Some (VStr "5")
  /\ assoc "default_mode" (fst r) = Some (VStr "5")
  /\ Settings.here (snd r) = Some (Settings.Object data)
  /\ Settings.console (snd r)
     = [Settings.renamed_notice id "default_mode" "run_command"].
Proof.
  intros data e.
  exact (renamed_parameter_is_not_saved id data e "default_mode" "run_command"
           (VStr "") (VStr "5") (or_introl eq_refl) eq_refl eq_refl eq_refl).
Defined.
